(** * First-order Taylor approximations of [parsimony.functions.taylor]

    A shallow embedding of [src/parsimony/functions/taylor.py]:

    - the fragment of numpy the module uses ([np.dot], [.T], broadcasting
      arithmetic, [val[0, 0]]) over arrays of integers;
    - the classes [BaseTaylor] / [FirstOrderTaylorApproximation] and
      [MultiblockBaseTaylor] / [MultiblockFirstOrderTaylorApproximation] as
      state-passing functions over a record of the instance attributes,
      with the calls made to the wrapped function logged;
    - [FirstOrderTaylorWrapper] ([__call__], [_wrap], [_mb_wrap]) over a
      record of the attributes the wrapper reads and writes, on a heap
      with [copy.deepcopy].

    Numbers are exact ([Z]); rounding of floating point arithmetic is not
    modelled.  Exceptions are values of [exn]. *)

From Stdlib Require Import ZArith QArith List Lia Bool.
From stdpp Require Import base list.
Import ListNotations.

Set Warnings "-register-all".

(* ------------------------------------------------------------------ *)
(** ** Exceptions and the error monad *)

Inductive exn :=
| RuntimeError
| TypeError
| ValueError
| IndexError
| AttributeError.

Inductive result (A : Type) :=
| Ok (a : A)
| Raise (e : exn).
Arguments Ok {A} a.
Arguments Raise {A} e.

Definition bind {A B} (m : result A) (k : A -> result B) : result B :=
  match m with
  | Ok a => k a
  | Raise e => Raise e
  end.

Notation "x <- m ;; k" := (bind m (fun x => k))
  (at level 100, m at next level, right associativity).

Definition rmap {A B} (g : A -> B) (m : result A) : result B :=
  x <- m ;; Ok (g x).

Fixpoint mapM {A B} (g : A -> result B) (l : list A) : result (list B) :=
  match l with
  | [] => Ok []
  | x :: l' => y <- g x ;; ys <- mapM g l' ;; Ok (y :: ys)
  end.

Fixpoint zipM {A B C} (g : A -> B -> result C) (la : list A) (lb : list B)
  : result (list C) :=
  match la, lb with
  | x :: la', y :: lb' => z <- g x y ;; zs <- zipM g la' lb' ;; Ok (z :: zs)
  | _, _ => Ok []
  end.

Definition returns {A} (m : result A) : bool :=
  match m with Ok _ => true | Raise _ => false end.

(* ------------------------------------------------------------------ *)
(** ** The numpy fragment *)

Module np.

(** An array is a nesting of lists of scalars, outermost axis first; a
    real numpy array is rectangular.  [Sc z] is a scalar (a 0-d array). *)
Inductive ndarray :=
| Sc (z : Z)
| Ar (l : list ndarray).

Definition children (a : ndarray) : list ndarray :=
  match a with
  | Sc _ => []
  | Ar l => l
  end.

Fixpoint ndim (a : ndarray) : nat :=
  match a with
  | Sc _ => 0
  | Ar l => S (match l with [] => 0 | x :: _ => ndim x end)
  end.

Fixpoint shape (a : ndarray) : list nat :=
  match a with
  | Sc _ => []
  | Ar l => length l :: match l with [] => [] | x :: _ => shape x end
  end.

(** A 1-d array and a p-by-1 array (the column vectors of parsimony). *)
Definition vec (v : list Z) : ndarray := Ar (map Sc v).
Definition col (v : list Z) : ndarray := Ar (map (fun z => Ar [Sc z]) v).
Definition row (v : list Z) : ndarray := Ar [vec v].

(** [np.asarray] of a Python list of arrays: the arrays are stacked along
    a new first axis; arrays of different shapes are refused. *)
Definition list_eqb (u v : list nat) : bool :=
  bool_decide (u = v).

Definition asarray (l : list ndarray) : result ndarray :=
  match l with
  | [] => Ok (Ar [])
  | x :: _ =>
      if forallb (fun y => list_eqb (shape y) (shape x)) l
      then Ok (Ar l) else Raise ValueError
  end.

(** Elementwise arithmetic with broadcasting: shapes are aligned at their
    last axes; an axis of length 1 is stretched; other length mismatches
    raise ValueError.  [fuel] bounds the depth of the arrays. *)
Fixpoint broadcast (fuel : nat) (op : Z -> Z -> Z) (a b : ndarray)
  : result ndarray :=
  match a, b with
  | Sc x, Sc y => Ok (Sc (op x y))
  | _, _ =>
      match fuel with
      | 0 => Raise ValueError
      | S n =>
          match Nat.compare (ndim a) (ndim b) with
          | Lt => rmap Ar (mapM (fun y => broadcast n op a y) (children b))
          | Gt => rmap Ar (mapM (fun x => broadcast n op x b) (children a))
          | Eq =>
              let la := children a in
              let lb := children b in
              if length la =? length lb
              then rmap Ar (zipM (broadcast n op) la lb)
              else match la, lb with
                   | [x], _ => rmap Ar (mapM (fun y => broadcast n op x y) lb)
                   | _, [y] => rmap Ar (mapM (fun x => broadcast n op x y) la)
                   | _, _ => Raise ValueError
                   end
          end
      end
  end.

Definition elementwise (op : Z -> Z -> Z) (a b : ndarray) : result ndarray :=
  broadcast (S (Nat.max (ndim a) (ndim b))) op a b.

Definition add := elementwise Z.add.
Definition sub := elementwise Z.sub.
Definition multiply := elementwise Z.mul.

(** Transposition of a list of rows. *)
Definition transpose {A} (ncols : nat) (rows : list (list A)) : list (list A) :=
  fold_right (fun r acc => zip_with cons r acc) (replicate ncols []) rows.

Definition ncols {A} (rows : list (list A)) : nat :=
  match rows with
  | [] => 0
  | r :: _ => length r
  end.

(** [a.T]: the axes of [a] in reverse order. *)
Fixpoint stack_last (n : nat) (bs : list ndarray) : ndarray :=
  match n with
  | 0 => Ar bs
  | S n' =>
      let rows := map children bs in
      Ar (map (stack_last n') (transpose (ncols rows) rows))
  end.

Fixpoint T (a : ndarray) : ndarray :=
  match a with
  | Sc z => Sc z
  | Ar l => stack_last (pred (ndim a)) (map T l)
  end.

(** [np.dot]. *)
Definition scalars (a : ndarray) : result (list Z) :=
  match a with
  | Sc _ => Raise ValueError
  | Ar l => mapM (fun x => match x with
                           | Sc z => Ok z
                           | Ar _ => Raise ValueError
                           end) l
  end.

Definition matrix (a : ndarray) : result (list (list Z)) :=
  mapM scalars (children a).

Definition sum (v : list Z) : Z := fold_right Z.add 0%Z v.

(** Sum product of two 1-d operands; their lengths must agree. *)
Definition inner (u v : list Z) : result Z :=
  if length u =? length v
  then Ok (sum (zip_with Z.mul u v))
  else Raise ValueError.

(** 1-d [u] times 2-d [m]: the length of [u] must be the number of rows. *)
Definition vecmat (u : list Z) (m : list (list Z)) : result (list Z) :=
  if length u =? length m
  then mapM (inner u) (transpose (ncols m) m)
  else Raise ValueError.

Fixpoint at_depth (n : nat) (k : ndarray -> result ndarray) (a : ndarray)
  : result ndarray :=
  match n with
  | 0 => k a
  | S n' =>
      match a with
      | Sc _ => Raise ValueError
      | Ar l => rmap Ar (mapM (at_depth n' k) l)
      end
  end.

(** [np.dot a b]: a product when an operand is a scalar; otherwise the sum
    product over the last axis of [a] and the second-to-last axis of [b]
    (the only axis of a 1-d [b]); the two lengths must agree, or numpy
    raises ValueError (shapes not aligned). *)
Definition dot (a b : ndarray) : result ndarray :=
  match ndim a, ndim b with
  | 0, _ | _, 0 => multiply a b
  | S da, 1 =>
      v <- scalars b ;;
      at_depth da (fun r => u <- scalars r ;; rmap Sc (inner u v)) a
  | S da, S (S db) =>
      at_depth da
        (fun r =>
           u <- scalars r ;;
           at_depth db (fun m => rows <- matrix m ;; rmap vec (vecmat u rows)) b)
        a
  end.

(** [a[i, j]]. *)
Definition getitem2 (a : ndarray) (i j : nat) : result ndarray :=
  match children a !! i with
  | None => Raise IndexError
  | Some r =>
      match children r !! j with
      | None => Raise IndexError
      | Some x => Ok x
      end
  end.

End np.


(* ------------------------------------------------------------------ *)
(** ** Python values the module handles *)

(** A point is a numpy array or a Python list of arrays (one per block). *)
Inductive pyv :=
| PArr (a : np.ndarray)
| PList (l : list np.ndarray).

(** An entry of a list of block indices: a Python int or a (finite)
    float, given by its exact value. *)
Inductive pyidx :=
| PyInt (z : Z)
| PyFloat (q : Q).

(** [int(x)]: a float is truncated towards zero. *)
Definition int (x : pyidx) : Z :=
  match x with
  | PyInt z => z
  | PyFloat q => Z.quot (Qnum q) (Zpos (Qden q))
  end.

(** [l[i]] on a sequence: a negative index counts from the end. *)
Definition seq_getitem {A} (l : list A) (i : Z) : result A :=
  let n := Z.of_nat (length l) in
  let j := if (i <? 0)%Z then (i + n)%Z else i in
  if ((0 <=? j)%Z && (j <? n)%Z)%bool
  then match l !! Z.to_nat j with
       | Some x => Ok x
       | None => Raise IndexError
       end
  else Raise IndexError.

(** [p[i]]: a list wants an int (TypeError otherwise); an array indexes
    its first axis and refuses a float or a 0-d array with IndexError. *)
Definition getitem (p : pyv) (i : pyidx) : result np.ndarray :=
  match p, i with
  | PList l, PyInt z => seq_getitem l z
  | PList _, PyFloat _ => Raise TypeError
  | PArr (np.Ar l), PyInt z => seq_getitem l z
  | PArr _, _ => Raise IndexError
  end.

(** [len(p)]. *)
Definition len (p : pyv) : result nat :=
  match p with
  | PList l => Ok (length l)
  | PArr (np.Ar l) => Ok (length l)
  | PArr (np.Sc _) => Raise TypeError
  end.

(** [x - y]: numpy stacks a list operand into an array first; two lists
    have no subtraction. *)
Definition py_sub (x y : pyv) : result np.ndarray :=
  match x, y with
  | PArr a, PArr b => np.sub a b
  | PList l, PArr b => a <- np.asarray l ;; np.sub a b
  | PArr a, PList l => b <- np.asarray l ;; np.sub a b
  | PList _, PList _ => Raise TypeError
  end.

(** A state and error monad: a method returns or raises, and leaves the
    object it ran on in a new state either way. *)
Definition SE (S A : Type) : Type := S -> result A * S.

Definition sret {S A} (a : A) : SE S A := fun s => (Ok a, s).

Definition raise {S A} (e : exn) : SE S A := fun s => (Raise e, s).

Definition sbind {S A B} (m : SE S A) (k : A -> SE S B) : SE S B :=
  fun s =>
    match m s with
    | (Ok a, s') => k a s'
    | (Raise e, s') => (Raise e, s')
    end.

Definition lift {S A} (r : result A) : SE S A := fun s => (r, s).

Definition gets {S A} (proj : S -> A) : SE S A := fun s => (Ok (proj s), s).

Definition modify {S} (g : S -> S) : SE S unit := fun s => (Ok tt, g s).

Notation "x <~ m ;; k" := (sbind m (fun x => k))
  (at level 100, m at next level, right associativity).
Notation "m ;;; k" := (sbind m (fun _ => k))
  (at level 100, right associativity).

(** [None] in arithmetic is a TypeError. *)
Definition not_None {S A} (v : option A) : SE S A :=
  match v with
  | Some a => sret a
  | None => raise TypeError
  end.

(** [for x in l: body x]. *)
Fixpoint for_each {S A} (l : list A) (body : A -> SE S unit) : SE S unit :=
  match l with
  | [] => sret tt
  | x :: l' => body x ;;; for_each l' body
  end.

(** [range(n)]. *)
Definition range (n : nat) : list nat := seq 0 n.

(* ------------------------------------------------------------------ *)
(** ** BaseTaylor and FirstOrderTaylorApproximation *)

(** The wrapped function (a [properties.Function] with a gradient): [f]
    and [grad] are the collaborator's, total and pure, as its contract
    says ([f(point) -> scalar], [grad(point) -> vector]). *)
Record Function := {
  Function_f : np.ndarray -> Z;
  Function_grad : np.ndarray -> np.ndarray
}.

(** A call received by the wrapped function. *)
Inductive call :=
| call_f (x : np.ndarray)
| call_grad (x : np.ndarray)
| call_reset.

(** The instance attributes of a [FirstOrderTaylorApproximation], and
    the calls its wrapped function has received so far (oldest first). *)
Record taylor := {
  function : option Function;
  point : np.ndarray;
  f_at_point : option Z;
  grad_at_point : option np.ndarray;
  calls : list call
}.

Definition set_point (p : np.ndarray) (self : taylor) : taylor :=
  {| function := function self; point := p;
     f_at_point := f_at_point self; grad_at_point := grad_at_point self;
     calls := calls self |}.

Definition set_f_at_point (v : option Z) (self : taylor) : taylor :=
  {| function := function self; point := point self;
     f_at_point := v; grad_at_point := grad_at_point self;
     calls := calls self |}.

Definition set_grad_at_point (v : option np.ndarray) (self : taylor) : taylor :=
  {| function := function self; point := point self;
     f_at_point := f_at_point self; grad_at_point := v;
     calls := calls self |}.

Definition record_call (c : call) (self : taylor) : taylor :=
  {| function := function self; point := point self;
     f_at_point := f_at_point self; grad_at_point := grad_at_point self;
     calls := calls self ++ [c] |}.

(** [self.function.m(...)]: None has no attribute. *)
Definition the_function : SE taylor Function :=
  fun self =>
    match function self with
    | Some fn => (Ok fn, self)
    | None => (Raise AttributeError, self)
    end.

Module BaseTaylor.

Definition reset : SE taylor unit :=
  fn <~ gets function ;;
  match fn with
  | Some _ => modify (record_call call_reset)
  | None => sret tt
  end ;;;
  modify (set_f_at_point None).

(** [self.reset()] is looked up on the instance: [reset] is the method of
    its class. *)
Definition at_point (reset : SE taylor unit) (point : np.ndarray)
  : SE taylor unit :=
  modify (set_point point) ;;;
  reset.

Definition _precompute : SE taylor unit :=
  fa <~ gets f_at_point ;;
  match fa with
  | None =>
      fn <~ the_function ;;
      p <~ gets point ;;
      modify (record_call (call_f p)) ;;;
      modify (set_f_at_point (Some (Function_f fn p)))
  | Some _ => sret tt
  end.

End BaseTaylor.

Module FirstOrderTaylorApproximation.

Definition reset : SE taylor unit :=
  BaseTaylor.reset ;;;
  modify (set_grad_at_point None).

Definition at_point (point : np.ndarray) : SE taylor unit :=
  BaseTaylor.at_point reset point.

(** [FirstOrderTaylorApproximation(function, point)], the wrapped
    function having received [calls] before. *)
Definition __init__ (function : option Function) (point : np.ndarray)
    (calls : list call) : result unit * taylor :=
  (at_point point ;;; reset)
    {| function := function; point := point;
       f_at_point := None; grad_at_point := None; calls := calls |}.

Definition _precompute : SE taylor unit :=
  BaseTaylor._precompute ;;;
  ga <~ gets grad_at_point ;;
  match ga with
  | None =>
      fn <~ the_function ;;
      p <~ gets point ;;
      modify (record_call (call_grad p)) ;;;
      modify (set_grad_at_point (Some (Function_grad fn p)))
  | Some _ => sret tt
  end.

Definition f (w : np.ndarray) : SE taylor np.ndarray :=
  _precompute ;;;
  fa <~ gets f_at_point ;;
  ga <~ gets grad_at_point ;;
  p <~ gets point ;;
  fa <~ not_None fa ;;
  ga <~ not_None ga ;;
  lift (d <- np.sub w p ;;
        t <- np.dot ga d ;;
        np.add (np.Sc fa) t).

Definition grad (w : np.ndarray) : SE taylor (option np.ndarray) :=
  _precompute ;;;
  gets grad_at_point.

End FirstOrderTaylorApproximation.

(* ------------------------------------------------------------------ *)
(** ** MultiblockBaseTaylor and MultiblockFirstOrderTaylorApproximation *)

(** Python list objects holding block indices live on a heap: a location
    is an index into the list of allocated objects, so that the list the
    caller passes and the list the instance keeps are told apart. *)
Abbreviation loc := nat (only parsing).
Abbreviation heap := (list (list pyidx)) (only parsing).

Definition alloc (h : heap) (l : list pyidx) : heap * loc :=
  (h ++ [l], length h).

(** The content of the list at [r]. *)
Definition deref (h : heap) (r : loc) : list pyidx := default [] (h !! r).

Module MultiblockBaseTaylor.

(** The wrapped multiblock function: [f(points)] and [grad(points, i)],
    total and pure. *)
Record MultiblockFunction := {
  MultiblockFunction_f : list np.ndarray -> Z;
  MultiblockFunction_grad : list np.ndarray -> nat -> np.ndarray
}.

Inductive call :=
| call_f (x : list np.ndarray)
| call_grad (x : list np.ndarray) (i : nat)
| call_reset.

(** The instance attributes.  [indices] is None until [__init__] assigns
    it; an entry of [grad_at_point] is None while it still holds the [0]
    it was created with. *)
Record taylor := {
  function : option MultiblockFunction;
  point : pyv;
  f_at_point : option Z;
  grad_at_point : option (list (option np.ndarray));
  indices : option loc;
  calls : list call
}.

Definition set_point (p : pyv) (self : taylor) : taylor :=
  {| function := function self; point := p;
     f_at_point := f_at_point self; grad_at_point := grad_at_point self;
     indices := indices self; calls := calls self |}.

Definition set_f_at_point (v : option Z) (self : taylor) : taylor :=
  {| function := function self; point := point self;
     f_at_point := v; grad_at_point := grad_at_point self;
     indices := indices self; calls := calls self |}.

Definition set_grad_at_point (v : option (list (option np.ndarray)))
    (self : taylor) : taylor :=
  {| function := function self; point := point self;
     f_at_point := f_at_point self; grad_at_point := v;
     indices := indices self; calls := calls self |}.

Definition set_indices (r : loc) (self : taylor) : taylor :=
  {| function := function self; point := point self;
     f_at_point := f_at_point self; grad_at_point := grad_at_point self;
     indices := Some r; calls := calls self |}.

Definition record_call (c : call) (self : taylor) : taylor :=
  {| function := function self; point := point self;
     f_at_point := f_at_point self; grad_at_point := grad_at_point self;
     indices := indices self; calls := calls self ++ [c] |}.

Definition the_function : SE taylor MultiblockFunction :=
  fun self =>
    match function self with
    | Some fn => (Ok fn, self)
    | None => (Raise AttributeError, self)
    end.

(** [self.indices[i]], the list read from the heap. *)
Definition the_index (h : heap) (i : Z) : SE taylor pyidx :=
  r <~ gets indices ;;
  match r with
  | None => raise AttributeError
  | Some r => lift (seq_getitem (deref h r) i)
  end.

(** [len(self.indices)]. *)
Definition len_indices (h : heap) : SE taylor nat :=
  r <~ gets indices ;;
  match r with
  | None => raise AttributeError
  | Some r => sret (length (deref h r))
  end.

(** [[self.point[self.indices[0]], self.point[self.indices[1]]]]. *)
Definition selected_blocks (h : heap) : SE taylor (list np.ndarray) :=
  i0 <~ the_index h 0 ;;
  p <~ gets point ;;
  b0 <~ lift (getitem p i0) ;;
  i1 <~ the_index h 1 ;;
  b1 <~ lift (getitem p i1) ;;
  sret [b0; b1].

Definition reset : SE taylor unit :=
  fn <~ gets function ;;
  match fn with
  | Some _ => modify (record_call call_reset)
  | None => sret tt
  end ;;;
  modify (set_f_at_point None).

Definition at_point (reset : SE taylor unit) (point : pyv) : SE taylor unit :=
  modify (set_point point) ;;;
  reset.

(** [indices[i] = int(indices[i])] on the list at [r]. *)
Definition coerce_entry (r : loc) (i : nat) : SE (heap * taylor) unit :=
  fun '(h, self) =>
    match deref h r !! i with
    | Some x => (Ok tt, (<[r := <[i := PyInt (int x)]> (deref h r)]> h, self))
    | None => (Raise IndexError, (h, self))
    end.

(** A method of the instance run in a state that also holds the heap. *)
Definition on_self {A} (m : SE taylor A) : SE (heap * taylor) A :=
  fun '(h, self) => let '(r, self') := m self in (r, (h, self')).

(** [__init__(self, function, point, indices)]: [indices] is the
    location of the caller's list; [at_point] is the method of the
    instance's class. *)
Definition __init__ (at_point : pyv -> SE taylor unit)
    (point : pyv) (indices : loc) : SE (heap * taylor) unit :=
  on_self (at_point point) ;;;
  (fun '(h, self) =>
     let '(h', r) := alloc h (deref h indices) in
     (Ok tt, (h', set_indices r self))) ;;;
  n <~ gets (fun s => length (deref (fst s) indices)) ;;
  for_each (range n) (coerce_entry indices).

Definition _precompute (h : heap) : SE taylor unit :=
  fa <~ gets f_at_point ;;
  match fa with
  | None =>
      fn <~ the_function ;;
      x <~ selected_blocks h ;;
      modify (record_call (call_f x)) ;;;
      modify (set_f_at_point (Some (MultiblockFunction_f fn x)))
  | Some _ => sret tt
  end.

End MultiblockBaseTaylor.

Module MultiblockFirstOrderTaylorApproximation.
Import MultiblockBaseTaylor.

Definition reset : SE taylor unit :=
  MultiblockBaseTaylor.reset ;;;
  modify (set_grad_at_point None).

Definition at_point (point : pyv) : SE taylor unit :=
  MultiblockBaseTaylor.at_point reset point.

(** [MultiblockFirstOrderTaylorApproximation(function, point, indices)]
    on heap [h], the wrapped function having received [calls] before. *)
Definition __init__ (h : heap) (function : option MultiblockFunction)
    (point : pyv) (indices : loc) (calls : list call)
  : result unit * (heap * taylor) :=
  (MultiblockBaseTaylor.__init__ at_point point indices ;;; on_self reset)
    (h, {| function := function; point := point;
           f_at_point := None; grad_at_point := None;
           indices := None; calls := calls |}).

(** [self.grad_at_point[i] = g]. *)
Definition set_grad_entry (i : nat) (g : np.ndarray) : SE taylor unit :=
  ga <~ gets grad_at_point ;;
  match ga with
  | None => raise TypeError
  | Some l =>
      if decide (i < length l)
      then modify (set_grad_at_point (Some (<[i := Some g]> l)))
      else raise IndexError
  end.

Definition _precompute (h : heap) : SE taylor unit :=
  MultiblockBaseTaylor._precompute h ;;;
  ga <~ gets grad_at_point ;;
  match ga with
  | None =>
      n <~ len_indices h ;;
      modify (set_grad_at_point (Some (replicate n None))) ;;;
      n <~ len_indices h ;;
      for_each (range n)
        (fun i =>
           fn <~ the_function ;;
           x <~ selected_blocks h ;;
           modify (record_call (call_grad x i)) ;;;
           set_grad_entry i (MultiblockFunction_grad fn x i))
  | Some _ => sret tt
  end.

(** [self.grad_at_point[i]] as an array: None is not subscriptable, and
    the int [0] an unfilled entry holds has no attribute [T]. *)
Definition grad_entry (i : Z) : SE taylor (option np.ndarray) :=
  ga <~ gets grad_at_point ;;
  match ga with
  | None => raise TypeError
  | Some l => lift (seq_getitem l i)
  end.

Definition the_array {S} (v : option np.ndarray) : SE S np.ndarray :=
  match v with
  | Some a => sret a
  | None => raise AttributeError
  end.

(** One turn of the loop of [f]: [f + np.dot(g.T, w[i] - p)[0, 0]]. *)
Definition f_term (h : heap) (w : pyv) (acc : np.ndarray) (i : nat)
  : SE taylor np.ndarray :=
  g <~ grad_entry (Z.of_nat i) ;;
  g <~ the_array g ;;
  wi <~ lift (getitem w (PyInt (Z.of_nat i))) ;;
  ix <~ the_index h (Z.of_nat i) ;;
  p <~ gets point ;;
  pi <~ lift (getitem p ix) ;;
  lift (d <- np.sub wi pi ;;
        t <- np.dot (np.T g) d ;;
        t00 <- np.getitem2 t 0 0 ;;
        np.add acc t00).

Fixpoint f_loop (h : heap) (w : pyv) (acc : np.ndarray) (l : list nat)
  : SE taylor np.ndarray :=
  match l with
  | [] => sret acc
  | i :: l' => acc' <~ f_term h w acc i ;; f_loop h w acc' l'
  end.

Definition f (h : heap) (w : pyv) : SE taylor np.ndarray :=
  _precompute h ;;;
  fa <~ gets f_at_point ;;
  n <~ len_indices h ;;
  fa <~ not_None fa ;;
  f_loop h w (np.Sc fa) (range n).

Definition grad (h : heap) (w : pyv) (index : Z)
  : SE taylor (option np.ndarray) :=
  _precompute h ;;;
  grad_entry index.

End MultiblockFirstOrderTaylorApproximation.

(* ------------------------------------------------------------------ *)
(** ** FirstOrderTaylorWrapper *)

Module FirstOrderTaylorWrapper.

(** A Python list nested to any depth, with objects at the leaves. *)
Inductive tree (O : Type) :=
| leaf (o : O)
| node (l : list (tree O)).
Arguments leaf {O} o.
Arguments node {O} l.

(** The attribute [_f] ([_d], [_N]) of a function object: not there, a
    method (the value of the smooth part), or a list of functions. *)
Inductive attr (O : Type) :=
| absent
| method (m : pyv -> Z)
| items (t : tree O).
Arguments absent {O}.
Arguments method {O} m.
Arguments items {O} t.

(** What the attribute [f] is bound to: nothing, the method of the class,
    or one of the functions the wrapper installs with [types.MethodType]. *)
Inductive f_attr :=
| no_f
| class_f (m : pyv -> Z)
| bound_new_f
| bound_mb_new_f.

Inductive grad_attr :=
| no_grad
| class_grad (m : pyv -> option nat -> np.ndarray)
| bound_new_grad
| bound_mb_new_grad.

Inductive at_point_attr :=
| class_at_point
| bound_new_at_point
| bound_mb_new_at_point.

(** The value of [_taylor_grad_f_at_point]: an array ([_wrap]) or a list
    with one entry per block ([_mb_wrap]), an entry being None while it
    still holds the [0] the list was created with. *)
Inductive grads :=
| one (g : np.ndarray)
| blocks (l : list (option np.ndarray)).

(** A function object as the wrapper sees it: the classes it is an
    instance of, the attributes and methods of its class that the wrapper
    uses (the collaborators' methods are total and pure), and the three
    attributes the wrapper attaches (None: [hasattr] is false). *)
Inductive pyobj := PyObj {
  isinstance_CombinedFunction : bool;
  isinstance_CombinedMultiblockFunction : bool;
  isinstance_MultiblockFunction : bool;
  isinstance_BaseTaylor : bool;
  _f : attr pyobj;
  _d : attr pyobj;
  _N : attr pyobj;
  _grad_f : option (pyv -> option nat -> np.ndarray);
  _non_f : option (pyv -> Z);
  _grad_non_f : option (pyv -> option nat -> np.ndarray);
  f : f_attr;
  grad : grad_attr;
  at_point : at_point_attr;
  _taylor_point : option pyv;
  _taylor_f_at_point : option np.ndarray;
  _taylor_grad_f_at_point : option grads
}.

Definition set__f (v : attr pyobj) (o : pyobj) : pyobj :=
  PyObj (isinstance_CombinedFunction o) (isinstance_CombinedMultiblockFunction o)
    (isinstance_MultiblockFunction o) (isinstance_BaseTaylor o)
    v (_d o) (_N o) (_grad_f o) (_non_f o) (_grad_non_f o)
    (f o) (grad o) (at_point o)
    (_taylor_point o) (_taylor_f_at_point o) (_taylor_grad_f_at_point o).

Definition set__d (v : attr pyobj) (o : pyobj) : pyobj :=
  PyObj (isinstance_CombinedFunction o) (isinstance_CombinedMultiblockFunction o)
    (isinstance_MultiblockFunction o) (isinstance_BaseTaylor o)
    (_f o) v (_N o) (_grad_f o) (_non_f o) (_grad_non_f o)
    (f o) (grad o) (at_point o)
    (_taylor_point o) (_taylor_f_at_point o) (_taylor_grad_f_at_point o).

Definition set__N (v : attr pyobj) (o : pyobj) : pyobj :=
  PyObj (isinstance_CombinedFunction o) (isinstance_CombinedMultiblockFunction o)
    (isinstance_MultiblockFunction o) (isinstance_BaseTaylor o)
    (_f o) (_d o) v (_grad_f o) (_non_f o) (_grad_non_f o)
    (f o) (grad o) (at_point o)
    (_taylor_point o) (_taylor_f_at_point o) (_taylor_grad_f_at_point o).

Definition set_f (v : f_attr) (o : pyobj) : pyobj :=
  PyObj (isinstance_CombinedFunction o) (isinstance_CombinedMultiblockFunction o)
    (isinstance_MultiblockFunction o) (isinstance_BaseTaylor o)
    (_f o) (_d o) (_N o) (_grad_f o) (_non_f o) (_grad_non_f o)
    v (grad o) (at_point o)
    (_taylor_point o) (_taylor_f_at_point o) (_taylor_grad_f_at_point o).

Definition set_grad (v : grad_attr) (o : pyobj) : pyobj :=
  PyObj (isinstance_CombinedFunction o) (isinstance_CombinedMultiblockFunction o)
    (isinstance_MultiblockFunction o) (isinstance_BaseTaylor o)
    (_f o) (_d o) (_N o) (_grad_f o) (_non_f o) (_grad_non_f o)
    (f o) v (at_point o)
    (_taylor_point o) (_taylor_f_at_point o) (_taylor_grad_f_at_point o).

Definition set_at_point (v : at_point_attr) (o : pyobj) : pyobj :=
  PyObj (isinstance_CombinedFunction o) (isinstance_CombinedMultiblockFunction o)
    (isinstance_MultiblockFunction o) (isinstance_BaseTaylor o)
    (_f o) (_d o) (_N o) (_grad_f o) (_non_f o) (_grad_non_f o)
    (f o) (grad o) v
    (_taylor_point o) (_taylor_f_at_point o) (_taylor_grad_f_at_point o).

Definition set__taylor_point (v : pyv) (o : pyobj) : pyobj :=
  PyObj (isinstance_CombinedFunction o) (isinstance_CombinedMultiblockFunction o)
    (isinstance_MultiblockFunction o) (isinstance_BaseTaylor o)
    (_f o) (_d o) (_N o) (_grad_f o) (_non_f o) (_grad_non_f o)
    (f o) (grad o) (at_point o)
    (Some v) (_taylor_f_at_point o) (_taylor_grad_f_at_point o).

Definition set__taylor_f_at_point (v : np.ndarray) (o : pyobj) : pyobj :=
  PyObj (isinstance_CombinedFunction o) (isinstance_CombinedMultiblockFunction o)
    (isinstance_MultiblockFunction o) (isinstance_BaseTaylor o)
    (_f o) (_d o) (_N o) (_grad_f o) (_non_f o) (_grad_non_f o)
    (f o) (grad o) (at_point o)
    (_taylor_point o) (Some v) (_taylor_grad_f_at_point o).

Definition set__taylor_grad_f_at_point (v : grads) (o : pyobj) : pyobj :=
  PyObj (isinstance_CombinedFunction o) (isinstance_CombinedMultiblockFunction o)
    (isinstance_MultiblockFunction o) (isinstance_BaseTaylor o)
    (_f o) (_d o) (_N o) (_grad_f o) (_non_f o) (_grad_non_f o)
    (f o) (grad o) (at_point o)
    (_taylor_point o) (_taylor_f_at_point o) (Some v).

(** [hasattr(fun, name)] for the three attributes the wrapper attaches. *)
Definition hasattr {A} (a : pyobj -> option A) (o : pyobj) : bool :=
  match a o with Some _ => true | None => false end.

(** [self.name]: AttributeError when the attribute is not there. *)
Definition getattr {A} (a : pyobj -> option A) : SE pyobj A :=
  fun o =>
    match a o with
    | Some v => (Ok v, o)
    | None => (Raise AttributeError, o)
    end.

(** [fun._f(x)]: a list is not callable. *)
Definition call_attr (a : attr pyobj) (x : pyv) : result Z :=
  match a with
  | absent => Raise AttributeError
  | method m => Ok (m x)
  | items _ => Raise TypeError
  end.

(** [fun._f] where a list is wanted ([len], indexing): a method has
    neither. *)
Definition as_list (a : attr pyobj) : result (tree pyobj) :=
  match a with
  | absent => Raise AttributeError
  | method _ => Raise TypeError
  | items t => Ok t
  end.

(** [len(t)] and [t[i]]: an object at a leaf has neither. *)
Definition tree_len (t : tree pyobj) : result nat :=
  match t with
  | leaf _ => Raise TypeError
  | node l => Ok (length l)
  end.

Definition tree_getitem (t : tree pyobj) (i : nat) : result (tree pyobj) :=
  match t with
  | leaf _ => Raise TypeError
  | node l =>
      match l !! i with
      | Some x => Ok x
      | None => Raise IndexError
      end
  end.

(** [t[i] = x] *)
Definition tree_setitem (t : tree pyobj) (i : nat) (x : tree pyobj)
  : result (tree pyobj) :=
  match t with
  | leaf _ => Raise TypeError
  | node l =>
      if decide (i < length l) then Ok (node (<[i := x]> l))
      else Raise IndexError
  end.

(** [t[i0][i1]...]. *)
Fixpoint tree_get (t : tree pyobj) (path : list nat) : result (tree pyobj) :=
  match path with
  | [] => Ok t
  | i :: path' => x <- tree_getitem t i ;; tree_get x path'
  end.

(** [t[i0][i1]...[in] = x]. *)
Fixpoint tree_set (t : tree pyobj) (path : list nat) (x : tree pyobj)
  : result (tree pyobj) :=
  match path with
  | [] => Ok x
  | i :: path' =>
      y <- tree_getitem t i ;;
      y' <- tree_set y path' x ;;
      tree_setitem t i y'
  end.

(** [isinstance(v, BaseTaylor)]: a list is not an instance. *)
Definition is_BaseTaylor (v : tree pyobj) : bool :=
  match v with
  | leaf o => isinstance_BaseTaylor o
  | node _ => false
  end.

(** *** The methods [_wrap] installs *)

(** [self._taylor_grad_f_at_point.T]: a list has no attribute [T]. *)
Definition grads_T (g : grads) : result np.ndarray :=
  match g with
  | one a => Ok (np.T a)
  | blocks _ => Raise AttributeError
  end.

(** [_wrap.new_f(self, x)] *)
Definition new_f (x : pyv) : SE pyobj np.ndarray :=
  fa <~ getattr _taylor_f_at_point ;;
  g <~ getattr _taylor_grad_f_at_point ;;
  gT <~ lift (grads_T g) ;;
  p <~ getattr _taylor_point ;;
  val <~ lift (d <- py_sub x p ;;
               t <- np.dot gT d ;;
               np.add fa t) ;;
  combined <~ gets isinstance_CombinedFunction ;;
  val <~ (if combined : bool
          then non_f <~ getattr _non_f ;;
               lift (np.add val (np.Sc (non_f x)))
          else sret val) ;;
  lift (np.getitem2 val 0 0).

(** A list in numpy arithmetic is stacked into an array first. *)
Definition grads_array (g : grads) : result np.ndarray :=
  match g with
  | one a => Ok a
  | blocks l => np.asarray (map (default (np.Sc 0)) l)
  end.

(** [_wrap.new_grad(self, x)] *)
Definition new_grad (x : pyv) : SE pyobj grads :=
  g <~ getattr _taylor_grad_f_at_point ;;
  combined <~ gets isinstance_CombinedFunction ;;
  if combined : bool
  then grad_non_f <~ getattr _grad_non_f ;;
       lift (a <- grads_array g ;;
             rmap one (np.add a (grad_non_f x None)))
  else sret g.

(** *** The methods [_mb_wrap] installs *)

(** [self._taylor_grad_f_at_point[i].T] *)
Definition grads_getitem_T (g : grads) (i : nat) : result np.ndarray :=
  match g with
  | one a => rmap np.T (getitem (PArr a) (PyInt (Z.of_nat i)))
  | blocks l =>
      e <- seq_getitem l (Z.of_nat i) ;;
      match e with
      | Some a => Ok (np.T a)
      | None => Raise AttributeError
      end
  end.

(** One turn of the loop of [_mb_wrap.new_f]. *)
Definition mb_new_f_term (x : pyv) (val : np.ndarray) (i : nat)
  : SE pyobj np.ndarray :=
  fa <~ getattr _taylor_f_at_point ;;
  g <~ getattr _taylor_grad_f_at_point ;;
  gT <~ lift (grads_getitem_T g i) ;;
  p <~ getattr _taylor_point ;;
  lift (pi <- getitem p (PyInt (Z.of_nat i)) ;;
        d <- py_sub x (PArr pi) ;;
        t <- np.dot gT d ;;
        s <- np.add fa t ;;
        np.add val s).

Fixpoint mb_new_f_loop (x : pyv) (val : np.ndarray) (l : list nat)
  : SE pyobj np.ndarray :=
  match l with
  | [] => sret val
  | i :: l' => val' <~ mb_new_f_term x val i ;; mb_new_f_loop x val' l'
  end.

(** [_mb_wrap.new_f(self, x)] *)
Definition mb_new_f (x : pyv) : SE pyobj np.ndarray :=
  p <~ getattr _taylor_point ;;
  n <~ lift (len p) ;;
  val <~ mb_new_f_loop x (np.Sc 0) (range n) ;;
  non_f <~ getattr _non_f ;;
  val <~ lift (np.add val (np.Sc (non_f x))) ;;
  lift (np.getitem2 val 0 0).

(** [_mb_wrap.new_grad(self, x, index)] *)
Definition mb_new_grad (x : pyv) (index : nat) : SE pyobj grads :=
  g <~ getattr _taylor_grad_f_at_point ;;
  grad_non_f <~ getattr _grad_non_f ;;
  lift (a <- grads_array g ;;
        rmap one (np.add a (grad_non_f x (Some index)))).

(** *** Calling the methods of an object *)

(** [fun.f(x)], by what [f] is bound to. *)
Definition call_f (x : pyv) : SE pyobj np.ndarray :=
  m <~ gets f ;;
  match m with
  | no_f => raise AttributeError
  | class_f m => sret (np.Sc (m x))
  | bound_new_f => new_f x
  | bound_mb_new_f => mb_new_f x
  end.

(** [fun.grad(x)] (no index) or [fun.grad(x, index)]: a method of the
    class takes either form; the methods the wrapper installs take theirs
    only (TypeError otherwise). *)
Definition call_grad (x : pyv) (index : option nat) : SE pyobj grads :=
  m <~ gets grad ;;
  match m, index with
  | no_grad, _ => raise AttributeError
  | class_grad m, _ => sret (one (m x index))
  | bound_new_grad, None => new_grad x
  | bound_new_grad, Some _ => raise TypeError
  | bound_mb_new_grad, Some i => mb_new_grad x i
  | bound_mb_new_grad, None => raise TypeError
  end.

(** *** The wrap routines *)

(** [_wrap(self, fun, point)], run on [fun]; it returns [fun] itself. *)
Definition _wrap (point : pyv) : SE pyobj unit :=
  has <~ gets (hasattr _taylor_point) ;;
  (if has : bool
   then raise RuntimeError
   else modify (set__taylor_point point)) ;;;
  has <~ gets (hasattr _taylor_f_at_point) ;;
  (if has : bool
   then raise RuntimeError
   else
     combined <~ gets isinstance_CombinedFunction ;;
     if combined : bool
     then a <~ gets _f ;;
          v <~ lift (call_attr a point) ;;
          modify (set__taylor_f_at_point (np.Sc v))
     else v <~ call_f point ;;
          modify (set__taylor_f_at_point v)) ;;;
  has <~ gets (hasattr _taylor_grad_f_at_point) ;;
  (if has : bool
   then raise RuntimeError
   else
     combined <~ gets isinstance_CombinedFunction ;;
     if combined : bool
     then g <~ getattr _grad_f ;;
          modify (set__taylor_grad_f_at_point (one (g point None)))
     else g <~ call_grad point None ;;
          modify (set__taylor_grad_f_at_point g)) ;;;
  modify (set_f bound_new_f) ;;;
  modify (set_grad bound_new_grad).

(** [fun._taylor_grad_f_at_point[i] = g] *)
Definition set_grads_entry (i : nat) (g : np.ndarray) : SE pyobj unit :=
  v <~ getattr _taylor_grad_f_at_point ;;
  match v with
  | one _ => raise TypeError
  | blocks l =>
      if decide (i < length l)
      then modify (set__taylor_grad_f_at_point (blocks (<[i := Some g]> l)))
      else raise IndexError
  end.

(** [_mb_wrap(self, fun, point)], run on [fun]; it returns [fun] itself. *)
Definition _mb_wrap (point : pyv) : SE pyobj unit :=
  has <~ gets (hasattr _taylor_point) ;;
  (if has : bool
   then raise RuntimeError
   else modify (set__taylor_point point)) ;;;
  has <~ gets (hasattr _taylor_f_at_point) ;;
  (if has : bool
   then raise RuntimeError
   else a <~ gets _f ;;
        v <~ lift (call_attr a point) ;;
        modify (set__taylor_f_at_point (np.Sc v))) ;;;
  has <~ gets (hasattr _taylor_grad_f_at_point) ;;
  (if has : bool
   then raise RuntimeError
   else n <~ lift (len point) ;;
        modify (set__taylor_grad_f_at_point (blocks (replicate n None))) ;;;
        n <~ lift (len point) ;;
        for_each (range n)
          (fun i =>
             g <~ getattr _grad_f ;;
             set_grads_entry i (g point (Some i)))) ;;;
  modify (set_f bound_mb_new_f) ;;;
  modify (set_grad bound_mb_new_grad).

(** *** [__call__] *)

(** [len(fun._f[i0]...[in])] for the list attribute read by [get]. *)
Definition len_at (get : pyobj -> attr pyobj) (path : list nat)
  : SE pyobj nat :=
  a <~ gets get ;;
  lift (t <- as_list a ;; e <- tree_get t path ;; tree_len e).

(** [e = fun._f[i0]...[in]; if isinstance(e, BaseTaylor):
    fun._f[i0]...[in] = wrap(e, point)].  The wrap routine changes the
    entry where it is, also when it raises. *)
Definition wrap_entry (get : pyobj -> attr pyobj)
    (set : attr pyobj -> pyobj -> pyobj) (path : list nat)
    (wrap : pyv -> SE pyobj unit) (point : pyv) : SE pyobj unit :=
  a <~ gets get ;;
  t <~ lift (as_list a) ;;
  e <~ lift (tree_get t path) ;;
  match e with
  | node _ => sret tt
  | leaf o =>
      if isinstance_BaseTaylor o
      then let '(r, o') := wrap point o in
           t' <~ lift (tree_set t path (leaf o')) ;;
           modify (set (items t')) ;;;
           lift r
      else sret tt
  end.

(** [iter(n)] for an int [n], as [for i in n] asks for it: an int is not
    iterable. *)
Definition iter_int {S} (n : nat) : SE S (list nat) := raise TypeError.

(** The branch of [__call__] for a [CombinedFunction]. *)
Definition wrap_CombinedFunction (point : pyv) : SE pyobj unit :=
  n <~ len_at _f [] ;;
  r <~ iter_int n ;;
  for_each r (fun i => wrap_entry _f set__f [i] _wrap point) ;;;
  n <~ len_at _d [] ;;
  r <~ iter_int n ;;
  for_each r (fun i => wrap_entry _d set__d [i] _wrap point) ;;;
  n <~ len_at _N [] ;;
  r <~ iter_int n ;;
  for_each r (fun i => wrap_entry _N set__N [i] _wrap point) ;;;
  modify (set_at_point bound_new_at_point).

(** The branch of [__call__] for a [CombinedMultiblockFunction]. *)
Definition wrap_CombinedMultiblockFunction (point : pyv) : SE pyobj unit :=
  n <~ len_at _f [] ;;
  for_each (range n)
    (fun i =>
       nj <~ len_at _f [i] ;;
       for_each (range nj)
         (fun j =>
            nk <~ len_at _f [i; j] ;;
            for_each (range nk)
              (fun k => wrap_entry _f set__f [i; j; k] _mb_wrap point))) ;;;
  n <~ len_at _d [] ;;
  for_each (range n)
    (fun i =>
       nk <~ len_at _d [i] ;;
       for_each (range nk)
         (fun k => wrap_entry _d set__d [i; k] _mb_wrap point)) ;;;
  n <~ len_at _N [] ;;
  for_each (range n)
    (fun i =>
       nk <~ len_at _N [i] ;;
       for_each (range nk)
         (fun k => wrap_entry _N set__N [i; k] _mb_wrap point)) ;;;
  modify (set_at_point bound_mb_new_at_point).

(** What [__call__] does to [fun], the copy. *)
Definition wrap_copy (point : pyv) : SE pyobj unit :=
  c <~ gets isinstance_CombinedFunction ;;
  if c : bool then wrap_CombinedFunction point
  else
    c <~ gets isinstance_CombinedMultiblockFunction ;;
    if c : bool then wrap_CombinedMultiblockFunction point
    else
      c <~ gets isinstance_MultiblockFunction ;;
      if c : bool then _mb_wrap point
      else _wrap point.

(** Objects live on a heap; a location is an index into the list of the
    objects allocated so far.  An object holds its sub-functions by
    value: [copy.deepcopy] allocates one new object, equal to the old. *)
Abbreviation objects := (list pyobj) (only parsing).

Definition blank : pyobj :=
  PyObj false false false false absent absent absent None None None
    no_f no_grad class_at_point None None None.

Definition load (h : objects) (r : loc) : pyobj := default blank (h !! r).

Definition deepcopy (h : objects) (r : loc) : objects * loc :=
  (h ++ [load h r], length h).

(** [FirstOrderTaylorWrapper()(function, point)] on heap [h]: the heap
    after the call, and the location of the object returned (or the
    exception raised). *)
Definition __call__ (h : objects) (function : loc) (point : pyv)
  : result loc * objects :=
  let '(h1, fun_) := deepcopy h function in
  let '(r, o) := wrap_copy point (load h1 fun_) in
  (rmap (fun _ => fun_) r, <[fun_ := o]> h1).

(** The value and the gradient of the object at [r]. *)
Definition value (h : objects) (r : loc) (x : pyv) : result np.ndarray :=
  fst (call_f x (load h r)).

Definition gradient (h : objects) (r : loc) (x : pyv) (index : option nat)
  : result grads :=
  fst (call_grad x index (load h r)).

End FirstOrderTaylorWrapper.

(* ------------------------------------------------------------------ *)
(** ** Vocabulary of the statements *)

(** The inner product of two vectors given by their entries. *)
Definition dotp (g d : list Z) : Z := np.sum (zip_with Z.mul g d).

(** The vector [x - a]. *)
Definition diff (x a : list Z) : list Z := zip_with Z.sub x a.

(** A request served by a [FirstOrderTaylorApproximation]: [f(w)] or
    [grad(w)].  [serve] keeps the state the request leaves, whether it
    returned or raised. *)
Inductive request :=
| value_at (w : np.ndarray)
| gradient_at (w : np.ndarray).

Definition serve (self : taylor) (q : request) : taylor :=
  match q with
  | value_at w => snd (FirstOrderTaylorApproximation.f w self)
  | gradient_at w => snd (FirstOrderTaylorApproximation.grad w self)
  end.

Definition serve_all (qs : list request) (self : taylor) : taylor :=
  fold_left serve qs self.

(** Counting the calls of one kind in a log. *)
Definition is_call_f (c : call) : bool :=
  match c with call_f _ => true | _ => false end.

Definition is_call_grad (c : call) : bool :=
  match c with call_grad _ => true | _ => false end.

Definition is_call_reset (c : call) : bool :=
  match c with call_reset => true | _ => false end.

Fixpoint count (p : call -> bool) (cs : list call) : nat :=
  match cs with
  | [] => 0
  | c :: cs' => (if p c then 1 else 0) + count p cs'
  end.

(** What a call of [f] or [grad] may still cost: 1 while the cache is
    empty. *)
Definition pending {A} (cache : option A) : nat :=
  match cache with None => 1 | Some _ => 0 end.

Module Wrapper := FirstOrderTaylorWrapper.

(** The object carries one of the three attributes the wrapper attaches. *)
Definition carries_marker (o : Wrapper.pyobj) : bool :=
  Wrapper.hasattr Wrapper._taylor_point o
  || Wrapper.hasattr Wrapper._taylor_f_at_point o
  || Wrapper.hasattr Wrapper._taylor_grad_f_at_point o.






(** A single-block function that is no composite and was never wrapped:
    [f] and [grad] are the methods [F] and [G] of its class. *)
Definition plain_function (o : Wrapper.pyobj) (F : pyv -> Z)
    (G : pyv -> option nat -> np.ndarray) : Prop :=
  Wrapper.isinstance_CombinedFunction o = false
  /\ Wrapper.isinstance_CombinedMultiblockFunction o = false
  /\ Wrapper.isinstance_MultiblockFunction o = false
  /\ carries_marker o = false
  /\ Wrapper.f o = Wrapper.class_f F
  /\ Wrapper.grad o = Wrapper.class_grad G.

(** [int] applied to every entry of a list of indices. *)
Definition coerced (l : list pyidx) : list pyidx :=
  map (fun x => PyInt (int x)) l.

(** A composite whose attributes [_f], [_grad_f] and [_non_f] are the
    methods [F], [G] and [P] and that was never wrapped. *)
Definition composite_with_methods (o : Wrapper.pyobj) (F : pyv -> Z)
    (G : pyv -> option nat -> np.ndarray) (P : pyv -> Z) : Prop :=
  Wrapper.isinstance_CombinedFunction o = true
  /\ carries_marker o = false
  /\ Wrapper._f o = Wrapper.method F
  /\ Wrapper._grad_f o = Some G
  /\ Wrapper._non_f o = Some P.

(** The caches of a [FirstOrderTaylorApproximation] hold nothing but the
    value and the gradient of its function at its point. *)
Definition coherent (fn : Function) (self : taylor) : Prop :=
  function self = Some fn
  /\ (f_at_point self = None
      \/ f_at_point self = Some (Function_f fn (point self)))
  /\ (grad_at_point self = None
      \/ grad_at_point self = Some (Function_grad fn (point self))).

(* ------------------------------------------------------------------ *)
(** ** Inputs used in the examples *)

(** The sum of the entries of an array, and its gradient. *)
Fixpoint total (a : np.ndarray) : Z :=
  match a with
  | np.Sc z => z
  | np.Ar l => fold_right (fun x acc => (total x + acc)%Z) 0%Z l
  end.

Fixpoint ones_like (a : np.ndarray) : np.ndarray :=
  match a with
  | np.Sc _ => np.Sc 1
  | np.Ar l => np.Ar (map ones_like l)
  end.

Fixpoint zeros_like (a : np.ndarray) : np.ndarray :=
  match a with
  | np.Sc _ => np.Sc 0
  | np.Ar l => np.Ar (map zeros_like l)
  end.

(** [f(x) = sum(x)] as a wrapped function. *)
Definition sum_function : Function :=
  {| Function_f := total; Function_grad := ones_like |}.

Definition stacked (p : pyv) : np.ndarray :=
  match p with
  | PArr a => a
  | PList l => np.Ar l
  end.

(** The same function as an object handed to the wrapper. *)
Definition sum_object : Wrapper.pyobj :=
  Wrapper.PyObj false false false false
    Wrapper.absent Wrapper.absent Wrapper.absent None None None
    (Wrapper.class_f (fun p => total (stacked p)))
    (Wrapper.class_grad (fun p _ => ones_like (stacked p)))
    Wrapper.class_at_point None None None.


(** A multiblock function that is constant: its smooth part is 5 at
    every point, with gradient zero in every block, and it has no
    penalty. *)
Definition block_of (p : pyv) (i : option nat) : np.ndarray :=
  match i with
  | Some i => default (np.Sc 0) (np.children (stacked p) !! i)
  | None => stacked p
  end.

Definition constant_multiblock : Wrapper.pyobj :=
  Wrapper.PyObj false false true false
    (Wrapper.method (fun _ => 5%Z)) Wrapper.absent Wrapper.absent
    (Some (fun p i => zeros_like (block_of p i)))
    (Some (fun _ => 0%Z))
    (Some (fun p i => zeros_like (block_of p i)))
    (Wrapper.class_f (fun _ => 5%Z))
    (Wrapper.class_grad (fun p i => zeros_like (block_of p i)))
    Wrapper.class_at_point None None None.

(** An absolute-value penalty [g(x) = sum |x_i|] (not smooth). *)
Fixpoint l1 (a : np.ndarray) : Z :=
  match a with
  | np.Sc z => Z.abs z
  | np.Ar l => fold_right (fun x acc => (l1 x + acc)%Z) 0%Z l
  end.

Definition l1_object : Wrapper.pyobj :=
  Wrapper.PyObj false false false false
    Wrapper.absent Wrapper.absent Wrapper.absent None None None
    (Wrapper.class_f (fun p => l1 (stacked p)))
    Wrapper.no_grad
    Wrapper.class_at_point None None None.

(** A loss that is an instance of [BaseTaylor]. *)
Definition taylor_loss : Wrapper.pyobj :=
  Wrapper.PyObj false false false true
    Wrapper.absent Wrapper.absent Wrapper.absent None None None
    (Wrapper.class_f (fun p => total (stacked p)))
    (Wrapper.class_grad (fun p _ => ones_like (stacked p)))
    Wrapper.class_at_point None None None.

(** A [CombinedFunction] with the lists [_f], [_d] and [_N]. *)
Definition combined (losses penalties smoothed : list Wrapper.pyobj)
  : Wrapper.pyobj :=
  Wrapper.PyObj true false false false
    (Wrapper.items (Wrapper.node (map Wrapper.leaf losses)))
    (Wrapper.items (Wrapper.node (map Wrapper.leaf penalties)))
    (Wrapper.items (Wrapper.node (map Wrapper.leaf smoothed)))
    None None None
    Wrapper.no_f Wrapper.no_grad Wrapper.class_at_point None None None.

(** A composite whose smooth part and penalty are methods, as [_wrap]
    reads them: [sum(x)] plus the penalty [sum |x_i|]. *)
Definition combined_methods : Wrapper.pyobj :=
  Wrapper.PyObj true false false false
    (Wrapper.method (fun p => total (stacked p)))
    Wrapper.absent Wrapper.absent
    (Some (fun p _ => ones_like (stacked p)))
    (Some (fun p => l1 (stacked p)))
    (Some (fun p _ => zeros_like (stacked p)))
    Wrapper.no_f Wrapper.no_grad Wrapper.class_at_point None None None.

(** A pairwise function of two blocks: [f(x0, x1) = sum(x0) + sum(x1)]. *)
Definition pair_sum : MultiblockBaseTaylor.MultiblockFunction :=
  {| MultiblockBaseTaylor.MultiblockFunction_f :=
       fun x => total (np.Ar x);
     MultiblockBaseTaylor.MultiblockFunction_grad :=
       fun x i => ones_like (default (np.Sc 0) (x !! i)) |}.

(* ------------------------------------------------------------------ *)
(** ** Vocabulary of the further statements *)

(** A request served by a [MultiblockFirstOrderTaylorApproximation]:
    [f(w)] or [grad(w, index)], on the heap [h] holding its list of
    indices. *)
Inductive mb_request :=
| mb_value_at (w : pyv)
| mb_gradient_at (w : pyv) (index : Z).

Definition mb_serve (h : list (list pyidx))
    (self : MultiblockBaseTaylor.taylor) (q : mb_request)
  : MultiblockBaseTaylor.taylor :=
  match q with
  | mb_value_at w => snd (MultiblockFirstOrderTaylorApproximation.f h w self)
  | mb_gradient_at w index =>
      snd (MultiblockFirstOrderTaylorApproximation.grad h w index self)
  end.

Definition mb_serve_all (h : list (list pyidx)) (qs : list mb_request)
    (self : MultiblockBaseTaylor.taylor) : MultiblockBaseTaylor.taylor :=
  fold_left (mb_serve h) qs self.

Definition mb_is_call_f (c : MultiblockBaseTaylor.call) : bool :=
  match c with MultiblockBaseTaylor.call_f _ => true | _ => false end.

Definition mb_is_call_grad (c : MultiblockBaseTaylor.call) : bool :=
  match c with MultiblockBaseTaylor.call_grad _ _ => true | _ => false end.

Definition mb_is_call_reset (c : MultiblockBaseTaylor.call) : bool :=
  match c with MultiblockBaseTaylor.call_reset => true | _ => false end.

(** The number of calls of one kind in a log. *)
Definition mb_count (p : MultiblockBaseTaylor.call -> bool)
    (cs : list MultiblockBaseTaylor.call) : nat :=
  length (filter (fun c => p c = true) cs).

(** [len(self.indices)], 0 while the attribute is not assigned. *)
Definition number_of_indices (h : list (list pyidx))
    (self : MultiblockBaseTaylor.taylor) : nat :=
  match MultiblockBaseTaylor.indices self with
  | Some r => length (deref h r)
  | None => 0
  end.

(** The attributes no request assigns. *)
Definition same_instance (s s' : MultiblockBaseTaylor.taylor) : Prop :=
  MultiblockBaseTaylor.function s' = MultiblockBaseTaylor.function s
  /\ MultiblockBaseTaylor.point s' = MultiblockBaseTaylor.point s
  /\ MultiblockBaseTaylor.indices s' = MultiblockBaseTaylor.indices s.

(** What the calls of [grad] may still cost: one per index while the list
    of gradients is not there. *)
Definition mb_pending (n : nat) {A} (cache : option A) : nat :=
  match cache with None => n | Some _ => 0 end.

(** The effect of a method on the log and the caches: it calls [f] and
    [grad] only to fill an empty cache, never resets, and assigns neither
    the function, the point nor the indices. *)
Definition fills_caches (n : nat) (s s' : MultiblockBaseTaylor.taylor)
  : Prop :=
  exists new,
    MultiblockBaseTaylor.calls s' = MultiblockBaseTaylor.calls s ++ new
    /\ mb_count mb_is_call_f new + pending (MultiblockBaseTaylor.f_at_point s')
       <= pending (MultiblockBaseTaylor.f_at_point s)
    /\ mb_count mb_is_call_grad new
       + mb_pending n (MultiblockBaseTaylor.grad_at_point s')
       <= mb_pending n (MultiblockBaseTaylor.grad_at_point s)
    /\ mb_count mb_is_call_reset new = 0
    /\ same_instance s s'.

(** A method that leaves the object it runs on as it was. *)
Definition reads_only {A} (m : SE Wrapper.pyobj A) : Prop :=
  forall o, snd (m o) = o.

(** A property of objects that the assignments of the wrap routines keep:
    it does not depend on the three markers nor on what [f] and [grad] are
    bound to, or it says that a marker is there. *)
Definition kept_by_wrap (P : Wrapper.pyobj -> Prop) : Prop :=
  (forall v o, P o -> P (Wrapper.set__taylor_point v o))
  /\ (forall v o, P o -> P (Wrapper.set__taylor_f_at_point v o))
  /\ (forall v o, P o -> P (Wrapper.set__taylor_grad_f_at_point v o))
  /\ (forall v o, P o -> P (Wrapper.set_f v o))
  /\ (forall v o, P o -> P (Wrapper.set_grad v o)).

Definition keeps {A} (P : Wrapper.pyobj -> Prop) (m : SE Wrapper.pyobj A)
  : Prop :=
  forall o, P o -> P (snd (m o)).

(** A multiblock function that was never wrapped: its smooth part, the
    gradient of the smooth part for a block, its penalty and the gradient
    of the penalty for a block are the methods [F], [G], [P] and [Q]. *)
Definition multiblock_function (o : Wrapper.pyobj) (F : pyv -> Z)
    (G : pyv -> option nat -> np.ndarray) (P : pyv -> Z)
    (Q : pyv -> option nat -> np.ndarray) : Prop :=
  Wrapper.isinstance_CombinedFunction o = false
  /\ Wrapper.isinstance_CombinedMultiblockFunction o = false
  /\ Wrapper.isinstance_MultiblockFunction o = true
  /\ carries_marker o = false
  /\ Wrapper._f o = Wrapper.method F
  /\ Wrapper._grad_f o = Some G
  /\ Wrapper._non_f o = Some P
  /\ Wrapper._grad_non_f o = Some Q.

(** The sum of [g i] over the indices [i] of a list. *)
Definition sum_over (l : list nat) (g : nat -> Z) : Z :=
  fold_right (fun i acc => (g i + acc)%Z) 0%Z l.

(** What the block [i] of the point adds to the value of a wrapped
    multiblock function, for the block [x] of the argument: the captured
    value [Fv] and the linear term of the gradient [gs i] around the
    block [i] of the point [as_]. *)
Definition block_term (Fv : Z) (gs : nat -> list Z) (as_ : list (list Z))
    (i : nat) (x : list Z) : Z :=
  (Fv + dotp (gs i) (diff x (nth i as_ [])))%Z.








(* ------------------------------------------------------------------ *)
(** ** Further inputs used in the examples *)

(** The sum of the squares of the entries of an array, and twice the
    array (its gradient). *)
Fixpoint squares (a : np.ndarray) : Z :=
  match a with
  | np.Sc z => (z * z)%Z
  | np.Ar l => fold_right (fun x acc => (squares x + acc)%Z) 0%Z l
  end.

Fixpoint twice (a : np.ndarray) : np.ndarray :=
  match a with
  | np.Sc z => np.Sc (2 * z)
  | np.Ar l => np.Ar (map twice l)
  end.

(** A multiblock function: its smooth part is the sum of all entries of
    all blocks, its penalty the sum of their squares. *)
Definition sum_multiblock : Wrapper.pyobj :=
  Wrapper.PyObj false false true false
    (Wrapper.method (fun p => total (stacked p))) Wrapper.absent Wrapper.absent
    (Some (fun p i => ones_like (block_of p i)))
    (Some (fun p => squares (stacked p)))
    (Some (fun p i => twice (block_of p i)))
    (Wrapper.class_f (fun p => (total (stacked p) + squares (stacked p))%Z))
    (Wrapper.class_grad (fun p i => ones_like (block_of p i)))
    Wrapper.class_at_point None None None.



(** Case analysis on the results and the optional attributes met along a
    method of the multiblock class. *)
Ltac break_result :=
  repeat (cbn [MultiblockBaseTaylor.function MultiblockBaseTaylor.point
               MultiblockBaseTaylor.f_at_point
               MultiblockBaseTaylor.grad_at_point
               MultiblockBaseTaylor.indices MultiblockBaseTaylor.calls
               fst snd];
          first
            [ reflexivity
            | match goal with
              | |- context [match ?x with Ok _ => _ | Raise _ => _ end] =>
                  destruct x
              | |- context [match ?x with Some _ => _ | None => _ end] =>
                  destruct x
              end ]).

(** Unfolding the operations of the state and error monad. *)
Ltac unfold_se :=
  unfold sbind, gets, modify, sret, lift, raise,
    Wrapper.getattr, Wrapper.hasattr in *.

(* ------------------------------------------------------------------ *)
(** * Properties *)

(** ** Facts about the numpy fragment *)

Section numpy_facts.

Lemma broadcast_same_length n op la lb :
  np.ndim (np.Ar la) = np.ndim (np.Ar lb) ->
  length la = length lb ->
  np.broadcast (S n) op (np.Ar la) (np.Ar lb)
  = rmap np.Ar (zipM (np.broadcast n op) la lb).
Proof.
  intros Hd Hl. cbn [np.broadcast]. rewrite Hd, Nat.compare_refl.
  cbn [np.children]. rewrite Hl, Nat.eqb_refl. reflexivity.
Qed.

Lemma broadcast_scalars n op x y :
  np.broadcast n op (np.Sc x) (np.Sc y) = Ok (np.Sc (op x y)).
Proof. destruct n; reflexivity. Qed.

Lemma zipM_vec n op (x a : list Z) :
  zipM (np.broadcast n op) (map np.Sc x) (map np.Sc a)
  = Ok (map np.Sc (zip_with op x a)).
Proof.
  revert a; induction x as [|z x IH]; intros [|y a];
    cbn [map zipM zip_with]; auto.
  rewrite broadcast_scalars, IH. reflexivity.
Qed.

(** Arithmetic on two 1-d arrays of one length is entrywise. *)
Lemma elementwise_vec op (x a : list Z) :
  length x = length a ->
  np.elementwise op (np.vec x) (np.vec a) = Ok (np.vec (zip_with op x a)).
Proof.
  intros Hl. unfold np.elementwise, np.vec.
  assert (Hd : np.ndim (np.Ar (map np.Sc x)) = np.ndim (np.Ar (map np.Sc a))).
  { destruct x, a; reflexivity. }
  rewrite broadcast_same_length by (rewrite ?length_map; auto).
  rewrite zipM_vec. reflexivity.
Qed.

Lemma zipM_col n op (x a : list Z) :
  zipM (np.broadcast (S n) op) (map (fun z => np.Ar [np.Sc z]) x)
       (map (fun z => np.Ar [np.Sc z]) a)
  = Ok (map (fun z => np.Ar [np.Sc z]) (zip_with op x a)).
Proof.
  revert a; induction x as [|z x IH]; intros [|y a];
    cbn [map zipM zip_with]; auto.
  rewrite IH. rewrite broadcast_same_length by reflexivity.
  cbn [zipM]. rewrite broadcast_scalars. reflexivity.
Qed.

(** Arithmetic on two p-by-1 arrays is entrywise. *)
Lemma elementwise_col op (x a : list Z) :
  length x = length a ->
  np.elementwise op (np.col x) (np.col a) = Ok (np.col (zip_with op x a)).
Proof.
  intros Hl. unfold np.elementwise, np.col.
  assert (Hd : np.ndim (np.Ar (map (fun z => np.Ar [np.Sc z]) x))
               = np.ndim (np.Ar (map (fun z => np.Ar [np.Sc z]) a))).
  { destruct x, a; simpl in Hl; try lia; reflexivity. }
  rewrite broadcast_same_length by (rewrite ?length_map; auto).
  destruct x as [|z x]; [destruct a; [reflexivity | simpl in Hl; lia]|].
  change (Nat.max _ _)
    with (Nat.max 2 (np.ndim (np.Ar (map (fun z0 => np.Ar [np.Sc z0]) a)))).
  rewrite <- Hd. change (Nat.max 2 _) with 2.
  rewrite zipM_col. reflexivity.
Qed.

Lemma transpose_col {A} (d : list A) :
  np.transpose 1 (map (fun z => [z]) d) = [d].
Proof.
  induction d as [|y l IH]; [reflexivity|].
  unfold np.transpose in *. cbn [map fold_right]. rewrite IH. reflexivity.
Qed.

(** The transpose of a p-by-1 array is the 1-by-p array of its entries. *)
Lemma T_col g : g <> [] -> np.T (np.col g) = np.row g.
Proof.
  intros Hg. unfold np.col, np.row, np.vec.
  cbn [np.T]. rewrite map_map. cbn [np.T np.ndim map np.stack_last].
  destruct g as [|z g]; [congruence|]. clear Hg.
  cbn [map np.ndim pred np.stack_last np.ncols np.children length].
  rewrite map_map. cbn [np.children].
  replace ([np.Sc z] :: map (fun x => [np.Sc x]) g)
    with (map (fun x => [x]) (map np.Sc (z :: g)))
    by (cbn [map]; rewrite map_map; reflexivity).
  rewrite transpose_col. reflexivity.
Qed.

Lemma scalars_vec v : np.scalars (np.vec v) = Ok v.
Proof.
  unfold np.scalars, np.vec. induction v as [|z v IH]; [reflexivity|].
  cbn [map mapM]. rewrite IH. reflexivity.
Qed.

Lemma matrix_col d : np.matrix (np.col d) = Ok (map (fun z => [z]) d).
Proof.
  unfold np.matrix, np.col. cbn [np.children].
  induction d as [|z d IH]; [reflexivity|].
  cbn [map mapM]. rewrite IH. reflexivity.
Qed.

(** A 1-by-p array times a p-by-1 array is the 1-by-1 array of the inner
    product. *)
Lemma dot_row_col g d :
  d <> [] -> length g = length d ->
  np.dot (np.row g) (np.col d) = Ok (np.Ar [np.Ar [np.Sc (dotp g d)]]).
Proof.
  intros Hd Hl. unfold np.dot.
  assert (Hg : g <> []) by (destruct g, d; simpl in *; congruence).
  replace (np.ndim (np.row g)) with 2 by (destruct g; [congruence | reflexivity]).
  replace (np.ndim (np.col d)) with 2 by (destruct d; [congruence | reflexivity]).
  unfold np.row. cbn [np.at_depth mapM]. rewrite scalars_vec. cbn [bind].
  rewrite matrix_col. cbn [bind]. unfold np.vecmat.
  rewrite length_map, Hl, Nat.eqb_refl.
  replace (np.ncols (map (fun z => [z]) d)) with 1
    by (destruct d; [congruence | reflexivity]).
  rewrite transpose_col. cbn [mapM]. unfold np.inner. rewrite Hl, Nat.eqb_refl.
  reflexivity.
Qed.

(** Two p-by-1 arrays with p at least 2 have no product: the shapes
    (p, 1) and (p, 1) are not aligned. *)
Lemma dot_col_col_misaligned g d :
  g <> [] -> 2 <= length d ->
  np.dot (np.col g) (np.col d) = Raise ValueError.
Proof.
  intros Hg Hd. unfold np.dot.
  replace (np.ndim (np.col g)) with 2 by (destruct g; [congruence | reflexivity]).
  replace (np.ndim (np.col d)) with 2
    by (destruct d; [simpl in Hd; lia | reflexivity]).
  destruct g as [|z g]; [congruence|].
  cbn [np.at_depth]. unfold np.col at 1. cbn [map mapM np.scalars bind].
  rewrite matrix_col. cbn [bind]. unfold np.vecmat. rewrite length_map.
  cbn [length]. destruct (Nat.eqb_spec 1 (length d)); [lia|]. reflexivity.
Qed.

(** The product of two 1-d arrays of one length is their inner product. *)
Lemma dot_vec_vec g d :
  length g = length d ->
  np.dot (np.vec g) (np.vec d) = Ok (np.Sc (dotp g d)).
Proof.
  intros Hl. unfold np.dot.
  replace (np.ndim (np.vec g)) with 1 by (destruct g; reflexivity).
  replace (np.ndim (np.vec d)) with 1 by (destruct d; reflexivity).
  rewrite scalars_vec. cbn [bind np.at_depth]. rewrite scalars_vec. cbn [bind].
  unfold np.inner. rewrite Hl, Nat.eqb_refl. reflexivity.
Qed.

Lemma dotp_zero g a : dotp g (diff a a) = 0%Z.
Proof.
  unfold dotp, diff. revert a; induction g as [|z g IH]; intros [|y a]; cbn; auto.
  rewrite Z.sub_diag, Z.mul_0_r. apply IH.
Qed.

Lemma length_diff x a : length x = length a -> length (diff x a) = length a.
Proof. intros H. unfold diff. rewrite length_zip_with. lia. Qed.

Lemma getitem2_1x1 z :
  np.getitem2 (np.Ar [np.Ar [np.Sc z]]) 0 0 = Ok (np.Sc z).
Proof. reflexivity. Qed.

Lemma add_scalars x y : np.add (np.Sc x) (np.Sc y) = Ok (np.Sc (x + y)).
Proof. reflexivity. Qed.

Lemma add_scalar_1x1 x y :
  np.add (np.Sc x) (np.Ar [np.Ar [np.Sc y]])
  = Ok (np.Ar [np.Ar [np.Sc (x + y)]]).
Proof. reflexivity. Qed.

Lemma add_1x1_scalar x y :
  np.add (np.Ar [np.Ar [np.Sc x]]) (np.Sc y)
  = Ok (np.Ar [np.Ar [np.Sc (x + y)]]).
Proof. reflexivity. Qed.

(** [np.dot(g.T, w - a)[0, 0]] on p-by-1 arrays is the inner product of
    [g] and [w - a]. *)
Lemma linear_term g w a :
  a <> [] -> length w = length a -> length g = length a ->
  (d <- np.sub (np.col w) (np.col a) ;;
   t <- np.dot (np.T (np.col g)) d ;;
   np.getitem2 t 0 0) = Ok (np.Sc (dotp g (diff w a))).
Proof.
  intros Ha Hw Hg.
  assert (g <> []) by (destruct g, a; simpl in *; congruence).
  assert (diff w a <> []) by (destruct w, a; simpl in *; congruence).
  unfold np.sub. rewrite elementwise_col by auto. cbn [bind].
  rewrite T_col by auto. fold (diff w a).
  rewrite dot_row_col; [| assumption | rewrite length_diff; lia].
  reflexivity.
Qed.

Lemma seq_getitem_nat {A} (l : list A) (i : nat) :
  seq_getitem l (Z.of_nat i)
  = match l !! i with Some x => Ok x | None => Raise IndexError end.
Proof.
  unfold seq_getitem.
  destruct (Z.ltb_spec (Z.of_nat i) 0); [lia|].
  rewrite Nat2Z.id.
  destruct (Z.leb_spec 0 (Z.of_nat i)); [|lia]. cbn [andb].
  destruct (Z.ltb_spec (Z.of_nat i) (Z.of_nat (length l))); [reflexivity|].
  rewrite (proj2 (lookup_ge_None l i)) by lia. reflexivity.
Qed.

End numpy_facts.

#[global] Arguments np.sub : simpl never.
#[global] Arguments np.add : simpl never.
#[global] Arguments np.multiply : simpl never.
#[global] Arguments np.elementwise : simpl never.
#[global] Arguments np.dot : simpl never.
#[global] Arguments np.T : simpl never.
#[global] Arguments np.col : simpl never.
#[global] Arguments np.vec : simpl never.
#[global] Arguments np.row : simpl never.
#[global] Arguments np.getitem2 : simpl never.
#[global] Arguments np.asarray : simpl never.

(* ------------------------------------------------------------------ *)
(** ** FirstOrderTaylorApproximation *)

Section single_block.

Lemma count_app p l1 l2 : count p (l1 ++ l2) = count p l1 + count p l2.
Proof. induction l1 as [|c l1 IH]; simpl; [reflexivity | rewrite IH; lia]. Qed.

Lemma pending_le_1 {A} (c : option A) : pending c <= 1.
Proof. destruct c; simpl; lia. Qed.

(** One request: the log grows by the calls that fill the empty caches,
    and by nothing else. *)
Lemma serve_step self q :
  exists new,
    calls (serve self q) = calls self ++ new
    /\ count is_call_f new + pending (f_at_point (serve self q))
       <= pending (f_at_point self)
    /\ count is_call_grad new + pending (grad_at_point (serve self q))
       <= pending (grad_at_point self)
    /\ count is_call_reset new = 0
    /\ point (serve self q) = point self.
Proof.
  destruct self as [[fn|] p [fa|] [ga|] cs]; destruct q as [w|w];
    cbn; unfold FirstOrderTaylorApproximation.f,
      FirstOrderTaylorApproximation.grad,
      FirstOrderTaylorApproximation._precompute, BaseTaylor._precompute,
      the_function, not_None; unfold_se; cbn;
    try (exists []; rewrite app_nil_r; cbn; repeat split; lia);
    try (eexists; split;
         [rewrite <- ?app_assoc; reflexivity | cbn; repeat split; lia]).
Qed.

Lemma serve_all_log qs : forall self,
  exists new,
    calls (serve_all qs self) = calls self ++ new
    /\ count is_call_f new + pending (f_at_point (serve_all qs self))
       <= pending (f_at_point self)
    /\ count is_call_grad new + pending (grad_at_point (serve_all qs self))
       <= pending (grad_at_point self)
    /\ count is_call_reset new = 0
    /\ point (serve_all qs self) = point self.
Proof.
  induction qs as [|q qs IH]; intros self.
  - exists []. cbn. rewrite app_nil_r. repeat split; lia.
  - cbn [serve_all fold_left].
    destruct (serve_step self q) as (n1 & E1 & F1 & G1 & R1 & P1).
    destruct (IH (serve self q)) as (n2 & E2 & F2 & G2 & R2 & P2).
    unfold serve_all in *.
    exists (n1 ++ n2). rewrite E2, E1, <- app_assoc, !count_app.
    repeat split; try lia; congruence.
Qed.


(** Once both caches are filled a request changes nothing, calls nothing,
    and the gradient served is the cached one whatever the argument. *)
Lemma serve_cached self q v g :
  f_at_point self = Some v -> grad_at_point self = Some g ->
  serve self q = self
  /\ forall w, fst (FirstOrderTaylorApproximation.grad w self) = Ok (Some g).
Proof.
  destruct self as [fn p fa ga cs]; cbn; intros -> ->.
  destruct q; split; reflexivity.
Qed.

(** [at_point] returns None, assigns the point, empties both caches and
    resets the wrapped function once. *)
Lemma at_point_spec self b :
  FirstOrderTaylorApproximation.at_point b self =
  (Ok tt,
   {| function := function self; point := b;
      f_at_point := None; grad_at_point := None;
      calls := calls self ++ match function self with
                             | Some _ => [call_reset]
                             | None => []
                             end |}).
Proof.
  destruct self as [[fn|] p fa ga cs]; cbn; rewrite ?app_nil_r; reflexivity.
Qed.

Lemma init_spec_single fn a cs :
  FirstOrderTaylorApproximation.__init__ (Some fn) a cs =
  (Ok tt,
   {| function := Some fn; point := a;
      f_at_point := None; grad_at_point := None;
      calls := cs ++ [call_reset; call_reset] |}).
Proof.
  unfold FirstOrderTaylorApproximation.__init__. cbn.
  unfold set_grad_at_point, set_f_at_point, record_call, set_point. cbn.
  rewrite <- app_assoc. reflexivity.
Qed.

(** The value served when both caches are empty, on 1-d arrays. *)
Lemma value_uncached_1d fn (a x g : list Z) cs :
  Function_grad fn (np.vec a) = np.vec g ->
  length g = length a -> length x = length a ->
  fst (FirstOrderTaylorApproximation.f (np.vec x)
         {| function := Some fn; point := np.vec a;
            f_at_point := None; grad_at_point := None; calls := cs |})
  = Ok (np.Sc (Function_f fn (np.vec a) + dotp g (diff x a))).
Proof.
  intros HG Hg Hx.
  unfold FirstOrderTaylorApproximation.f,
    FirstOrderTaylorApproximation._precompute, BaseTaylor._precompute,
    the_function, not_None. unfold_se. cbn.
  rewrite HG. unfold np.sub. rewrite elementwise_vec by auto. cbn [bind].
  fold (diff x a). rewrite dot_vec_vec by (rewrite length_diff; lia).
  cbn [bind]. rewrite add_scalars. reflexivity.
Qed.

(** The value served when both caches are empty, on p-by-1 arrays with p
    at least 2: [np.dot(grad_at_point, w - point)] has no [.T] and
    raises. *)
Lemma value_uncached_column fn (a x g : list Z) cs :
  Function_grad fn (np.col a) = np.col g ->
  g <> [] -> 2 <= length a -> length x = length a ->
  fst (FirstOrderTaylorApproximation.f (np.col x)
         {| function := Some fn; point := np.col a;
            f_at_point := None; grad_at_point := None; calls := cs |})
  = Raise ValueError.
Proof.
  intros HG Hg Ha Hx.
  unfold FirstOrderTaylorApproximation.f,
    FirstOrderTaylorApproximation._precompute, BaseTaylor._precompute,
    the_function, not_None. unfold_se. cbn.
  rewrite HG. unfold np.sub. rewrite elementwise_col by auto. cbn [bind].
  fold (diff x a). rewrite dot_col_col_misaligned;
    [reflexivity | assumption | rewrite length_diff; lia].
Qed.

(** Requests keep the caches coherent with the function and the point. *)
Lemma serve_coherent fn self q : coherent fn self -> coherent fn (serve self q).
Proof.
  destruct self as [fn' p fa ga cs]. unfold coherent. cbn.
  intros (-> & [-> | ->] & [-> | ->]); destruct q; cbn; auto.
Qed.

Lemma serve_all_coherent fn qs : forall self,
  coherent fn self -> coherent fn (serve_all qs self).
Proof.
  induction qs as [|q qs IH]; intros self H; [exact H|].
  apply (IH (serve self q)), serve_coherent, H.
Qed.

(** With coherent caches [grad] serves the gradient at the point. *)
Lemma grad_coherent fn self w :
  coherent fn self ->
  fst (FirstOrderTaylorApproximation.grad w self)
  = Ok (Some (Function_grad fn (point self))).
Proof.
  destruct self as [fn' p fa ga cs]. unfold coherent. cbn.
  intros (-> & [-> | ->] & [-> | ->]); reflexivity.
Qed.

End single_block.

Section recentering.

(** Recentering never fails and leaves nothing cached; on 1-d arrays the
    value then served at any [x] is the expansion around the new point
    alone, so at the new point it is the value of the function there. *)
Lemma recenter_then_value_1d self fn (b x g : list Z) :
  function self = Some fn ->
  Function_grad fn (np.vec b) = np.vec g ->
  length g = length b -> length x = length b ->
  let self' := snd (FirstOrderTaylorApproximation.at_point (np.vec b) self) in
  fst (FirstOrderTaylorApproximation.at_point (np.vec b) self) = Ok tt
  /\ f_at_point self' = None /\ grad_at_point self' = None
  /\ fst (FirstOrderTaylorApproximation.f (np.vec x) self')
     = Ok (np.Sc (Function_f fn (np.vec b) + dotp g (diff x b)))
  /\ fst (FirstOrderTaylorApproximation.f (np.vec b) self')
     = Ok (np.Sc (Function_f fn (np.vec b))).
Proof.
  intros Hf HG Hg Hx self'. subst self'. rewrite at_point_spec. cbn [fst snd].
  rewrite Hf. repeat split.
  - apply value_uncached_1d; assumption.
  - rewrite (value_uncached_1d fn b b g) by auto.
    rewrite dotp_zero, Z.add_0_r. reflexivity.
Qed.

(** On p-by-1 arrays with p at least 2 the value served after a recenter
    is an exception. *)
Lemma recenter_then_value_column self fn (b g : list Z) :
  function self = Some fn ->
  Function_grad fn (np.col b) = np.col g ->
  g <> [] -> 2 <= length b ->
  fst (FirstOrderTaylorApproximation.f (np.col b)
         (snd (FirstOrderTaylorApproximation.at_point (np.col b) self)))
  = Raise ValueError.
Proof.
  intros Hf HG Hg Hb. rewrite at_point_spec. cbn [snd]. rewrite Hf.
  apply (value_uncached_column fn b b g); auto.
Qed.

(** C7.  The code at a failing input: an approximation of f(x) = sum(x)
    built around the 2-by-1 point (0, 0) is recentered at b = (1, 2);
    recenter returns None and empties both caches, but the value then
    asked for at b is not f(b) = 3: the call raises ValueError. *)
Example recenter_then_value_raises :
  let self :=
    snd (FirstOrderTaylorApproximation.__init__ (Some sum_function)
           (np.col [0; 0]%Z) []) in
  let b := np.col [1; 2]%Z in
  let self' := snd (FirstOrderTaylorApproximation.at_point b self) in
  fst (FirstOrderTaylorApproximation.at_point b self) = Ok tt
  /\ f_at_point self' = None /\ grad_at_point self' = None
  /\ Function_f sum_function b = 3%Z
  /\ fst (FirstOrderTaylorApproximation.f b self') = Raise ValueError.
Proof. repeat split. Qed.

(** The standalone approximation at its centre, on 1-d arrays. *)
Lemma value_at_centre_1d fn (a g : list Z) cs :
  Function_grad fn (np.vec a) = np.vec g -> length g = length a ->
  fst (FirstOrderTaylorApproximation.f (np.vec a)
         (snd (FirstOrderTaylorApproximation.__init__ (Some fn) (np.vec a) cs)))
  = Ok (np.Sc (Function_f fn (np.vec a))).
Proof.
  intros HG Hg. rewrite init_spec_single. cbn [snd].
  rewrite (value_uncached_1d fn a a g) by auto.
  rewrite dotp_zero, Z.add_0_r. reflexivity.
Qed.

End recentering.

(* ------------------------------------------------------------------ *)
(** ** MultiblockFirstOrderTaylorApproximation *)

Section multiblock.

Import MultiblockBaseTaylor.

Lemma deref_alloc_old (h : list (list pyidx)) l r :
  r < length h -> deref (h ++ [l]) r = deref h r.
Proof. intros H. unfold deref. rewrite lookup_app_l by lia. reflexivity. Qed.

Lemma deref_alloc_new (h : list (list pyidx)) l :
  deref (h ++ [l]) (length h) = l.
Proof.
  unfold deref. rewrite lookup_app_r by lia. rewrite Nat.sub_diag. reflexivity.
Qed.

Lemma deref_insert_eq (h : list (list pyidx)) r l :
  r < length h -> deref (<[r := l]> h) r = l.
Proof.
  intros H. unfold deref. rewrite list_lookup_insert_eq by lia. reflexivity.
Qed.

Lemma deref_insert_ne (h : list (list pyidx)) r r' l :
  r <> r' -> deref (<[r := l]> h) r' = deref h r'.
Proof.
  intros H. unfold deref. rewrite list_lookup_insert_ne by auto. reflexivity.
Qed.

(** The loop of [__init__] over the entries [i .. i+n) of the list at
    [r]: they are replaced by their [int], the others are kept. *)
Lemma coerce_loop r n : forall i (h : list (list pyidx)) self,
  r < length h -> i + n <= length (deref h r) ->
  for_each (seq i n) (coerce_entry r) (h, self)
  = (Ok tt,
     (<[r := take i (deref h r) ++ coerced (take n (drop i (deref h r)))
             ++ drop (i + n) (deref h r)]> h, self)).
Proof.
  induction n as [|n IH]; intros i h self Hr Hn.
  - rewrite Nat.add_0_r, take_0. cbn [seq for_each]. unfold coerced.
    cbn [map app]. rewrite take_drop. unfold sret.
    rewrite list_insert_id; [reflexivity|].
    unfold deref. destruct (h !! r) eqn:E; [reflexivity|].
    apply lookup_ge_None in E. lia.
  - cbn [seq for_each]. unfold sbind at 1. unfold coerce_entry at 1.
    destruct (deref h r !! i) as [x|] eqn:Ex.
    2:{ apply lookup_ge_None in Ex. lia. }
    rewrite IH.
    2:{ rewrite length_insert. lia. }
    2:{ rewrite deref_insert_eq by lia. rewrite length_insert. lia. }
    rewrite deref_insert_eq by lia. rewrite list_insert_insert_eq.
    f_equal. f_equal. f_equal.
    set (l := deref h r) in *.
    assert (Hi : i < length l) by lia.
    rewrite (take_S_r (<[i := PyInt (int x)]> l) i (PyInt (int x)))
      by (apply list_lookup_insert_eq; lia).
    rewrite take_insert_ge by lia.
    rewrite !drop_insert_lt by lia.
    rewrite (drop_S l x i Ex). unfold coerced. cbn [take map].
    rewrite <- app_assoc. cbn [app].
    replace (S i + n) with (i + S n) by lia. reflexivity.
Qed.

(** What the constructor leaves: on the heap, the caller's list with
    every entry coerced and, at a new location, a copy of the list as it
    was passed; in the instance, a reference to that copy. *)
Lemma init_spec (h : list (list pyidx)) fn p r cs :
  r < length h ->
  MultiblockFirstOrderTaylorApproximation.__init__ h fn p r cs =
  (Ok tt,
   (<[r := coerced (deref h r)]> (h ++ [deref h r]),
    {| function := fn; point := p;
       f_at_point := None; grad_at_point := None;
       indices := Some (length h);
       calls := cs ++ match fn with
                      | Some _ => [call_reset; call_reset]
                      | None => []
                      end |})).
Proof.
  intros Hr.
  unfold MultiblockFirstOrderTaylorApproximation.__init__, __init__.
  unfold sbind at 1 2 3. unfold on_self at 1.
  destruct (MultiblockFirstOrderTaylorApproximation.at_point p _)
    as [[[]|e] self1] eqn:E1.
  2:{ exfalso. revert E1. destruct fn; cbn; discriminate. }
  unfold alloc. unfold sbind at 1. unfold gets at 1. cbn [fst].
  rewrite deref_alloc_old by lia.
  unfold range. rewrite coerce_loop.
  2:{ rewrite length_app. cbn. lia. }
  2:{ rewrite deref_alloc_old by lia. lia. }
  rewrite deref_alloc_old by lia.
  rewrite take_0, drop_0, firstn_all. cbn [Nat.add app].
  rewrite drop_all, app_nil_r.
  unfold on_self.
  revert E1. destruct fn; cbn; intros [= <-]; cbn;
    unfold set_grad_at_point, set_f_at_point, record_call,
      set_indices, set_point; cbn;
    rewrite <- ?app_assoc, ?app_nil_r; reflexivity.
Qed.

(** C10.  The constructor, given the location [r] of the caller's list of
    indices, returns normally and leaves the caller's list with every entry
    replaced by its [int], while the list the instance keeps in
    [self.indices] is another object (the new location [length h]) that
    holds the entries as they were passed, not coerced. *)
Theorem init_coerces_the_callers_list (h : list (list pyidx)) fn p r cs :
  r < length h ->
  let res := MultiblockFirstOrderTaylorApproximation.__init__ h fn p r cs in
  fst res = Ok tt
  /\ deref (fst (snd res)) r = coerced (deref h r)
  /\ indices (snd (snd res)) = Some (length h)
  /\ deref (fst (snd res)) (length h) = deref h r
  /\ length h <> r.
Proof.
  intros Hr res. subst res. rewrite init_spec by assumption.
  cbn [fst snd indices]. repeat split.
  - apply deref_insert_eq. rewrite length_app. cbn. lia.
  - rewrite deref_insert_ne by lia. apply deref_alloc_new.
  - lia.
Qed.

(** C8.  A MultiblockFirstOrderTaylorApproximation built with the index
    list [0, 1] around the two p-by-1 blocks a = [a0, a1]: its value at
    w = [w0, w1] is f([a0, a1]) + <g0, w0 - a0> + <g1, w1 - a1>, where gi is
    the gradient of the function in block i at [a0, a1], and its gradient
    for index 1 is g1 alone. *)
Theorem multiblock_value_and_gradient (h : list (list pyidx)) fn r cs
    (a0 a1 g0 g1 w0 w1 : list Z) :
  r < length h ->
  deref h r = [PyInt 0; PyInt 1] ->
  a0 <> [] -> a1 <> [] ->
  length w0 = length a0 -> length g0 = length a0 ->
  length w1 = length a1 -> length g1 = length a1 ->
  MultiblockFunction_grad fn [np.col a0; np.col a1] 0 = np.col g0 ->
  MultiblockFunction_grad fn [np.col a0; np.col a1] 1 = np.col g1 ->
  let a := PList [np.col a0; np.col a1] in
  let w := PList [np.col w0; np.col w1] in
  let s := snd (MultiblockFirstOrderTaylorApproximation.__init__
                  h (Some fn) a r cs) in
  fst (MultiblockFirstOrderTaylorApproximation.f (fst s) w (snd s))
  = Ok (np.Sc (MultiblockFunction_f fn [np.col a0; np.col a1]
               + dotp g0 (diff w0 a0) + dotp g1 (diff w1 a1)))
  /\ fst (MultiblockFirstOrderTaylorApproximation.grad (fst s) w 1 (snd s))
     = Ok (Some (np.col g1)).
Proof.
  intros Hr Hl Ha0 Ha1 Hw0 Hg0 Hw1 Hg1 HG0 HG1 a w s. subst s a w.
  rewrite init_spec by assumption. cbn [fst snd].
  set (h' := <[r := coerced (deref h r)]> (h ++ [deref h r])).
  assert (Hd : deref h' (length h) = [PyInt 0; PyInt 1]).
  { subst h'. rewrite deref_insert_ne by lia. rewrite deref_alloc_new.
    exact Hl. }
  clearbody h'. revert Hd. generalize (length h) as r'. intros r' Hd.
  pose proof (linear_term g0 w0 a0 Ha0 Hw0 Hg0) as L0.
  pose proof (linear_term g1 w1 a1 Ha1 Hw1 Hg1) as L1.
  unfold bind in L0, L1.
  split.
  - do 6 (lazy -[deref np.sub np.dot np.T np.getitem2 np.add np.col dotp
                 diff Z.add MultiblockFunction_f MultiblockFunction_grad];
          rewrite ?Hd).
    rewrite HG0, HG1.
    destruct (np.sub (np.col w0) (np.col a0)) as [d0|]; [|discriminate].
    destruct (np.dot (np.T (np.col g0)) d0) as [t0|]; [|discriminate].
    rewrite L0. rewrite add_scalars.
    destruct (np.sub (np.col w1) (np.col a1)) as [d1|]; [|discriminate].
    destruct (np.dot (np.T (np.col g1)) d1) as [t1|]; [|discriminate].
    rewrite L1. rewrite add_scalars. reflexivity.
  - do 6 (lazy -[deref np.col MultiblockFunction_f MultiblockFunction_grad];
          rewrite ?Hd).
    rewrite HG1. reflexivity.
Qed.

End multiblock.

(* ------------------------------------------------------------------ *)
(** ** FirstOrderTaylorWrapper *)

Section wrapper.

Import FirstOrderTaylorWrapper.

Lemma load_deepcopy (h : list pyobj) r :
  load (h ++ [load h r]) (length h) = load h r.
Proof.
  unfold load at 1. rewrite lookup_app_r by lia.
  rewrite Nat.sub_diag. reflexivity.
Qed.

Lemma load_store (h : list pyobj) o o' :
  load (<[length h := o']> (h ++ [o])) (length h) = o'.
Proof.
  unfold load. rewrite list_lookup_insert_eq; [reflexivity|].
  rewrite length_app. simpl. lia.
Qed.

Lemma store_copy (h : list pyobj) o o' :
  <[length h := o']> (h ++ [o]) = h ++ [o'].
Proof.
  rewrite insert_app_r_alt by lia. rewrite Nat.sub_diag. reflexivity.
Qed.


(** [_wrap] on a function that was never wrapped. *)
Lemma _wrap_plain o F G point :
  plain_function o F G ->
  _wrap point o =
  (Ok tt,
   set_grad bound_new_grad
     (set_f bound_new_f
        (set__taylor_grad_f_at_point (one (G point None))
           (set__taylor_f_at_point (np.Sc (F point))
              (set__taylor_point point o))))).
Proof.
  intros (Hc & _ & _ & Hm & Hf & Hg).
  destruct o; cbn in *. unfold carries_marker, hasattr in Hm; cbn in Hm.
  destruct _taylor_point0, _taylor_f_at_point0, _taylor_grad_f_at_point0;
    try discriminate.
  subst. reflexivity.
Qed.

Lemma wrap_copy_plain o F G point :
  plain_function o F G -> wrap_copy point o = _wrap point o.
Proof.
  intros (Hc & Hcm & Hm & _). unfold wrap_copy. unfold_se.
  rewrite Hc, Hcm, Hm. reflexivity.
Qed.

(** [__call__] on such a function returns the copy, wrapped. *)
Lemma call_plain (h : list pyobj) r F G point :
  plain_function (load h r) F G ->
  fst (__call__ h r point) = Ok (length h)
  /\ load (snd (__call__ h r point)) (length h)
     = snd (_wrap point (load h r)).
Proof.
  intros Hp. unfold __call__, deepcopy. rewrite load_deepcopy.
  rewrite (wrap_copy_plain _ F G _ Hp), (_wrap_plain _ F G _ Hp).
  cbn [fst snd rmap bind]. split; [reflexivity | apply load_store].
Qed.

(** The value of a wrapped function on p-by-1 arrays. *)
Lemma new_f_plain o F G (a x g : list Z) :
  plain_function o F G ->
  a <> [] -> length x = length a -> length g = length a ->
  G (PArr (np.col a)) None = np.col g ->
  fst (call_f (PArr (np.col x)) (snd (_wrap (PArr (np.col a)) o)))
  = Ok (np.Sc (F (PArr (np.col a)) + dotp g (diff x a))).
Proof.
  intros Hp Ha Hx Hg HG. rewrite (_wrap_plain o F G _ Hp). cbn [snd].
  destruct Hp as (Hc & _ & _ & _ & _ & _).
  destruct o; cbn in *. subst.
  unfold call_f, new_f. unfold_se. cbn.
  rewrite HG.
  assert (g <> []) by (destruct g, a; simpl in *; congruence).
  assert (diff x a <> []) by (destruct x, a; simpl in *; congruence).
  unfold np.sub. rewrite elementwise_col by auto. cbn [bind].
  rewrite T_col by auto. fold (diff x a).
  rewrite dot_row_col; [| assumption | rewrite length_diff; lia].
  cbn [bind]. rewrite add_scalar_1x1. reflexivity.
Qed.

(** The wrapper on a single-block function, on p-by-1 arrays: the object
    returned has the value f(a) + <grad f(a), x - a> at x, hence f(a) at
    the point a it was wrapped at. *)
Lemma wrap_value_single_block (h : list pyobj) r F G (a x g : list Z) :
  plain_function (load h r) F G ->
  a <> [] -> length x = length a -> length g = length a ->
  G (PArr (np.col a)) None = np.col g ->
  let h' := snd (__call__ h r (PArr (np.col a))) in
  fst (__call__ h r (PArr (np.col a))) = Ok (length h)
  /\ value h' (length h) (PArr (np.col x))
     = Ok (np.Sc (F (PArr (np.col a)) + dotp g (diff x a)))
  /\ value h' (length h) (PArr (np.col a))
     = Ok (np.Sc (F (PArr (np.col a)))).
Proof.
  intros Hp Ha Hx Hg HG h'. subst h'.
  destruct (call_plain h r F G (PArr (np.col a)) Hp) as [E1 E2].
  unfold value. rewrite E2. repeat split; [exact E1 | |].
  - apply (new_f_plain _ F G a x g); assumption.
  - rewrite (new_f_plain _ F G a a g) by auto.
    rewrite dotp_zero, Z.add_0_r. reflexivity.
Qed.

(** The gradient of the object the wrapper returns for a single-block
    function. *)
Lemma gradient_wrapped_plain (h : list pyobj) r F G a x :
  plain_function (load h r) F G ->
  gradient (snd (__call__ h r a)) (length h) x None = Ok (one (G a None)).
Proof.
  intros Hp. unfold gradient.
  destruct (call_plain h r F G a Hp) as [_ ->].
  rewrite (_wrap_plain _ F G _ Hp). cbn [snd].
  destruct Hp as (Hc & _). destruct (load h r); cbn in *; subst. reflexivity.
Qed.

(** C5.  The gradient of a first-order Taylor approximation built around
    a is the gradient of the function at a, whatever the argument: for the
    standalone class after any sequence of earlier value and gradient
    requests, and for the object the wrapper returns for a single-block
    function that is no composite. *)
Theorem gradient_is_constant fn a cs qs w (h : list pyobj) r F G point x :
  plain_function (load h r) F G ->
  fst (FirstOrderTaylorApproximation.grad w
         (serve_all qs
            (snd (FirstOrderTaylorApproximation.__init__ (Some fn) a cs))))
  = Ok (Some (Function_grad fn a))
  /\ gradient (snd (__call__ h r point)) (length h) x None
     = Ok (one (G point None)).
Proof.
  intros Hp. split.
  - assert (Hc : coherent fn
        (snd (FirstOrderTaylorApproximation.__init__ (Some fn) a cs))).
    { rewrite init_spec_single. unfold coherent. cbn. auto. }
    pose proof (serve_all_coherent fn qs _ Hc) as Hc'.
    rewrite (grad_coherent fn _ w Hc').
    destruct (serve_all_log qs
      (snd (FirstOrderTaylorApproximation.__init__ (Some fn) a cs)))
      as (_ & _ & _ & _ & _ & ->).
    rewrite init_spec_single. reflexivity.
  - apply (gradient_wrapped_plain h r F G point x Hp).
Qed.


(** A [CombinedFunction] is never wrapped: [__call__] raises on it. *)
Lemma flat_composite_raises (h : list pyobj) r point :
  isinstance_CombinedFunction (load h r) = true ->
  returns (fst (__call__ h r point)) = false.
Proof.
  intros Hc. unfold __call__, deepcopy. rewrite load_deepcopy.
  unfold wrap_copy, wrap_CombinedFunction, len_at, iter_int. unfold_se.
  rewrite Hc.
  destruct (as_list (_f (load h r))) as [t|e]; cbn; [|reflexivity].
  destruct (tree_len t); reflexivity.
Qed.

(** With [_f] a list, as the branch reads it, the exception is the
    TypeError of [for i in len(fun._f)]. *)
Lemma flat_composite_raises_TypeError (h : list pyobj) r point l :
  isinstance_CombinedFunction (load h r) = true ->
  _f (load h r) = items (node l) ->
  fst (__call__ h r point) = Raise TypeError.
Proof.
  intros Hc Hf. unfold __call__, deepcopy. rewrite load_deepcopy.
  unfold wrap_copy, wrap_CombinedFunction, len_at, iter_int. unfold_se.
  rewrite Hc, Hf. reflexivity.
Qed.

(** [_wrap] called on a composite itself, its smooth part and its penalty
    given by methods: the value installed is the expansion of the smooth
    part plus the exact penalty. *)
Lemma _wrap_composite_value o F G P (a x g : list Z) :
  composite_with_methods o F G P ->
  a <> [] -> length x = length a -> length g = length a ->
  G (PArr (np.col a)) None = np.col g ->
  fst (_wrap (PArr (np.col a)) o) = Ok tt
  /\ fst (call_f (PArr (np.col x)) (snd (_wrap (PArr (np.col a)) o)))
     = Ok (np.Sc (F (PArr (np.col a)) + dotp g (diff x a)
                  + P (PArr (np.col x)))).
Proof.
  intros (Hc & Hm & Hf & Hg & Hp) Ha Hx Hl HG.
  destruct o as [c cm m bt af ad aN gf nf gnf fb gb ap tp tf tg]; cbn in *.
  unfold carries_marker, hasattr in Hm; cbn in Hm.
  destruct tp, tf, tg; try discriminate. subst.
  split; [reflexivity|].
  unfold _wrap, call_f, new_f. unfold_se. cbn.
  rewrite HG.
  assert (g <> []) by (destruct g, a; simpl in *; congruence).
  assert (diff x a <> []) by (destruct x, a; simpl in *; congruence).
  unfold np.sub. rewrite elementwise_col by auto. cbn [bind].
  rewrite T_col by auto. fold (diff x a).
  rewrite dot_row_col; [| assumption | rewrite length_diff; lia].
  cbn [bind]. rewrite add_scalar_1x1. cbn. rewrite add_1x1_scalar.
  reflexivity.
Qed.

End wrapper.

(* ------------------------------------------------------------------ *)
(** ** The code at concrete inputs *)

Section examples.

Import FirstOrderTaylorWrapper.

(** C1.  The code at two failing inputs.  (1) The wrapper on a multiblock
    function whose smooth part is 5 everywhere, with gradient zero and no
    penalty, wrapped at the two 2-by-1 blocks a = [(1, 2), (3, 4)]: the
    value of the object returned, asked at a, is the array [10] (the
    captured value is added once per block of the point), not f(a) = 5.
    (2) The standalone approximation of f(x) = sum(x) built around the
    2-by-1 point a = (1, 2): the value asked at a is not f(a) = 3, the call
    raises ValueError. *)
Example value_at_the_centre_is_not_f :
  let a := PList [np.col [1; 2]%Z; np.col [3; 4]%Z] in
  let h' := snd (__call__ [constant_multiblock] 0 a) in
  let c := np.col [1; 2]%Z in
  let self :=
    snd (FirstOrderTaylorApproximation.__init__ (Some sum_function) c []) in
  (fst (__call__ [constant_multiblock] 0 a) = Ok 1
   /\ call_attr (_f constant_multiblock) a = Ok 5%Z
   /\ value h' 1 a = Ok (np.Ar [np.Sc 10]))
  /\ (Function_f sum_function c = 3%Z
      /\ fst (FirstOrderTaylorApproximation.f c self) = Raise ValueError).
Proof. repeat split. Qed.

(** C2.  The code at a failing input: a CombinedFunction with the one
    smooth loss f(x) = sum(x) and the one non-smooth penalty
    g(x) = sum |x_i| is handed to the wrapper with the 2-by-1 point (1, 2).
    No object is returned: [for i in len(fun._f)] raises TypeError. *)
Example wrap_of_loss_plus_penalty_raises :
  fst (__call__ [combined [sum_object] [l1_object] []] 0
         (PArr (np.col [1; 2]%Z)))
  = Raise TypeError.
Proof. reflexivity. Qed.

(** C3.  The code at a failing input: a CombinedFunction whose two losses
    are instances of BaseTaylor is handed to the wrapper.  No entry is
    replaced and no recenter method is installed: the call raises TypeError
    and returns no object. *)
Example wrap_of_two_taylor_losses_raises :
  fst (__call__ [combined [taylor_loss; taylor_loss] [] []] 0
         (PArr (np.col [1; 2]%Z)))
  = Raise TypeError.
Proof. reflexivity. Qed.


Lemma sum_object_is_plain :
  plain_function (load [sum_object] 0) (fun p => total (stacked p))
    (fun p _ => ones_like (stacked p)).
Proof. repeat split. Defined.

Lemma gradient_is_constant_witness :
  fst (FirstOrderTaylorApproximation.grad (np.vec [7; 8]%Z)
         (serve_all [value_at (np.vec [5; 5]%Z)]
            (snd (FirstOrderTaylorApproximation.__init__ (Some sum_function)
                    (np.vec [1; 2]%Z) []))))
  = Ok (Some (np.vec [1; 1]%Z))
  /\ gradient (snd (__call__ [sum_object] 0 (PArr (np.col [1; 2]%Z)))) 1
       (PArr (np.col [7; 8]%Z)) None
     = Ok (one (np.col [1; 1]%Z)).
Proof.
  exact (gradient_is_constant sum_function (np.vec [1; 2]%Z) []
           [value_at (np.vec [5; 5]%Z)] (np.vec [7; 8]%Z)
           [sum_object] 0 _ _ (PArr (np.col [1; 2]%Z))
           (PArr (np.col [7; 8]%Z)) sum_object_is_plain).
Defined.

Lemma multiblock_value_and_gradient_witness :
  let a := PList [np.col [1; 2]%Z; np.col [3; 4]%Z] in
  let w := PList [np.col [2; 2]%Z; np.col [5; 5]%Z] in
  let s := snd (MultiblockFirstOrderTaylorApproximation.__init__
                  [[PyInt 0; PyInt 1]] (Some pair_sum) a 0 []) in
  fst (MultiblockFirstOrderTaylorApproximation.f (fst s) w (snd s))
  = Ok (np.Sc 14)
  /\ fst (MultiblockFirstOrderTaylorApproximation.grad (fst s) w 1 (snd s))
     = Ok (Some (np.col [1; 1]%Z)).
Proof.
  exact (multiblock_value_and_gradient [[PyInt 0; PyInt 1]] pair_sum 0 []
           [1; 2]%Z [3; 4]%Z [1; 1]%Z [1; 1]%Z [2; 2]%Z [5; 5]%Z
           (Nat.lt_0_succ 0) eq_refl
           (fun H => eq_ind [] (fun l => match l with [] => True | _ => False end)
                       I _ (eq_sym H))
           (fun H => eq_ind [] (fun l => match l with [] => True | _ => False end)
                       I _ (eq_sym H))
           eq_refl eq_refl eq_refl eq_refl eq_refl eq_refl).
Defined.

Lemma init_coerces_the_callers_list_witness :
  let res := MultiblockFirstOrderTaylorApproximation.__init__
               [[PyFloat (3 # 2); PyInt 1]] (Some pair_sum)
               (PList [np.col [1; 2]%Z; np.col [3; 4]%Z]) 0 [] in
  fst res = Ok tt
  /\ deref (fst (snd res)) 0 = [PyInt 1; PyInt 1]
  /\ MultiblockBaseTaylor.indices (snd (snd res)) = Some 1
  /\ deref (fst (snd res)) 1 = [PyFloat (3 # 2); PyInt 1]
  /\ 1 <> 0.
Proof.
  exact (init_coerces_the_callers_list [[PyFloat (3 # 2); PyInt 1]]
           (Some pair_sum) (PList [np.col [1; 2]%Z; np.col [3; 4]%Z]) 0 []
           (Nat.lt_0_succ 0)).
Defined.

Lemma wrap_value_single_block_witness :
  fst (__call__ [sum_object] 0 (PArr (np.col [1; 2]%Z))) = Ok 1
  /\ value (snd (__call__ [sum_object] 0 (PArr (np.col [1; 2]%Z)))) 1
       (PArr (np.col [5; 7]%Z))
     = Ok (np.Sc 12)
  /\ value (snd (__call__ [sum_object] 0 (PArr (np.col [1; 2]%Z)))) 1
       (PArr (np.col [1; 2]%Z))
     = Ok (np.Sc 3).
Proof.
  exact (wrap_value_single_block [sum_object] 0 _ _
           [1; 2]%Z [5; 7]%Z [1; 1]%Z sum_object_is_plain
           (fun H => eq_ind [] (fun l => match l with [] => True | _ => False end)
                       I _ (eq_sym H))
           eq_refl eq_refl eq_refl).
Defined.

Lemma recenter_then_value_1d_witness :
  let self :=
    snd (FirstOrderTaylorApproximation.__init__ (Some sum_function)
           (np.vec [0; 0]%Z) []) in
  let self' :=
    snd (FirstOrderTaylorApproximation.at_point (np.vec [1; 2]%Z) self) in
  fst (FirstOrderTaylorApproximation.at_point (np.vec [1; 2]%Z) self) = Ok tt
  /\ f_at_point self' = None /\ grad_at_point self' = None
  /\ fst (FirstOrderTaylorApproximation.f (np.vec [5; 7]%Z) self')
     = Ok (np.Sc 12)
  /\ fst (FirstOrderTaylorApproximation.f (np.vec [1; 2]%Z) self')
     = Ok (np.Sc 3).
Proof.
  exact (recenter_then_value_1d
           (snd (FirstOrderTaylorApproximation.__init__ (Some sum_function)
                   (np.vec [0; 0]%Z) []))
           sum_function [1; 2]%Z [5; 7]%Z [1; 1]%Z
           eq_refl eq_refl eq_refl eq_refl).
Defined.

Lemma recenter_then_value_column_witness :
  fst (FirstOrderTaylorApproximation.f (np.col [1; 2]%Z)
         (snd (FirstOrderTaylorApproximation.at_point (np.col [1; 2]%Z)
                 (snd (FirstOrderTaylorApproximation.__init__
                         (Some sum_function) (np.col [0; 0]%Z) [])))))
  = Raise ValueError.
Proof.
  exact (recenter_then_value_column
           (snd (FirstOrderTaylorApproximation.__init__ (Some sum_function)
                   (np.col [0; 0]%Z) []))
           sum_function [1; 2]%Z [1; 1]%Z eq_refl eq_refl
           (fun H => eq_ind [] (fun l => match l with [] => True | _ => False end)
                       I _ (eq_sym H))
           (le_n 2)).
Defined.

Lemma value_at_centre_1d_witness :
  fst (FirstOrderTaylorApproximation.f (np.vec [1; 2]%Z)
         (snd (FirstOrderTaylorApproximation.__init__ (Some sum_function)
                 (np.vec [1; 2]%Z) [])))
  = Ok (np.Sc 3).
Proof.
  exact (value_at_centre_1d sum_function [1; 2]%Z [1; 1]%Z [] eq_refl eq_refl).
Defined.

Lemma combined_methods_is_composite :
  composite_with_methods combined_methods (fun p => total (stacked p))
    (fun p _ => ones_like (stacked p)) (fun p => l1 (stacked p)).
Proof. repeat split. Defined.

Lemma _wrap_composite_value_witness :
  fst (_wrap (PArr (np.col [1; 2]%Z)) combined_methods) = Ok tt
  /\ fst (call_f (PArr (np.col [3; -5]%Z))
            (snd (_wrap (PArr (np.col [1; 2]%Z)) combined_methods)))
     = Ok (np.Sc 6).
Proof.
  exact (_wrap_composite_value combined_methods _ _ _
           [1; 2]%Z [3; -5]%Z [1; 1]%Z combined_methods_is_composite
           (fun H => eq_ind [] (fun l => match l with [] => True | _ => False end)
                       I _ (eq_sym H))
           eq_refl eq_refl eq_refl).
Defined.

Lemma flat_composite_raises_witness :
  returns (fst (__call__ [combined [sum_object] [l1_object] []] 0
                  (PArr (np.col [1; 2]%Z)))) = false.
Proof.
  exact (flat_composite_raises [combined [sum_object] [l1_object] []] 0
           (PArr (np.col [1; 2]%Z)) eq_refl).
Defined.

End examples.

(* ------------------------------------------------------------------ *)
(** ** The state and error monad *)

Section monad_facts.

Lemma snd_sbind {S A B} (m : SE S A) (k : A -> SE S B) s :
  snd (sbind m k s)
  = match fst (m s) with
    | Ok a => snd (k a (snd (m s)))
    | Raise _ => snd (m s)
    end.
Proof. unfold sbind. destruct (m s) as [[a|e] s']; reflexivity. Qed.

Lemma sbind_ok {S A B} (m : SE S A) (k : A -> SE S B) s a s' :
  m s = (Ok a, s') -> sbind m k s = k a s'.
Proof. intros H. unfold sbind. rewrite H. reflexivity. Qed.

Lemma modify_eq {S} (g : S -> S) s : modify g s = (Ok tt, g s).
Proof. reflexivity. Qed.

End monad_facts.

(* ------------------------------------------------------------------ *)
(** ** FirstOrderTaylorApproximation: requests, reset, shapes *)

Section single_block_more.

(** With coherent caches, the value served is computed from the function
    and the point alone. *)
Lemma value_coherent fn self w :
  coherent fn self ->
  fst (FirstOrderTaylorApproximation.f w self)
  = (d <- np.sub w (point self) ;;
     t <- np.dot (Function_grad fn (point self)) d ;;
     np.add (np.Sc (Function_f fn (point self))) t).
Proof.
  destruct self as [fn' p fa ga cs]. unfold coherent. cbn.
  intros (-> & [-> | ->] & [-> | ->]); reflexivity.
Qed.

Lemma init_coherent fn a cs :
  coherent fn (snd (FirstOrderTaylorApproximation.__init__ (Some fn) a cs)).
Proof. rewrite init_spec_single. unfold coherent. cbn. auto. Qed.

Lemma serve_all_point qs self : point (serve_all qs self) = point self.
Proof.
  destruct (serve_all_log qs self) as (_ & _ & _ & _ & _ & H). exact H.
Qed.

Lemma reset_spec self :
  FirstOrderTaylorApproximation.reset self =
  (Ok tt,
   {| function := function self; point := point self;
      f_at_point := None; grad_at_point := None;
      calls := calls self ++ match function self with
                             | Some _ => [call_reset]
                             | None => []
                             end |}).
Proof.
  destruct self as [[fn|] p fa ga cs]; cbn; rewrite ?app_nil_r; reflexivity.
Qed.

Lemma reset_coherent fn self :
  coherent fn self -> coherent fn (snd (FirstOrderTaylorApproximation.reset self)).
Proof.
  rewrite reset_spec. unfold coherent. cbn. intros (-> & _). auto.
Qed.

(** The value served does not depend on the requests served before. *)
Theorem value_after_requests fn a cs qs w :
  fst (FirstOrderTaylorApproximation.f w
         (serve_all qs
            (snd (FirstOrderTaylorApproximation.__init__ (Some fn) a cs))))
  = fst (FirstOrderTaylorApproximation.f w
           (snd (FirstOrderTaylorApproximation.__init__ (Some fn) a cs))).
Proof.
  pose proof (init_coherent fn a cs) as Hc.
  rewrite (value_coherent fn _ w (serve_all_coherent fn qs _ Hc)).
  rewrite (value_coherent fn _ w Hc).
  rewrite serve_all_point. reflexivity.
Qed.

(** [reset] after any requests returns None, empties both caches, resets
    the wrapped function once and keeps the point; the value and the
    gradient served afterwards are those served before. *)
Theorem reset_keeps_the_approximation fn a cs qs w :
  let self := serve_all qs
                (snd (FirstOrderTaylorApproximation.__init__ (Some fn) a cs)) in
  let self' := snd (FirstOrderTaylorApproximation.reset self) in
  fst (FirstOrderTaylorApproximation.reset self) = Ok tt
  /\ f_at_point self' = None /\ grad_at_point self' = None
  /\ point self' = a
  /\ calls self' = calls self ++ [call_reset]
  /\ fst (FirstOrderTaylorApproximation.f w self')
     = fst (FirstOrderTaylorApproximation.f w self)
  /\ fst (FirstOrderTaylorApproximation.grad w self')
     = fst (FirstOrderTaylorApproximation.grad w self).
Proof.
  intros self self'.
  pose proof (init_coherent fn a cs) as Hc0.
  pose proof (serve_all_coherent fn qs _ Hc0) as Hc. fold self in Hc.
  pose proof (reset_coherent fn self Hc) as Hc'. fold self' in Hc'.
  assert (Hp : point self = a).
  { subst self. rewrite serve_all_point, init_spec_single. reflexivity. }
  assert (Hf : function self = Some fn) by apply Hc.
  assert (Hp' : point self' = point self).
  { subst self'. rewrite reset_spec. reflexivity. }
  rewrite (value_coherent fn _ w Hc'), (value_coherent fn _ w Hc).
  rewrite (grad_coherent fn _ w Hc'), (grad_coherent fn _ w Hc).
  rewrite Hp'. subst self'. rewrite reset_spec. cbn [fst snd f_at_point
    grad_at_point point calls]. rewrite Hf. repeat split; auto.
Qed.

(** An approximation built with None for the function: the constructor
    and [at_point] return (the reset of the function is skipped), and the
    first value or gradient asked raises AttributeError. *)
Theorem no_function_raises a cs w :
  let r := FirstOrderTaylorApproximation.__init__ None a cs in
  fst r = Ok tt
  /\ calls (snd r) = cs
  /\ fst (FirstOrderTaylorApproximation.at_point w (snd r)) = Ok tt
  /\ fst (FirstOrderTaylorApproximation.f w (snd r)) = Raise AttributeError
  /\ fst (FirstOrderTaylorApproximation.grad w (snd r)) = Raise AttributeError.
Proof. repeat split. Qed.

End single_block_more.

Section standalone_shapes.

(** On 1-by-1 arrays the value is a 1-by-1 array. *)
Theorem value_1_by_1 fn (a x g : Z) cs :
  Function_grad fn (np.col [a]) = np.col [g] ->
  fst (FirstOrderTaylorApproximation.f (np.col [x])
         (snd (FirstOrderTaylorApproximation.__init__ (Some fn)
                 (np.col [a]) cs)))
  = Ok (np.Ar [np.Ar [np.Sc (Function_f fn (np.col [a]) + g * (x - a))]]).
Proof.
  intros HG. rewrite init_spec_single. cbn [snd].
  unfold FirstOrderTaylorApproximation.f,
    FirstOrderTaylorApproximation._precompute, BaseTaylor._precompute,
    the_function, not_None. unfold_se. cbn.
  rewrite HG. unfold np.sub. rewrite elementwise_col by reflexivity.
  cbn [bind zip_with].
  change (np.col [g]) with (np.row [g]).
  rewrite dot_row_col by (cbn; auto; discriminate).
  cbn [bind]. rewrite add_scalar_1x1. unfold dotp. cbn [zip_with np.sum fold_right].
  rewrite Z.add_0_r. reflexivity.
Qed.

Lemma broadcast_length_mismatch n op (la lb : list np.ndarray) :
  np.ndim (np.Ar la) = np.ndim (np.Ar lb) ->
  length la <> length lb -> length la <> 1 -> length lb <> 1 ->
  np.broadcast (S n) op (np.Ar la) (np.Ar lb) = Raise ValueError.
Proof.
  intros Hd Hl Ha Hb. cbn [np.broadcast]. rewrite Hd, Nat.compare_refl.
  cbn [np.children]. destruct (Nat.eqb_spec (length la) (length lb)); [lia|].
  destruct la as [|x [|x' la]]; cbn in Ha; try lia;
    destruct lb as [|y [|y' lb]]; cbn in Hb; cbn in Hl; try lia; reflexivity.
Qed.

(** On 1-d arrays, an argument whose length is neither the length of the
    point nor 1 is refused: the value raises ValueError. *)
Theorem value_length_mismatch fn (a x : list Z) cs :
  length x <> length a -> length x <> 1 -> length a <> 1 ->
  fst (FirstOrderTaylorApproximation.f (np.vec x)
         (snd (FirstOrderTaylorApproximation.__init__ (Some fn)
                 (np.vec a) cs)))
  = Raise ValueError.
Proof.
  intros Hl Hx Ha. rewrite init_spec_single. cbn [snd].
  unfold FirstOrderTaylorApproximation.f,
    FirstOrderTaylorApproximation._precompute, BaseTaylor._precompute,
    the_function, not_None. unfold_se. cbn.
  unfold np.sub, np.elementwise, np.vec.
  rewrite broadcast_length_mismatch; rewrite ?length_map; auto.
  destruct x, a; reflexivity.
Qed.

End standalone_shapes.

(* ------------------------------------------------------------------ *)
(** ** MultiblockFirstOrderTaylorApproximation: indices, recentering, caching *)

Section multiblock_more.

Import MultiblockBaseTaylor.

Lemma seq_getitem_0 {A} (x : A) l : seq_getitem (x :: l) 0 = Ok x.
Proof. apply (seq_getitem_nat (x :: l) 0). Qed.

Lemma seq_getitem_1 {A} (x y : A) l : seq_getitem (x :: y :: l) 1 = Ok y.
Proof. apply (seq_getitem_nat (x :: y :: l) 1). Qed.

Lemma getitem_list_nat pl i b :
  pl !! i = Some b -> getitem (PList pl) (PyInt (Z.of_nat i)) = Ok b.
Proof. intros H. cbn [getitem]. rewrite seq_getitem_nat, H. reflexivity. Qed.

(** [at_point] of the multiblock class. *)
Lemma mb_at_point_spec self p :
  MultiblockFirstOrderTaylorApproximation.at_point p self =
  (Ok tt,
   {| function := function self; point := p;
      f_at_point := None; grad_at_point := None;
      indices := indices self;
      calls := calls self ++ match function self with
                             | Some _ => [call_reset]
                             | None => []
                             end |}).
Proof.
  destruct self as [[fn|] p0 fa ga ix cs]; cbn; rewrite ?app_nil_r; reflexivity.
Qed.

Lemma selected_blocks_spec (h : list (list pyidx)) self pl r i0 i1 rest b0 b1 :
  indices self = Some r -> point self = PList pl ->
  deref h r = PyInt (Z.of_nat i0) :: PyInt (Z.of_nat i1) :: rest ->
  pl !! i0 = Some b0 -> pl !! i1 = Some b1 ->
  selected_blocks h self = (Ok [b0; b1], self).
Proof.
  intros Hi Hp Hd H0 H1. unfold selected_blocks, the_index.
  unfold sbind, gets, lift, sret. rewrite Hi, Hd, Hp.
  rewrite seq_getitem_0. cbn beta iota.
  rewrite (getitem_list_nat pl i0 b0 H0). cbn beta iota.
  rewrite Hi, Hd, seq_getitem_1. cbn beta iota.
  rewrite (getitem_list_nat pl i1 b1 H1).
  reflexivity.
Qed.

(** The loop of [_precompute] over the entries [k .. k+m) of the list of
    gradients. *)
Lemma mb_grad_loop (h : list (list pyidx)) fn pl r i0 i1 rest b0 b1 fa m :
  deref h r = PyInt (Z.of_nat i0) :: PyInt (Z.of_nat i1) :: rest ->
  pl !! i0 = Some b0 -> pl !! i1 = Some b1 ->
  forall k cs (l : list (option np.ndarray)),
  k + m <= length l ->
  for_each (seq k m)
    (fun i =>
       fn <~ the_function ;;
       x <~ selected_blocks h ;;
       modify (record_call (call_grad x i)) ;;;
       MultiblockFirstOrderTaylorApproximation.set_grad_entry i
         (MultiblockFunction_grad fn x i))
    {| function := Some fn; point := PList pl;
       f_at_point := fa; grad_at_point := Some l;
       indices := Some r; calls := cs |}
  = (Ok tt,
     {| function := Some fn; point := PList pl;
        f_at_point := fa;
        grad_at_point :=
          Some (take k l
                ++ map (fun i => Some (MultiblockFunction_grad fn [b0; b1] i))
                     (seq k m)
                ++ drop (k + m) l);
        indices := Some r;
        calls := cs ++ map (call_grad [b0; b1]) (seq k m) |}).
Proof.
  intros Hd H0 H1. induction m as [|m IH]; intros k cs l Hk.
  - cbn [seq for_each map app]. rewrite Nat.add_0_r, take_drop, app_nil_r.
    reflexivity.
  - cbn [seq for_each]. unfold sbind at 1.
    unfold sbind at 1. unfold the_function at 1. cbn [function].
    unfold sbind at 1.
    erewrite selected_blocks_spec; [| reflexivity | reflexivity | eassumption
                                    | eassumption | eassumption].
    unfold sbind at 1. unfold modify at 1.
    unfold MultiblockFirstOrderTaylorApproximation.set_grad_entry.
    unfold sbind at 1. unfold gets at 1. cbn [grad_at_point record_call].
    destruct (decide (k < length l)) as [Hlt|]; [|lia].
    unfold modify. unfold set_grad_at_point. cbn [function point f_at_point
      grad_at_point indices calls].
    rewrite IH by (rewrite length_insert; lia).
    f_equal. f_equal.
    + f_equal.
      destruct (lookup_lt_is_Some_2 l k Hlt) as [x Hx].
      rewrite (take_S_r (<[k := Some (MultiblockFunction_grad fn [b0; b1] k)]> l)
                 k (Some (MultiblockFunction_grad fn [b0; b1] k)))
        by (apply list_lookup_insert_eq; lia).
      rewrite take_insert_ge by lia.
      rewrite drop_insert_lt by lia.
      cbn [map]. rewrite <- app_assoc. cbn [app].
      replace (S k + m) with (k + S m) by lia. reflexivity.
    + cbn [map calls record_call]. rewrite <- app_assoc. reflexivity.
Qed.

Lemma map_seq_replicate {A} (g : nat -> A) n (x : A) :
  take 0 (replicate n x) ++ map g (seq 0 n) ++ drop (0 + n) (replicate n x)
  = map g (seq 0 n).
Proof.
  rewrite take_0. cbn [app Nat.add].
  rewrite drop_ge by (rewrite length_replicate; lia).
  apply app_nil_r.
Qed.

(** What [_precompute] leaves when both caches are empty and the list of
    indices starts with two indices of blocks of the point. *)
Lemma mb_precompute_uncached (h : list (list pyidx)) fn pl r cs i0 i1 rest b0 b1 :
  deref h r = PyInt (Z.of_nat i0) :: PyInt (Z.of_nat i1) :: rest ->
  pl !! i0 = Some b0 -> pl !! i1 = Some b1 ->
  MultiblockFirstOrderTaylorApproximation._precompute h
    {| function := Some fn; point := PList pl;
       f_at_point := None; grad_at_point := None;
       indices := Some r; calls := cs |}
  = (Ok tt,
     {| function := Some fn; point := PList pl;
        f_at_point := Some (MultiblockFunction_f fn [b0; b1]);
        grad_at_point :=
          Some (map (fun i => Some (MultiblockFunction_grad fn [b0; b1] i))
                  (seq 0 (2 + length rest)));
        indices := Some r;
        calls := cs ++ call_f [b0; b1]
                 :: map (call_grad [b0; b1]) (seq 0 (2 + length rest)) |}).
Proof.
  intros Hd H0 H1.
  unfold MultiblockFirstOrderTaylorApproximation._precompute, _precompute.
  unfold sbind at 1. unfold sbind at 1. unfold gets at 1. cbn [f_at_point].
  unfold sbind at 1. unfold the_function at 1. cbn [function].
  unfold sbind at 1.
  erewrite selected_blocks_spec; [| reflexivity | reflexivity | eassumption
                                  | eassumption | eassumption].
  unfold sbind at 1. unfold modify at 1 2.
  unfold record_call, set_f_at_point. cbn [function point f_at_point
    grad_at_point indices calls].
  unfold sbind at 1. unfold gets at 1. cbn [grad_at_point].
  unfold sbind at 1. unfold len_indices at 1. unfold sbind at 1.
  unfold gets at 1. cbn [indices]. unfold sret at 1.
  unfold sbind at 1. unfold modify at 1. unfold set_grad_at_point.
  cbn [function point f_at_point grad_at_point indices calls].
  unfold sbind at 1. unfold len_indices at 1. unfold sbind at 1.
  unfold gets at 1. cbn [indices]. unfold sret at 1.
  rewrite Hd. cbn [length]. unfold range.
  rewrite (mb_grad_loop h fn pl r i0 i1 rest b0 b1 _ _ Hd H0 H1)
    by (rewrite length_replicate; lia).
  rewrite map_seq_replicate. rewrite <- app_assoc. reflexivity.
Qed.

Lemma getitem_list_0 x l : getitem (PList (x :: l)) (PyInt 0) = Ok x.
Proof. apply seq_getitem_0. Qed.

Lemma getitem_list_1 x y l : getitem (PList (x :: y :: l)) (PyInt 1) = Ok y.
Proof. apply seq_getitem_1. Qed.

(** The value served when both caches are empty and the list of indices is
    [i0, i1]: the blocks of the point are selected by the indices, the
    blocks of the argument by position. *)
Lemma mb_value_uncached (h : list (list pyidx)) fn pl r cs i0 i1
    (a0 a1 g0 g1 w0 w1 : list Z) :
  deref h r = [PyInt (Z.of_nat i0); PyInt (Z.of_nat i1)] ->
  pl !! i0 = Some (np.col a0) -> pl !! i1 = Some (np.col a1) ->
  a0 <> [] -> a1 <> [] ->
  length w0 = length a0 -> length g0 = length a0 ->
  length w1 = length a1 -> length g1 = length a1 ->
  MultiblockFunction_grad fn [np.col a0; np.col a1] 0 = np.col g0 ->
  MultiblockFunction_grad fn [np.col a0; np.col a1] 1 = np.col g1 ->
  fst (MultiblockFirstOrderTaylorApproximation.f h
         (PList [np.col w0; np.col w1])
         {| function := Some fn; point := PList pl;
            f_at_point := None; grad_at_point := None;
            indices := Some r; calls := cs |})
  = Ok (np.Sc (MultiblockFunction_f fn [np.col a0; np.col a1]
               + dotp g0 (diff w0 a0) + dotp g1 (diff w1 a1))).
Proof.
  intros Hd H0 H1 Ha0 Ha1 Hw0 Hg0 Hw1 Hg1 HG0 HG1.
  unfold MultiblockFirstOrderTaylorApproximation.f.
  unfold sbind at 1.
  rewrite (mb_precompute_uncached h fn pl r cs i0 i1 [] _ _ Hd H0 H1).
  cbn [length Nat.add seq map].
  pose proof (linear_term g0 w0 a0 Ha0 Hw0 Hg0) as L0.
  pose proof (linear_term g1 w1 a1 Ha1 Hw1 Hg1) as L1.
  unfold bind in L0, L1.
  pose proof (getitem_list_nat pl i0 _ H0) as P0.
  pose proof (getitem_list_nat pl i1 _ H1) as P1.
  revert Hd P0 P1. generalize (Z.of_nat i0) as z0, (Z.of_nat i1) as z1.
  intros z0 z1 Hd P0 P1.
  do 8 (lazy -[deref getitem np.sub np.dot np.T np.getitem2 np.add np.col dotp
               diff Z.add MultiblockFunction_f MultiblockFunction_grad];
        rewrite ?Hd, ?getitem_list_0, ?getitem_list_1, ?P0, ?P1).
  rewrite HG0, HG1.
  destruct (np.sub (np.col w0) (np.col a0)) as [d0|]; [|discriminate].
  destruct (np.dot (np.T (np.col g0)) d0) as [t0|]; [|discriminate].
  rewrite L0. rewrite add_scalars.
  destruct (np.sub (np.col w1) (np.col a1)) as [d1|]; [|discriminate].
  destruct (np.dot (np.T (np.col g1)) d1) as [t1|]; [|discriminate].
  rewrite L1. rewrite add_scalars. reflexivity.
Qed.

(** The heap and the instance the constructor leaves, read at the list
    the instance keeps. *)
Lemma init_indices (h : list (list pyidx)) fn p r cs :
  r < length h ->
  let s := snd (MultiblockFirstOrderTaylorApproximation.__init__ h fn p r cs) in
  snd s = {| function := fn; point := p;
             f_at_point := None; grad_at_point := None;
             indices := Some (length h);
             calls := cs ++ match fn with
                            | Some _ => [call_reset; call_reset]
                            | None => []
                            end |}
  /\ deref (fst s) (length h) = deref h r.
Proof.
  intros Hr s. subst s. rewrite init_spec by assumption. cbn [fst snd].
  split; [reflexivity|].
  rewrite deref_insert_ne by lia. apply deref_alloc_new.
Qed.

(** An approximation built with the index list [i0, i1] around a point of
    any number of blocks: the value at [w0, w1] expands the function around
    the blocks i0 and i1 of the point; the blocks of the argument are taken
    by position. *)
Theorem multiblock_value_selected_blocks (h : list (list pyidx)) fn pl r cs
    i0 i1 (a0 a1 g0 g1 w0 w1 : list Z) :
  r < length h ->
  deref h r = [PyInt (Z.of_nat i0); PyInt (Z.of_nat i1)] ->
  pl !! i0 = Some (np.col a0) -> pl !! i1 = Some (np.col a1) ->
  a0 <> [] -> a1 <> [] ->
  length w0 = length a0 -> length g0 = length a0 ->
  length w1 = length a1 -> length g1 = length a1 ->
  MultiblockFunction_grad fn [np.col a0; np.col a1] 0 = np.col g0 ->
  MultiblockFunction_grad fn [np.col a0; np.col a1] 1 = np.col g1 ->
  let s := snd (MultiblockFirstOrderTaylorApproximation.__init__
                  h (Some fn) (PList pl) r cs) in
  fst (MultiblockFirstOrderTaylorApproximation.f (fst s)
         (PList [np.col w0; np.col w1]) (snd s))
  = Ok (np.Sc (MultiblockFunction_f fn [np.col a0; np.col a1]
               + dotp g0 (diff w0 a0) + dotp g1 (diff w1 a1))).
Proof.
  intros Hr Hd H0 H1 Ha0 Ha1 Hw0 Hg0 Hw1 Hg1 HG0 HG1 s.
  destruct (init_indices h (Some fn) (PList pl) r cs Hr) as [Es Ed].
  fold s in Es, Ed. rewrite Es.
  apply (mb_value_uncached _ fn pl _ _ i0 i1 a0 a1 g0 g1 w0 w1); auto.
  rewrite Ed. exact Hd.
Qed.

(** Recentering a multiblock approximation never fails, empties both
    caches and resets the wrapped function once; the value served next
    expands the function around the blocks of the new point. *)
Theorem multiblock_recenter_then_value (h : list (list pyidx)) self fn pl r
    i0 i1 (a0 a1 g0 g1 w0 w1 : list Z) :
  function self = Some fn -> indices self = Some r ->
  deref h r = [PyInt (Z.of_nat i0); PyInt (Z.of_nat i1)] ->
  pl !! i0 = Some (np.col a0) -> pl !! i1 = Some (np.col a1) ->
  a0 <> [] -> a1 <> [] ->
  length w0 = length a0 -> length g0 = length a0 ->
  length w1 = length a1 -> length g1 = length a1 ->
  MultiblockFunction_grad fn [np.col a0; np.col a1] 0 = np.col g0 ->
  MultiblockFunction_grad fn [np.col a0; np.col a1] 1 = np.col g1 ->
  let self' :=
    snd (MultiblockFirstOrderTaylorApproximation.at_point (PList pl) self) in
  fst (MultiblockFirstOrderTaylorApproximation.at_point (PList pl) self)
  = Ok tt
  /\ f_at_point self' = None /\ grad_at_point self' = None
  /\ calls self' = calls self ++ [call_reset]
  /\ fst (MultiblockFirstOrderTaylorApproximation.f h
            (PList [np.col w0; np.col w1]) self')
     = Ok (np.Sc (MultiblockFunction_f fn [np.col a0; np.col a1]
                  + dotp g0 (diff w0 a0) + dotp g1 (diff w1 a1))).
Proof.
  intros Hf Hi Hd H0 H1 Ha0 Ha1 Hw0 Hg0 Hw1 Hg1 HG0 HG1 self'. subst self'.
  rewrite mb_at_point_spec. cbn [fst snd f_at_point grad_at_point calls].
  rewrite Hf, Hi. repeat split.
  apply (mb_value_uncached _ fn pl _ _ i0 i1 a0 a1 g0 g1 w0 w1); auto.
Qed.

(** The gradient served for an index, whatever the argument: with n
    indices in the list, the index k < n gives the gradient of the function
    in block k at the two selected blocks, the index -k counts from the end,
    and any other index raises IndexError. *)
Theorem multiblock_gradient_by_index (h : list (list pyidx)) fn pl r cs
    i0 i1 rest b0 b1 w :
  r < length h ->
  deref h r = PyInt (Z.of_nat i0) :: PyInt (Z.of_nat i1) :: rest ->
  pl !! i0 = Some b0 -> pl !! i1 = Some b1 ->
  let s := snd (MultiblockFirstOrderTaylorApproximation.__init__
                  h (Some fn) (PList pl) r cs) in
  let n := 2 + length rest in
  (forall k, k < n ->
     fst (MultiblockFirstOrderTaylorApproximation.grad (fst s) w
            (Z.of_nat k) (snd s))
     = Ok (Some (MultiblockFunction_grad fn [b0; b1] k)))
  /\ (forall k, 0 < k <= n ->
        fst (MultiblockFirstOrderTaylorApproximation.grad (fst s) w
               (- Z.of_nat k) (snd s))
        = Ok (Some (MultiblockFunction_grad fn [b0; b1] (n - k))))
  /\ (forall z, (z < - Z.of_nat n \/ Z.of_nat n <= z)%Z ->
        fst (MultiblockFirstOrderTaylorApproximation.grad (fst s) w z (snd s))
        = Raise IndexError).
Proof.
  intros Hr Hd H0 H1 s n.
  destruct (init_indices h (Some fn) (PList pl) r cs Hr) as [Es Ed].
  fold s in Es, Ed. rewrite Es. rewrite <- Ed in Hd.
  assert (E : forall z,
    fst (MultiblockFirstOrderTaylorApproximation.grad (fst s) w z
           {| function := Some fn; point := PList pl;
              f_at_point := None; grad_at_point := None;
              indices := Some (length h);
              calls := cs ++ [call_reset; call_reset] |})
    = seq_getitem
        (map (fun i => Some (MultiblockFunction_grad fn [b0; b1] i)) (seq 0 n))
        z).
  { intros z. unfold MultiblockFirstOrderTaylorApproximation.grad.
    unfold sbind at 1.
    rewrite (mb_precompute_uncached _ fn pl _ _ i0 i1 rest b0 b1 Hd H0 H1).
    reflexivity. }
  set (l := map (fun i => Some (MultiblockFunction_grad fn [b0; b1] i))
              (seq 0 n)) in E.
  assert (Hl : length l = n) by (subst l; rewrite length_map, length_seq; auto).
  assert (Hk : forall k, k < n ->
            l !! k = Some (Some (MultiblockFunction_grad fn [b0; b1] k))).
  { intros k Hk. subst l. rewrite list_lookup_fmap.
    rewrite lookup_seq_lt by lia. reflexivity. }
  split; [|split].
  - intros k Hlt. rewrite E, seq_getitem_nat, Hk by lia. reflexivity.
  - intros k Hlt. rewrite E. unfold seq_getitem. rewrite Hl.
    destruct (Z.ltb_spec (- Z.of_nat k) 0); [|lia].
    destruct (Z.leb_spec 0 (- Z.of_nat k + Z.of_nat n)); [|lia].
    destruct (Z.ltb_spec (- Z.of_nat k + Z.of_nat n) (Z.of_nat n)); [|lia].
    cbn [andb].
    replace (Z.to_nat (- Z.of_nat k + Z.of_nat n)) with (n - k) by lia.
    rewrite Hk by lia. reflexivity.
  - intros z Hz. rewrite E. unfold seq_getitem. rewrite Hl.
    destruct (Z.ltb_spec z 0).
    + destruct (Z.leb_spec 0 (z + Z.of_nat n)); [lia|]. reflexivity.
    + destruct (Z.leb_spec 0 z); [|lia].
      destruct (Z.ltb_spec z (Z.of_nat n)); [lia|]. reflexivity.
Qed.

(** With fewer than two indices in the list, neither the value nor a
    gradient is ever served: [_precompute] reads indices[0] and indices[1].
    With no index at all and a function to call, the exception is
    IndexError. *)
Theorem multiblock_short_index_list (h : list (list pyidx)) fn p r cs w z :
  r < length h ->
  length (deref h r) < 2 ->
  let s := snd (MultiblockFirstOrderTaylorApproximation.__init__
                  h fn p r cs) in
  fst (MultiblockFirstOrderTaylorApproximation.__init__ h fn p r cs) = Ok tt
  /\ returns (fst (MultiblockFirstOrderTaylorApproximation.f (fst s) w (snd s)))
     = false
  /\ returns (fst (MultiblockFirstOrderTaylorApproximation.grad (fst s) w z
                     (snd s)))
     = false
  /\ (deref h r = [] -> fn <> None ->
      fst (MultiblockFirstOrderTaylorApproximation.f (fst s) w (snd s))
      = Raise IndexError
      /\ fst (MultiblockFirstOrderTaylorApproximation.grad (fst s) w z (snd s))
         = Raise IndexError).
Proof.
  intros Hr Hl s.
  destruct (init_indices h fn p r cs Hr) as [Es Ed].
  fold s in Es, Ed. rewrite Es.
  split; [rewrite init_spec by assumption; reflexivity|].
  unfold MultiblockFirstOrderTaylorApproximation.f,
    MultiblockFirstOrderTaylorApproximation.grad,
    MultiblockFirstOrderTaylorApproximation._precompute, _precompute.
  destruct fn as [fn|].
  2:{ repeat split; try reflexivity; intros; congruence. }
  unfold selected_blocks, the_index.
  unfold sbind, gets, the_function, lift. cbn [function f_at_point indices point].
  rewrite Ed.
  destruct (deref h r) as [|x [|y l]] eqn:E; [| |simpl in Hl; lia].
  - repeat split; reflexivity.
  - rewrite seq_getitem_0.
    destruct (getitem p x) as [b|e]; repeat split; try reflexivity;
      intros; discriminate.
Qed.

End multiblock_more.

Section float_indices.

Import MultiblockBaseTaylor.

(** A float among the block indices.  The constructor returns; the
    caller's list ends up holding ints, the list of the instance keeps the
    float; and with a list of blocks as the point, every value and every
    gradient asked of the instance raises TypeError, a list being indexed
    by the float. *)
Theorem float_index_raises (h : list (list pyidx)) fn pl r cs q rest w z :
  r < length h ->
  deref h r = PyFloat q :: rest ->
  let res := MultiblockFirstOrderTaylorApproximation.__init__
               h (Some fn) (PList pl) r cs in
  fst res = Ok tt
  /\ deref (fst (snd res)) r = PyInt (int (PyFloat q)) :: coerced rest
  /\ deref (fst (snd res)) (length h) = PyFloat q :: rest
  /\ fst (MultiblockFirstOrderTaylorApproximation.f (fst (snd res)) w
            (snd (snd res)))
     = Raise TypeError
  /\ fst (MultiblockFirstOrderTaylorApproximation.grad (fst (snd res)) w z
            (snd (snd res)))
     = Raise TypeError.
Proof.
  intros Hr Hd res.
  destruct (init_indices h (Some fn) (PList pl) r cs Hr) as [Es Ed].
  fold res in Es, Ed.
  assert (E1 : fst res = Ok tt)
    by (subst res; rewrite init_spec by assumption; reflexivity).
  assert (E2 : deref (fst (snd res)) r = coerced (deref h r)).
  { subst res. rewrite init_spec by assumption. cbn [fst snd].
    apply deref_insert_eq. rewrite length_app. cbn. lia. }
  rewrite Hd in E2, Ed. split; [exact E1|]. split; [exact E2|].
  split; [exact Ed|]. rewrite Es.
  unfold MultiblockFirstOrderTaylorApproximation.f,
    MultiblockFirstOrderTaylorApproximation.grad,
    MultiblockFirstOrderTaylorApproximation._precompute, _precompute,
    selected_blocks, the_index.
  unfold sbind, gets, the_function, lift.
  cbn [function f_at_point indices point]. rewrite Ed, seq_getitem_0.
  split; reflexivity.
Qed.

End float_indices.

Section multiblock_cache_fill.

Import MultiblockBaseTaylor.

Lemma mb_count_app p l1 l2 :
  mb_count p (l1 ++ l2) = mb_count p l1 + mb_count p l2.
Proof. unfold mb_count. rewrite filter_app, length_app. reflexivity. Qed.

Lemma selected_blocks_state h s : snd (selected_blocks h s) = s.
Proof.
  destruct s as [fn p fa ga ix cs].
  unfold selected_blocks, the_index. unfold sbind, gets, lift, sret, raise.
  break_result.
Qed.

Lemma f_term_state h w acc i s :
  snd (MultiblockFirstOrderTaylorApproximation.f_term h w acc i s) = s.
Proof.
  destruct s as [fn p fa ga ix cs].
  unfold MultiblockFirstOrderTaylorApproximation.f_term,
    MultiblockFirstOrderTaylorApproximation.grad_entry,
    MultiblockFirstOrderTaylorApproximation.the_array, the_index.
  unfold sbind, gets, lift, sret, raise.
  break_result.
Qed.

Lemma f_loop_state h w l : forall acc s,
  snd (MultiblockFirstOrderTaylorApproximation.f_loop h w acc l s) = s.
Proof.
  induction l as [|i l IH]; intros acc s; [reflexivity|].
  cbn [MultiblockFirstOrderTaylorApproximation.f_loop]. unfold sbind at 1.
  pose proof (f_term_state h w acc i s) as Ht.
  destruct (MultiblockFirstOrderTaylorApproximation.f_term h w acc i s)
    as [[acc'|e] s'] eqn:E; cbn [snd] in Ht; subst s'; [apply IH | reflexivity].
Qed.

Lemma fills_caches_refl n s : fills_caches n s s.
Proof.
  exists []. rewrite app_nil_r. unfold same_instance. cbn. repeat split; lia.
Qed.

Lemma fills_caches_trans n s1 s2 s3 :
  fills_caches n s1 s2 -> fills_caches n s2 s3 -> fills_caches n s1 s3.
Proof.
  intros (n1 & E1 & F1 & G1 & R1 & I1 & J1 & K1)
         (n2 & E2 & F2 & G2 & R2 & I2 & J2 & K2).
  exists (n1 ++ n2). rewrite E2, E1, <- app_assoc, !mb_count_app.
  unfold same_instance. repeat split; try lia; congruence.
Qed.

(** One turn of the loop that fills the list of gradients. *)
Lemma grad_turn h i s :
  let s' := snd ((fn <~ the_function ;;
                  x <~ selected_blocks h ;;
                  modify (record_call (call_grad x i)) ;;;
                  MultiblockFirstOrderTaylorApproximation.set_grad_entry i
                    (MultiblockFunction_grad fn x i)) s) in
  exists new,
    calls s' = calls s ++ new
    /\ mb_count mb_is_call_f new = 0
    /\ mb_count mb_is_call_grad new <= 1
    /\ mb_count mb_is_call_reset new = 0
    /\ f_at_point s' = f_at_point s
    /\ (grad_at_point s <> None -> grad_at_point s' <> None)
    /\ same_instance s s'.
Proof.
  destruct s as [fn p fa ga ix cs].
  unfold MultiblockFirstOrderTaylorApproximation.set_grad_entry.
  unfold sbind, the_function, modify, gets, raise. cbn [function].
  destruct fn as [fn|].
  2:{ exists []. rewrite app_nil_r. unfold same_instance. cbn.
      repeat split; auto. }
  match goal with
  | |- context [selected_blocks h ?S] =>
      pose proof (selected_blocks_state h S) as Hs;
      destruct (selected_blocks h S) as [[x|e] s1]; cbn [snd] in Hs; subst s1
  end.
  2:{ exists []. rewrite app_nil_r. unfold same_instance. cbn.
      repeat split; auto. }
  cbn [record_call grad_at_point function point f_at_point indices calls].
  exists [call_grad x i].
  destruct ga as [l|]; [destruct (decide (i < length l))|];
    unfold same_instance; cbn; repeat split; auto; congruence.
Qed.

Lemma grad_turns h l : forall s,
  let s' := snd (for_each l
                   (fun i =>
                      fn <~ the_function ;;
                      x <~ selected_blocks h ;;
                      modify (record_call (call_grad x i)) ;;;
                      MultiblockFirstOrderTaylorApproximation.set_grad_entry i
                        (MultiblockFunction_grad fn x i)) s) in
  exists new,
    calls s' = calls s ++ new
    /\ mb_count mb_is_call_f new = 0
    /\ mb_count mb_is_call_grad new <= length l
    /\ mb_count mb_is_call_reset new = 0
    /\ f_at_point s' = f_at_point s
    /\ (grad_at_point s <> None -> grad_at_point s' <> None)
    /\ same_instance s s'.
Proof.
  induction l as [|i l IH]; intros s.
  - exists []. rewrite app_nil_r. unfold same_instance. cbn. repeat split; auto.
  - cbn [for_each]. rewrite snd_sbind.
    destruct (grad_turn h i s) as (n1 & E1 & F1 & G1 & R1 & A1 & N1 & I1 & J1 & K1).
    match goal with
    | |- context [fst (?m s)] => destruct (m s) as [[[]|e] s1]
    end; cbn [fst snd] in *.
    + destruct (IH s1) as (n2 & E2 & F2 & G2 & R2 & A2 & N2 & I2 & J2 & K2).
      exists (n1 ++ n2). rewrite E2, E1, <- app_assoc, !mb_count_app.
      unfold same_instance. cbn [length].
      split_and!; try lia; try congruence; auto.
    + exists n1. unfold same_instance. cbn [length].
      split_and!; try lia; try congruence; auto.
Qed.

Lemma len_indices_eq (h : list (list pyidx)) s :
  len_indices h s
  = (match indices s with
     | Some r => Ok (length (deref h r))
     | None => Raise AttributeError
     end, s).
Proof.
  unfold len_indices, sbind, gets, sret, raise.
  destruct (indices s); reflexivity.
Qed.

Lemma base_precompute_fills n h s :
  fills_caches n s (snd (_precompute h s)).
Proof.
  destruct s as [fn p fa ga ix cs].
  unfold _precompute. unfold sbind, the_function, modify, gets, sret.
  cbn [function f_at_point].
  destruct fa as [fa|]; [apply fills_caches_refl|].
  cbn [function].
  destruct fn as [fn|]; [|apply fills_caches_refl].
  match goal with
  | |- context [selected_blocks h ?S] =>
      pose proof (selected_blocks_state h S) as Hs;
      destruct (selected_blocks h S) as [[x|e] s1]; cbn [snd] in Hs; subst s1
  end; [|apply fills_caches_refl].
  exists [call_f x]. unfold same_instance. cbn. split_and!; auto; lia.
Qed.

Lemma grads_precompute_fills h s :
  fills_caches (number_of_indices h s) s
    (snd ((ga <~ gets grad_at_point ;;
           match ga with
           | None =>
               n <~ len_indices h ;;
               modify (set_grad_at_point (Some (replicate n None))) ;;;
               n <~ len_indices h ;;
               for_each (range n)
                 (fun i =>
                    fn <~ the_function ;;
                    x <~ selected_blocks h ;;
                    modify (record_call (call_grad x i)) ;;;
                    MultiblockFirstOrderTaylorApproximation.set_grad_entry i
                      (MultiblockFunction_grad fn x i))
           | Some _ => sret tt
           end) s)).
Proof.
  rewrite snd_sbind. unfold gets at 1 2. cbn [fst snd].
  destruct (grad_at_point s) as [ga|] eqn:Hg; [apply fills_caches_refl|].
  unfold number_of_indices.
  rewrite snd_sbind, len_indices_eq. cbn [fst snd].
  destruct (indices s) as [r|] eqn:Hi; [|apply fills_caches_refl].
  rewrite snd_sbind, modify_eq. cbn [fst snd].
  rewrite snd_sbind, len_indices_eq. cbn [fst snd indices set_grad_at_point].
  rewrite Hi.
  match goal with
  | |- context [for_each ?l ?body ?S] =>
      destruct (grad_turns h l S)
        as (new & E & F & G & R & A & N & I & J & K)
  end.
  exists new. unfold range in G. rewrite length_seq in G.
  unfold same_instance.
  match goal with
  | |- context [for_each ?l ?body ?S] =>
      destruct (grad_at_point (snd (for_each l body S))) eqn:Hg'
  end.
  2:{ exfalso. apply N; [cbn; discriminate | reflexivity]. }
  unfold set_grad_at_point in *.
  cbn [function point f_at_point grad_at_point indices calls] in *.
  rewrite Hg, A. cbn [mb_pending]. split_and!; auto; lia.
Qed.

Lemma precompute_fills h s :
  fills_caches (number_of_indices h s) s
    (snd (MultiblockFirstOrderTaylorApproximation._precompute h s)).
Proof.
  unfold MultiblockFirstOrderTaylorApproximation._precompute.
  rewrite snd_sbind.
  pose proof (base_precompute_fills (number_of_indices h s) h s) as H1.
  destruct (_precompute h s) as [[[]|e] s1]; cbn [fst snd] in *; [|exact H1].
  eapply fills_caches_trans; [exact H1|].
  assert (Hn : number_of_indices h s = number_of_indices h s1).
  { destruct H1 as (_ & _ & _ & _ & _ & _ & _ & K).
    unfold number_of_indices. rewrite K. reflexivity. }
  rewrite Hn. apply grads_precompute_fills.
Qed.

(** A request is served by [_precompute] and reads the caches. *)
Lemma mb_serve_precompute h s q :
  mb_serve h s q
  = snd (MultiblockFirstOrderTaylorApproximation._precompute h s).
Proof.
  destruct q as [w|w z]; cbn [mb_serve].
  - unfold MultiblockFirstOrderTaylorApproximation.f.
    rewrite snd_sbind.
    destruct (MultiblockFirstOrderTaylorApproximation._precompute h s)
      as [[[]|e] s1]; cbn [fst snd]; [|reflexivity].
    destruct s1 as [fn p fa ga ix cs].
    unfold sbind, gets, len_indices, not_None, sret, raise.
    cbn [f_at_point indices].
    destruct ix; [|reflexivity]. destruct fa; [|reflexivity].
    apply f_loop_state.
  - unfold MultiblockFirstOrderTaylorApproximation.grad.
    rewrite snd_sbind.
    destruct (MultiblockFirstOrderTaylorApproximation._precompute h s)
      as [[[]|e] s1]; cbn [fst snd]; [|reflexivity].
    destruct s1 as [fn p fa ga ix cs].
    unfold MultiblockFirstOrderTaylorApproximation.grad_entry.
    unfold sbind, gets, lift, raise. cbn [grad_at_point].
    destruct ga; reflexivity.
Qed.

Lemma mb_serve_all_fills h qs : forall s,
  fills_caches (number_of_indices h s) s (mb_serve_all h qs s).
Proof.
  induction qs as [|q qs IH]; intros s; [apply fills_caches_refl|].
  cbn [mb_serve_all fold_left]. fold (mb_serve_all h qs (mb_serve h s q)).
  rewrite mb_serve_precompute.
  pose proof (precompute_fills h s) as H1.
  eapply fills_caches_trans; [exact H1|].
  assert (Hn : number_of_indices h s
               = number_of_indices h
                   (snd (MultiblockFirstOrderTaylorApproximation._precompute h s))).
  { destruct H1 as (_ & _ & _ & _ & _ & _ & _ & K).
    unfold number_of_indices. rewrite K. reflexivity. }
  rewrite Hn. apply IH.
Qed.

(** Whatever the state of a multiblock approximation, serving any
    sequence of value and gradient requests makes the wrapped function
    receive at most one call of [f], at most one call of [grad] per index of
    the list, and no reset; the function, the point and the indices are
    not assigned. *)
Theorem multiblock_caching h qs self :
  exists new,
    calls (mb_serve_all h qs self) = calls self ++ new
    /\ mb_count mb_is_call_f new <= 1
    /\ mb_count mb_is_call_grad new <= number_of_indices h self
    /\ mb_count mb_is_call_reset new = 0
    /\ point (mb_serve_all h qs self) = point self
    /\ indices (mb_serve_all h qs self) = indices self.
Proof.
  destruct (mb_serve_all_fills h qs self) as (new & E & F & G & R & I & J & K).
  exists new.
  pose proof (pending_le_1 (f_at_point self)).
  assert (mb_pending (number_of_indices h self) (grad_at_point self)
          <= number_of_indices h self)
    by (destruct (grad_at_point self); cbn; lia).
  split_and!; auto; lia.
Qed.

End multiblock_cache_fill.

(* ------------------------------------------------------------------ *)
(** ** FirstOrderTaylorWrapper: the markers *)

Section wrapper_more.

Import FirstOrderTaylorWrapper.

Lemma keeps_sbind {A B} P (m : SE pyobj A) (k : A -> SE pyobj B) :
  keeps P m -> (forall a, keeps P (k a)) -> keeps P (sbind m k).
Proof.
  intros Hm Hk o Ho. rewrite snd_sbind. specialize (Hm o Ho).
  destruct (fst (m o)); [apply Hk|]; assumption.
Qed.

Lemma reads_only_keeps {A} P (m : SE pyobj A) : reads_only m -> keeps P m.
Proof. intros H o Ho. rewrite H. exact Ho. Qed.

Lemma reads_only_sbind {A B} (m : SE pyobj A) (k : A -> SE pyobj B) :
  reads_only m -> (forall a, reads_only (k a)) -> reads_only (sbind m k).
Proof.
  intros Hm Hk o. rewrite snd_sbind, Hm.
  destruct (fst (m o)); [apply Hk | reflexivity].
Qed.

Lemma reads_only_gets {A} (g : pyobj -> A) : reads_only (gets g).
Proof. intros o. reflexivity. Qed.

Lemma reads_only_lift {A} (r : result A) : reads_only (lift (S := pyobj) r).
Proof. intros o. reflexivity. Qed.

Lemma reads_only_sret {A} (a : A) : reads_only (sret (S := pyobj) a).
Proof. intros o. reflexivity. Qed.

Lemma reads_only_raise {A} e : reads_only (raise (S := pyobj) (A := A) e).
Proof. intros o. reflexivity. Qed.

Lemma reads_only_getattr {A} (a : pyobj -> option A) : reads_only (getattr a).
Proof. intros o. unfold getattr. destruct (a o); reflexivity. Qed.

Ltac reads_only_tac :=
  repeat first
    [ apply reads_only_sbind; [|intros ?]
    | apply reads_only_gets | apply reads_only_lift | apply reads_only_sret
    | apply reads_only_raise | apply reads_only_getattr
    | match goal with
      | |- reads_only (if ?b then _ else _) => destruct b
      | |- reads_only (match ?x with _ => _ end) => destruct x
      end ].

Lemma reads_only_new_f x : reads_only (new_f x).
Proof. unfold new_f. reads_only_tac. Qed.

Lemma reads_only_new_grad x : reads_only (new_grad x).
Proof. unfold new_grad. reads_only_tac. Qed.

Lemma reads_only_mb_new_f_loop x l : forall val,
  reads_only (mb_new_f_loop x val l).
Proof.
  induction l as [|i l IH]; intros val; cbn [mb_new_f_loop].
  - apply reads_only_sret.
  - apply reads_only_sbind; [|intros ?; apply IH].
    unfold mb_new_f_term. reads_only_tac.
Qed.

Lemma reads_only_mb_new_f x : reads_only (mb_new_f x).
Proof.
  unfold mb_new_f.
  apply reads_only_sbind; [apply reads_only_getattr | intros p].
  apply reads_only_sbind; [apply reads_only_lift | intros n].
  apply reads_only_sbind; [apply reads_only_mb_new_f_loop | intros v].
  reads_only_tac.
Qed.

Lemma reads_only_mb_new_grad x i : reads_only (mb_new_grad x i).
Proof. unfold mb_new_grad. reads_only_tac. Qed.

(** Calling [f] or [grad] on an object leaves it as it was. *)
Lemma reads_only_call_f x : reads_only (call_f x).
Proof.
  unfold call_f. apply reads_only_sbind; [apply reads_only_gets | intros m].
  destruct m; auto using reads_only_raise, reads_only_sret,
    reads_only_new_f, reads_only_mb_new_f.
Qed.

Lemma reads_only_call_grad x i : reads_only (call_grad x i).
Proof.
  unfold call_grad. apply reads_only_sbind; [apply reads_only_gets | intros m].
  destruct m, i; auto using reads_only_raise, reads_only_sret,
    reads_only_new_grad, reads_only_mb_new_grad.
Qed.

Lemma keeps_modify P (g : pyobj -> pyobj) :
  (forall o, P o -> P (g o)) -> keeps P (modify g).
Proof. intros H o Ho. apply H, Ho. Qed.

Lemma keeps_for_each {A} P (body : A -> SE pyobj unit) l :
  (forall a, keeps P (body a)) -> keeps P (for_each l body).
Proof.
  intros Hb. induction l as [|a l IH]; cbn [for_each].
  - apply reads_only_keeps, reads_only_sret.
  - apply keeps_sbind; [apply Hb | intros _; apply IH].
Qed.

Ltac keeps_tac HP :=
  let H1 := fresh in let H2 := fresh in let H3 := fresh in
  let H4 := fresh in let H5 := fresh in
  pose proof HP as (H1 & H2 & H3 & H4 & H5);
  repeat first
    [ apply reads_only_keeps;
      first [ apply reads_only_call_f | apply reads_only_call_grad
            | apply reads_only_gets | apply reads_only_lift
            | apply reads_only_sret | apply reads_only_raise
            | apply reads_only_getattr ]
    | apply keeps_modify; solve [auto]
    | apply keeps_for_each; intros ?
    | apply keeps_sbind; [|intros ?]
    | match goal with
      | |- keeps _ (if ?b then _ else _) => destruct b
      | |- keeps _ (match ?x with _ => _ end) => destruct x
      end ].

(** The wrap routines keep every such property, whether they return or
    raise. *)
Lemma _wrap_keeps P point : kept_by_wrap P -> keeps P (_wrap point).
Proof. intros HP. unfold _wrap. keeps_tac HP. Qed.

Lemma _mb_wrap_keeps P point : kept_by_wrap P -> keeps P (_mb_wrap point).
Proof. intros HP. unfold _mb_wrap, set_grads_entry. keeps_tac HP. Qed.

Lemma marker_kept :
  kept_by_wrap (fun o => hasattr _taylor_point o = true).
Proof. repeat split; intros v [] H; exact H || reflexivity. Qed.

(** A wrap routine leaves the first marker on the object, whether it
    returns or raises. *)
Lemma _wrap_marks p o : hasattr _taylor_point (snd (_wrap p o)) = true.
Proof.
  unfold _wrap. rewrite snd_sbind. unfold gets at 1 2. cbn [fst snd].
  destruct (hasattr _taylor_point o) eqn:E.
  - rewrite snd_sbind. cbn [raise fst snd]. exact E.
  - rewrite snd_sbind. cbn [modify fst snd].
    match goal with
    | |- hasattr _ (snd (?rest ?o1)) = true =>
        assert (K : keeps (fun o => hasattr _taylor_point o = true) rest)
          by keeps_tac marker_kept;
        apply K
    end.
    destruct o; reflexivity.
Qed.

Lemma _mb_wrap_marks p o : hasattr _taylor_point (snd (_mb_wrap p o)) = true.
Proof.
  unfold _mb_wrap. rewrite snd_sbind. unfold gets at 1 2. cbn [fst snd].
  destruct (hasattr _taylor_point o) eqn:E.
  - rewrite snd_sbind. cbn [raise fst snd]. exact E.
  - rewrite snd_sbind. cbn [modify fst snd].
    match goal with
    | |- hasattr _ (snd (?rest ?o1)) = true =>
        assert (K : keeps (fun o => hasattr _taylor_point o = true) rest)
          by (unfold set_grads_entry; keeps_tac marker_kept);
        apply K
    end.
    destruct o; reflexivity.
Qed.

(** On an object that has the first marker both routines stop at their
    first check. *)
Lemma marked_is_rejected p o :
  hasattr _taylor_point o = true ->
  _wrap p o = (Raise RuntimeError, o) /\ _mb_wrap p o = (Raise RuntimeError, o).
Proof.
  intros H. split.
  - unfold _wrap. unfold sbind at 1. unfold gets at 1. rewrite H. reflexivity.
  - unfold _mb_wrap. unfold sbind at 1. unfold gets at 1. rewrite H.
    reflexivity.
Qed.

(** An object to which a wrap routine was applied once, whether the
    routine returned or raised, is refused by both routines from then on:
    they raise RuntimeError and leave the object as it is. *)
Theorem wrap_once o p p' :
  (_wrap p' (snd (_wrap p o)) = (Raise RuntimeError, snd (_wrap p o))
   /\ _mb_wrap p' (snd (_wrap p o)) = (Raise RuntimeError, snd (_wrap p o)))
  /\ (_wrap p' (snd (_mb_wrap p o)) = (Raise RuntimeError, snd (_mb_wrap p o))
      /\ _mb_wrap p' (snd (_mb_wrap p o))
         = (Raise RuntimeError, snd (_mb_wrap p o))).
Proof.
  split; apply marked_is_rejected; [apply _wrap_marks | apply _mb_wrap_marks].
Qed.

Lemma __call___eq (h : list pyobj) r p :
  __call__ h r p
  = (rmap (fun _ => length h) (fst (wrap_copy p (load h r))),
     h ++ [snd (wrap_copy p (load h r))]).
Proof.
  unfold __call__, deepcopy. rewrite load_deepcopy.
  destruct (wrap_copy p (load h r)) as [res o]. cbn [fst snd].
  rewrite store_copy. reflexivity.
Qed.

Lemma load_old (h : list pyobj) o r : r < length h -> load (h ++ [o]) r = load h r.
Proof. intros H. unfold load. rewrite lookup_app_l by lia. reflexivity. Qed.

Lemma load_new (h : list pyobj) o : load (h ++ [o]) (length h) = o.
Proof.
  unfold load. rewrite lookup_app_r by lia. rewrite Nat.sub_diag. reflexivity.
Qed.

Lemma flags_kept (b1 b2 b3 : bool) :
  kept_by_wrap (fun o => isinstance_CombinedFunction o = b1
                         /\ isinstance_CombinedMultiblockFunction o = b2
                         /\ isinstance_MultiblockFunction o = b3).
Proof. repeat split; destruct o; cbn in *; intuition. Qed.

(** Wrapping the object that [__call__] returned raises RuntimeError when
    the object is no composite; wrapping the original once more gives what
    it would have given had the original never been wrapped: a new copy,
    equal to that one. *)
Theorem wrapping_again (h : list pyobj) r p p' :
  r < length h ->
  let h1 := snd (__call__ h r p) in
  (isinstance_CombinedFunction (load h r) = false ->
   isinstance_CombinedMultiblockFunction (load h r) = false ->
   fst (__call__ h1 (length h) p') = Raise RuntimeError)
  /\ fst (__call__ h1 r p')
     = rmap (fun _ => S (length h)) (fst (__call__ h r p'))
  /\ load (snd (__call__ h1 r p')) (S (length h))
     = load (snd (__call__ h r p')) (length h).
Proof.
  intros Hr h1. subst h1. rewrite (__call___eq h r p). cbn [snd].
  set (o := load h r). set (o1 := snd (wrap_copy p o)).
  split; [|split].
  - intros Hc Hm. rewrite __call___eq. cbn [fst]. rewrite load_new.
    assert (Hk : isinstance_CombinedFunction o1 = false
                 /\ isinstance_CombinedMultiblockFunction o1 = false
                 /\ isinstance_MultiblockFunction o1
                    = isinstance_MultiblockFunction o
                 /\ hasattr _taylor_point o1 = true).
    { subst o1. unfold wrap_copy. unfold sbind, gets. rewrite Hc, Hm.
      destruct (isinstance_MultiblockFunction o) eqn:Hb.
      - pose proof (_mb_wrap_keeps _ p (flags_kept false false true) o
                      (conj Hc (conj Hm Hb))) as (? & ? & ?).
        pose proof (_mb_wrap_marks p o). auto.
      - pose proof (_wrap_keeps _ p (flags_kept false false false) o
                      (conj Hc (conj Hm Hb))) as (? & ? & ?).
        pose proof (_wrap_marks p o). auto. }
    destruct Hk as (Hc1 & Hm1 & Hb1 & Ht).
    unfold wrap_copy. unfold sbind, gets. rewrite Hc1, Hm1.
    destruct (marked_is_rejected p' o1 Ht) as [E1 E2].
    destruct (isinstance_MultiblockFunction o1); [rewrite E2 | rewrite E1];
      reflexivity.
  - rewrite !__call___eq. cbn [fst]. rewrite (load_old h o1 r) by assumption.
    fold o. rewrite length_app. cbn [length].
    destruct (fst (wrap_copy p' o)); cbn; [f_equal; lia | reflexivity].
  - rewrite !__call___eq. cbn [snd]. rewrite (load_old h o1 r) by assumption.
    fold o. rewrite load_new.
    replace (S (length h)) with (length (h ++ [o1]))
      by (rewrite length_app; cbn; lia).
    apply load_new.
Qed.

End wrapper_more.

Section wrapper_shapes.

Import FirstOrderTaylorWrapper.

(** The transpose of a 1-d array is the array itself. *)
Lemma T_vec g : np.T (np.vec g) = np.vec g.
Proof.
  unfold np.vec.
  change (np.T (np.Ar (map np.Sc g)))
    with (np.stack_last (pred (np.ndim (np.Ar (map np.Sc g))))
            (map np.T (map np.Sc g))).
  rewrite map_map.
  change (map (fun x => np.T (np.Sc x)) g) with (map np.Sc g).
  replace (pred (np.ndim (np.Ar (map np.Sc g)))) with 0
    by (destruct g; reflexivity).
  reflexivity.
Qed.

(** The gradient of a composite wrapped by [_wrap], on p-by-1 arrays: the
    gradient of the smooth part at the point of the wrap plus the gradient
    of the penalty at the argument. *)
Theorem _wrap_composite_gradient o F G P Q (a x g q : list Z) :
  composite_with_methods o F G P ->
  _grad_non_f o = Some Q ->
  length g = length q ->
  G (PArr (np.col a)) None = np.col g ->
  Q (PArr (np.col x)) None = np.col q ->
  fst (call_grad (PArr (np.col x)) None (snd (_wrap (PArr (np.col a)) o)))
  = Ok (one (np.col (zip_with Z.add g q))).
Proof.
  intros (Hc & Hm & Hf & Hg & Hp) HQ Hl HG HQx.
  destruct o as [c cm m bt af ad aN gf nf gnf fb gb ap tp tf tg]; cbn in *.
  unfold carries_marker, hasattr in Hm; cbn in Hm.
  destruct tp, tf, tg; try discriminate. subst.
  unfold _wrap, call_grad, new_grad. unfold_se. cbn.
  rewrite HG, HQx. unfold np.add. rewrite elementwise_col by assumption.
  reflexivity.
Qed.

(** The wrapper on a single-block function with 1-d arrays: the object is
    returned, but its value raises IndexError ([val[0, 0]] on a scalar). *)
Theorem wrap_value_1d_raises (h : list pyobj) r F G (a x g : list Z) :
  plain_function (load h r) F G ->
  length x = length a -> length g = length a ->
  G (PArr (np.vec a)) None = np.vec g ->
  fst (__call__ h r (PArr (np.vec a))) = Ok (length h)
  /\ value (snd (__call__ h r (PArr (np.vec a)))) (length h) (PArr (np.vec x))
     = Raise IndexError.
Proof.
  intros Hp Hx Hg HG.
  destruct (call_plain h r F G (PArr (np.vec a)) Hp) as [E1 E2].
  split; [exact E1|]. unfold value. rewrite E2.
  rewrite (_wrap_plain _ F G _ Hp). cbn [snd].
  destruct Hp as (Hc & _ & _ & _ & _ & _).
  destruct (load h r); cbn in *. subst.
  unfold call_f, new_f. unfold_se. cbn.
  rewrite HG, T_vec. unfold np.sub. rewrite elementwise_vec by auto.
  cbn [bind]. fold (diff x a).
  rewrite dot_vec_vec by (rewrite length_diff; lia).
  cbn [bind]. rewrite add_scalars. reflexivity.
Qed.

End wrapper_shapes.

(* ------------------------------------------------------------------ *)
(** ** FirstOrderTaylorWrapper: multiblock functions *)

Section mb_wrap.

Import FirstOrderTaylorWrapper.

Lemma set_grads_same v o :
  _taylor_grad_f_at_point o = Some v -> set__taylor_grad_f_at_point v o = o.
Proof. destruct o; cbn; intros ->; reflexivity. Qed.

Lemma set_grads_twice v v' o :
  set__taylor_grad_f_at_point v (set__taylor_grad_f_at_point v' o)
  = set__taylor_grad_f_at_point v o.
Proof. destruct o; reflexivity. Qed.

(** The loop of [_mb_wrap] over the entries [k .. k+m) of the list of
    gradients. *)
Lemma mb_wrap_loop G point m : forall k o (l : list (option np.ndarray)),
  _grad_f o = Some G ->
  _taylor_grad_f_at_point o = Some (blocks l) ->
  k + m <= length l ->
  for_each (seq k m)
    (fun i => g <~ getattr _grad_f ;; set_grads_entry i (g point (Some i))) o
  = (Ok tt,
     set__taylor_grad_f_at_point
       (blocks (take k l
                ++ map (fun i => Some (G point (Some i))) (seq k m)
                ++ drop (k + m) l)) o).
Proof.
  induction m as [|m IH]; intros k o l HG Hl Hk.
  - cbn [seq for_each map app]. rewrite Nat.add_0_r, take_drop.
    rewrite set_grads_same by assumption. reflexivity.
  - cbn [seq for_each]. unfold sbind at 1. unfold sbind at 1.
    unfold getattr at 1. rewrite HG.
    unfold set_grads_entry. unfold sbind at 1. unfold getattr at 1.
    rewrite Hl. destruct (decide (k < length l)) as [Hlt|]; [|lia].
    unfold modify.
    rewrite (IH (S k) _ (<[k := Some (G point (Some k))]> l)).
    2:{ destruct o; exact HG. }
    2:{ destruct o; reflexivity. }
    2:{ rewrite length_insert. lia. }
    rewrite set_grads_twice. f_equal. f_equal. f_equal.
    rewrite (take_S_r (<[k := Some (G point (Some k))]> l) k
               (Some (G point (Some k))))
      by (apply list_lookup_insert_eq; lia).
    rewrite take_insert_ge by lia.
    rewrite drop_insert_lt by lia.
    cbn [map]. rewrite <- app_assoc. cbn [app].
    replace (S k + m) with (k + S m) by lia. reflexivity.
Qed.

(** [_mb_wrap] on a multiblock function that was never wrapped: it
    attaches the point, the value of the smooth part at the point and one
    gradient per block of the point, and rebinds [f] and [grad]. *)
Lemma _mb_wrap_spec o F G point n :
  carries_marker o = false ->
  _f o = method F -> _grad_f o = Some G ->
  len point = Ok n ->
  _mb_wrap point o =
  (Ok tt,
   set_grad bound_mb_new_grad
     (set_f bound_mb_new_f
        (set__taylor_grad_f_at_point
           (blocks (map (fun i => Some (G point (Some i))) (seq 0 n)))
           (set__taylor_f_at_point (np.Sc (F point))
              (set__taylor_point point o))))).
Proof.
  intros Hm Hf HG Hn.
  destruct o as [c cm m bt af ad aN gf nf gnf fb gb ap tp tf tg]; cbn in *.
  unfold carries_marker, hasattr in Hm; cbn in Hm.
  destruct tp, tf, tg; try discriminate. subst.
  unfold _mb_wrap.
  repeat (erewrite sbind_ok by reflexivity;
          cbn [hasattr set__taylor_f_at_point set__taylor_point
               set__taylor_grad_f_at_point
               isinstance_CombinedFunction isinstance_CombinedMultiblockFunction
               isinstance_MultiblockFunction isinstance_BaseTaylor _f _d _N
               _grad_f _non_f _grad_non_f f grad at_point _taylor_point
               _taylor_f_at_point _taylor_grad_f_at_point]).
  match goal with
  | |- sbind _ _ ?S = _ =>
      erewrite (sbind_ok _ _ S tt
                  (set__taylor_grad_f_at_point
                     (blocks (map (fun i => Some (G point (Some i))) (seq 0 n)))
                     S))
  end.
  - repeat (erewrite sbind_ok by reflexivity). reflexivity.
  - erewrite sbind_ok by (unfold lift; rewrite Hn; reflexivity).
    erewrite sbind_ok by reflexivity.
    erewrite sbind_ok by (unfold lift; rewrite Hn; reflexivity).
    unfold range.
    rewrite (mb_wrap_loop G point n 0 _ (replicate n None));
      [| reflexivity | reflexivity | rewrite length_replicate; lia].
    rewrite take_0. cbn [app Nat.add].
    rewrite drop_ge by (rewrite length_replicate; lia). rewrite app_nil_r.
    reflexivity.
Qed.

End mb_wrap.

Section numpy_rank3.

Lemma mapM_map_ok {A B} (g : A -> result B) (h : A -> B) l :
  (forall x, In x l -> g x = Ok (h x)) -> mapM g l = Ok (map h l).
Proof.
  induction l as [|x l IH]; intros H; [reflexivity|].
  cbn [mapM map]. rewrite (H x) by (left; reflexivity). cbn [bind].
  rewrite IH by (intros y Hy; apply H; right; exact Hy). reflexivity.
Qed.

Lemma ndim_col x : x <> [] -> np.ndim (np.col x) = 2.
Proof. destruct x; [congruence | reflexivity]. Qed.

Lemma ndim_stack xs x0 xs' :
  xs = x0 :: xs' -> x0 <> [] -> np.ndim (np.Ar (map np.col xs)) = 3.
Proof. intros -> H. cbn [map np.ndim]. destruct x0; [congruence | reflexivity]. Qed.

Lemma shape_col x m :
  length x = m -> 0 < m -> np.shape (np.col x) = [m; 1].
Proof.
  intros <- H. destruct x; [simpl in H; lia|]. unfold np.col.
  cbn [np.shape map length]. rewrite length_map. reflexivity.
Qed.

(** Blocks of one length stack into a rank-3 array. *)
Lemma asarray_cols xs m :
  0 < m -> Forall (fun x => length x = m) xs ->
  np.asarray (map np.col xs) = Ok (np.Ar (map np.col xs)).
Proof.
  intros Hm Hx. unfold np.asarray.
  destruct xs as [|x0 xs]; [reflexivity|]. cbn [map].
  replace (forallb _ _) with true; [reflexivity|]. symmetry.
  apply forallb_forall. intros y Hy.
  change (np.col x0 :: map np.col xs) with (map np.col (x0 :: xs)) in Hy.
  apply in_map_iff in Hy as (x & <- & Hin).
  rewrite List.Forall_forall in Hx.
  assert (H0 : length x0 = m) by (apply Hx; left; reflexivity).
  assert (H1 : length x = m) by (apply Hx; exact Hin).
  rewrite (shape_col x m H1 Hm), (shape_col x0 m H0 Hm).
  unfold np.list_eqb. apply bool_decide_eq_true_2. reflexivity.
Qed.

Lemma broadcast_col n op (x a : list Z) :
  length x = length a ->
  np.broadcast (S (S n)) op (np.col x) (np.col a)
  = Ok (np.col (zip_with op x a)).
Proof.
  intros Hl. unfold np.col.
  assert (Hd : np.ndim (np.Ar (map (fun z => np.Ar [np.Sc z]) x))
               = np.ndim (np.Ar (map (fun z => np.Ar [np.Sc z]) a))).
  { destruct x, a; simpl in Hl; try lia; reflexivity. }
  rewrite broadcast_same_length by (rewrite ?length_map; auto).
  rewrite zipM_col. reflexivity.
Qed.

Lemma broadcast_deeper n op la b :
  np.ndim b < np.ndim (np.Ar la) ->
  np.broadcast (S n) op (np.Ar la) b
  = rmap np.Ar (mapM (fun x => np.broadcast n op x b) la).
Proof.
  intros H. apply Nat.compare_gt_iff in H.
  destruct b; cbn [np.broadcast]; rewrite H; reflexivity.
Qed.

Lemma broadcast_shallower n op a lb :
  np.ndim a < np.ndim (np.Ar lb) ->
  np.broadcast (S n) op a (np.Ar lb)
  = rmap np.Ar (mapM (fun y => np.broadcast n op a y) lb).
Proof.
  intros H. apply Nat.compare_lt_iff in H.
  destruct a; cbn [np.broadcast]; rewrite H; reflexivity.
Qed.

(** Arithmetic of a stack of p-by-1 blocks with one p-by-1 array: the
    array is combined with every block. *)
Lemma elementwise_stack_col op xs x0 xs' a :
  xs = x0 :: xs' -> a <> [] ->
  Forall (fun x => length x = length a) xs ->
  np.elementwise op (np.Ar (map np.col xs)) (np.col a)
  = Ok (np.Ar (map (fun x => np.col (zip_with op x a)) xs)).
Proof.
  intros Hxs Ha Hx. unfold np.elementwise.
  assert (H0 : x0 <> []).
  { subst xs. inversion Hx as [|? ? Hl _]. destruct x0, a; simpl in *; congruence. }
  rewrite (ndim_stack xs x0 xs' Hxs H0), (ndim_col a Ha).
  change (S (Nat.max 3 2)) with 4.
  rewrite broadcast_deeper
    by (rewrite (ndim_stack xs x0 xs' Hxs H0), (ndim_col a Ha); lia).
  assert (E2 : mapM (fun x => np.broadcast 3 op x (np.col a)) (map np.col xs)
               = Ok (map (fun x => np.col (zip_with op x a)) xs)).
  { clear Hxs. induction Hx as [|x l Hl _ IH]; [reflexivity|].
    cbn [map mapM]. rewrite broadcast_col by assumption. cbn [bind].
    rewrite IH. reflexivity. }
  rewrite E2. reflexivity.
Qed.

Lemma ndim_row g : g <> [] -> np.ndim (np.row g) = 2.
Proof. destruct g; [congruence | reflexivity]. Qed.

Lemma ndim_slab ts : ts <> [] -> np.ndim (np.Ar [np.col ts]) = 3.
Proof. destruct ts; [congruence | reflexivity]. Qed.

(** A 1-by-p array times a stack of p-by-1 blocks: the inner product
    with every block, in an array of shape (1, k, 1). *)
Lemma dot_row_stack g ds d0 ds' :
  ds = d0 :: ds' -> g <> [] ->
  Forall (fun d => length d = length g) ds ->
  np.dot (np.row g) (np.Ar (map np.col ds))
  = Ok (np.Ar [np.col (map (dotp g) ds)]).
Proof.
  intros Hds Hg Hd. unfold np.dot.
  assert (H0 : d0 <> []).
  { subst ds. inversion Hd as [|? ? Hl _]. destruct d0, g; simpl in *; congruence. }
  rewrite (ndim_row g Hg), (ndim_stack ds d0 ds' Hds H0).
  unfold np.row. cbn [np.at_depth mapM]. rewrite scalars_vec. cbn [bind].
  assert (E : mapM (fun m : np.ndarray =>
                      rows <- np.matrix m ;; rmap np.vec (np.vecmat g rows))
                (map np.col ds)
              = Ok (map (fun d => np.vec [dotp g d]) ds)).
  { clear Hds. induction Hd as [|d l Hl _ IH]; [reflexivity|].
    cbn [map mapM]. rewrite IH. rewrite matrix_col. cbn [bind].
    unfold np.vecmat. rewrite length_map, Hl, Nat.eqb_refl.
    assert (d <> []) by (destruct d, g; simpl in *; congruence).
    replace (np.ncols (map (fun z => [z]) d)) with 1
      by (destruct d; [congruence | reflexivity]).
    rewrite transpose_col. cbn [mapM]. unfold np.inner.
    rewrite <- Hl, Nat.eqb_refl. reflexivity. }
  rewrite E. cbn [bind rmap].
  unfold np.col. rewrite map_map. reflexivity.
Qed.

Lemma mapM_scalar_col n op z ts :
  mapM (fun y => np.broadcast (S (S n)) op (np.Sc z) y)
    (map (fun t => np.Ar [np.Sc t]) ts)
  = Ok (map (fun t => np.Ar [np.Sc (op z t)]) ts).
Proof.
  induction ts as [|t ts IH]; [reflexivity|].
  cbn [map mapM]. rewrite IH.
  rewrite broadcast_shallower by (cbn; lia).
  cbn [mapM]. rewrite broadcast_scalars. reflexivity.
Qed.

Lemma mapM_col_scalar n op z ts :
  mapM (fun x => np.broadcast (S (S n)) op x (np.Sc z))
    (map (fun t => np.Ar [np.Sc t]) ts)
  = Ok (map (fun t => np.Ar [np.Sc (op t z)]) ts).
Proof.
  induction ts as [|t ts IH]; [reflexivity|].
  cbn [map mapM]. rewrite IH.
  rewrite broadcast_deeper by (cbn; lia).
  cbn [mapM]. rewrite broadcast_scalars. reflexivity.
Qed.

(** A scalar plus an array of shape (1, k, 1), and the converse. *)
Lemma add_scalar_slab z ts :
  ts <> [] ->
  np.add (np.Sc z) (np.Ar [np.col ts])
  = Ok (np.Ar [np.col (map (Z.add z) ts)]).
Proof.
  intros Ht. unfold np.add, np.elementwise. rewrite (ndim_slab ts Ht).
  change (S (Nat.max (np.ndim (np.Sc z)) 3)) with 4.
  rewrite broadcast_shallower by (rewrite (ndim_slab ts Ht); cbn; lia).
  cbn [mapM]. unfold np.col at 1.
  rewrite broadcast_shallower.
  2:{ fold (np.col ts). rewrite (ndim_col ts Ht). cbn. lia. }
  rewrite mapM_scalar_col. cbn [rmap bind].
  unfold np.col. rewrite map_map. reflexivity.
Qed.

Lemma add_slab_scalar us z :
  us <> [] ->
  np.add (np.Ar [np.col us]) (np.Sc z)
  = Ok (np.Ar [np.col (map (fun u => (u + z)%Z) us)]).
Proof.
  intros Hu. unfold np.add, np.elementwise. rewrite (ndim_slab us Hu).
  change (S (Nat.max 3 (np.ndim (np.Sc z)))) with 4.
  rewrite broadcast_deeper by (rewrite (ndim_slab us Hu); cbn; lia).
  cbn [mapM]. unfold np.col at 1.
  rewrite broadcast_deeper.
  2:{ fold (np.col us). rewrite (ndim_col us Hu). cbn. lia. }
  rewrite mapM_col_scalar. cbn [rmap bind].
  unfold np.col. rewrite map_map. reflexivity.
Qed.

(** Two arrays of shape (1, k, 1) add entrywise. *)
Lemma add_slabs us ts :
  us <> [] -> length us = length ts ->
  np.add (np.Ar [np.col us]) (np.Ar [np.col ts])
  = Ok (np.Ar [np.col (zip_with Z.add us ts)]).
Proof.
  intros Hu Hl.
  assert (Ht : ts <> []) by (destruct us, ts; simpl in *; congruence).
  unfold np.add, np.elementwise.
  rewrite (ndim_slab us Hu), (ndim_slab ts Ht).
  change (S (Nat.max 3 3)) with 4.
  rewrite broadcast_same_length
    by (rewrite ?(ndim_slab us Hu), ?(ndim_slab ts Ht); reflexivity).
  cbn [zipM]. rewrite broadcast_col by assumption. reflexivity.
Qed.

Lemma getitem2_slab u us :
  np.getitem2 (np.Ar [np.col (u :: us)]) 0 0 = Ok (np.vec [u]).
Proof. reflexivity. Qed.

Lemma zip_with_maps {A} (f : Z -> Z -> Z) (g h : A -> Z) l :
  zip_with f (map g l) (map h l) = map (fun x => f (g x) (h x)) l.
Proof. induction l as [|x l IH]; [reflexivity|]. cbn. rewrite IH. reflexivity. Qed.

End numpy_rank3.

Section mb_wrap_values.

Import FirstOrderTaylorWrapper.

(** [__call__] on a multiblock function returns the copy, wrapped by
    [_mb_wrap]. *)
Lemma call_multiblock (h : list pyobj) r F G P Q point n :
  multiblock_function (load h r) F G P Q ->
  len point = Ok n ->
  fst (__call__ h r point) = Ok (length h)
  /\ load (snd (__call__ h r point)) (length h)
     = set_grad bound_mb_new_grad
         (set_f bound_mb_new_f
            (set__taylor_grad_f_at_point
               (blocks (map (fun i => Some (G point (Some i))) (seq 0 n)))
               (set__taylor_f_at_point (np.Sc (F point))
                  (set__taylor_point point (load h r))))).
Proof.
  intros (Hc & Hcm & Hmb & Hm & Hf & HG & _) Hn.
  rewrite __call___eq. cbn [fst snd]. rewrite load_new.
  unfold wrap_copy. unfold sbind, gets. rewrite Hc, Hcm, Hmb.
  rewrite (_mb_wrap_spec _ F G point n Hm Hf HG Hn). split; reflexivity.
Qed.

Lemma map_default_some {A B} (g : A -> B) (d : B) l :
  map (default d) (map (fun i => Some (g i)) l) = map g l.
Proof. rewrite map_map. reflexivity. Qed.

(** The gradient of a wrapped multiblock function for a block: the
    object returned is not the gradient for that block, but the stack of
    the gradients captured for all blocks, the gradient of the penalty for
    the block asked being added to each of them. *)
Theorem mb_wrap_gradient (h : list pyobj) r F G P Q point x n m k
    (gs : nat -> list Z) (q : list Z) :
  multiblock_function (load h r) F G P Q ->
  len point = Ok n -> 0 < n -> 0 < m ->
  (forall i, i < n -> G point (Some i) = np.col (gs i) /\ length (gs i) = m) ->
  Q x (Some k) = np.col q -> length q = m ->
  gradient (snd (__call__ h r point)) (length h) x (Some k)
  = Ok (one (np.Ar (map (fun i => np.col (zip_with Z.add (gs i) q))
                      (seq 0 n)))).
Proof.
  intros Hp Hn Hn0 Hm HG HQ Hq.
  destruct (call_multiblock h r F G P Q point n Hp Hn) as [_ E].
  unfold gradient. rewrite E.
  destruct Hp as (_ & _ & _ & _ & _ & _ & _ & HQf).
  destruct (load h r) as [c cm mb bt af ad aN gf nf gnf fb gb ap tp tf tg].
  cbn in HQf. rewrite HQf.
  unfold call_grad, mb_new_grad. unfold_se. cbn.
  rewrite map_default_some, HQ.
  assert (EG : map (fun i => G point (Some i)) (seq 0 n)
               = map np.col (map gs (seq 0 n))).
  { rewrite map_map. apply map_ext_in. intros i Hi.
    apply in_seq in Hi. apply HG. lia. }
  rewrite EG.
  assert (Hall : Forall (fun g => length g = length q) (map gs (seq 0 n))).
  { apply List.Forall_forall. intros g Hg.
    apply in_map_iff in Hg as (i & <- & Hi). apply in_seq in Hi.
    rewrite Hq. apply HG. lia. }
  rewrite (asarray_cols _ (length q)) by (auto; lia). cbn [bind].
  destruct n as [|n']; [lia|].
  unfold np.add.
  rewrite (elementwise_stack_col Z.add (map gs (seq 0 (S n'))) (gs 0)
             (map gs (seq 1 n')) q);
    [| reflexivity | destruct q; [simpl in Hq; lia | discriminate] | exact Hall].
  cbn [rmap bind]. rewrite map_map. reflexivity.
Qed.

Lemma sum_over_const l c g :
  sum_over l (fun i => (c + g i)%Z)
  = (Z.of_nat (length l) * c + sum_over l g)%Z.
Proof.
  induction l as [|i l IH]; [reflexivity|].
  cbn [sum_over fold_right length]. fold (sum_over l (fun i => (c + g i)%Z)).
  fold (sum_over l g). rewrite IH. lia.
Qed.

Section value_of_wrapped_multiblock.

Variables (Fv : Z) (gs : nat -> list Z) (as_ xs : list (list Z)) (m : nat).
Variable o : pyobj.

Hypothesis Hm : 0 < m.
Hypothesis Has : Forall (fun a => length a = m) as_.
Hypothesis Hxs : Forall (fun x => length x = m) xs.
Hypothesis Hgs : forall i, i < length as_ -> length (gs i) = m.
Hypothesis Hxs0 : xs <> [].
Hypothesis Hfa : _taylor_f_at_point o = Some (np.Sc Fv).
Hypothesis Hg :
  _taylor_grad_f_at_point o
  = Some (blocks (map (fun i => Some (np.col (gs i))) (seq 0 (length as_)))).
Hypothesis Hp : _taylor_point o = Some (PList (map np.col as_)).

Lemma term_of_block val i :
  i < length as_ ->
  mb_new_f_term (PList (map np.col xs)) val i o
  = (np.add val (np.Ar [np.col (map (block_term Fv gs as_ i) xs)]), o).
Proof.
  intros Hi. unfold mb_new_f_term. unfold sbind, getattr, lift.
  rewrite Hfa, Hg, Hp. unfold grads_getitem_T.
  rewrite seq_getitem_nat, list_lookup_fmap, lookup_seq_lt by assumption.
  cbn [fmap option_fmap option_map Nat.add bind].
  cbn [getitem]. rewrite seq_getitem_nat, list_lookup_fmap.
  destruct (as_ !! i) as [a|] eqn:Ea.
  2:{ apply lookup_ge_None in Ea. lia. }
  cbn [fmap option_fmap option_map bind py_sub].
  assert (Hla : length a = m).
  { exact (Forall_lookup_1 _ _ _ _ Has Ea). }
  assert (Hna : a <> []) by (destruct a; simpl in *; [lia | discriminate]).
  assert (Hgi : gs i <> []).
  { pose proof (Hgs i Hi). destruct (gs i); simpl in *; [lia | discriminate]. }
  rewrite (asarray_cols xs m Hm Hxs). cbn [bind].
  destruct xs as [|x0 xs'] eqn:Exs; [congruence|]. rewrite <- Exs in *.
  unfold np.sub.
  rewrite (elementwise_stack_col Z.sub xs x0 xs' a Exs Hna)
    by (rewrite Hla; exact Hxs).
  cbn [bind]. rewrite T_col by assumption.
  change (map (fun x => np.col (zip_with Z.sub x a)) xs)
    with (map (fun x => np.col (diff x a)) xs).
  rewrite <- (map_map (fun x => diff x a) np.col).
  rewrite (dot_row_stack (gs i) (map (fun x => diff x a) xs)
             (diff x0 a) (map (fun x => diff x a) xs')).
  2:{ rewrite Exs. reflexivity. }
  2:{ exact Hgi. }
  2:{ apply List.Forall_forall. intros d Hd.
      apply in_map_iff in Hd as (x & <- & Hx).
      rewrite List.Forall_forall in Hxs. specialize (Hxs x Hx).
      rewrite length_diff by lia. rewrite Hgs by assumption. lia. }
  cbn [bind]. rewrite map_map.
  rewrite add_scalar_slab by (rewrite Exs; discriminate).
  cbn [bind]. rewrite map_map.
  unfold block_term. rewrite (nth_lookup_Some as_ i [] a Ea). reflexivity.
Qed.

(** The loop of [_mb_wrap.new_f] over the blocks in [l], entered with an
    array of shape (1, k, 1). *)
Lemma loop_of_blocks l : forall V,
  Forall (fun i => i < length as_) l ->
  mb_new_f_loop (PList (map np.col xs)) (np.Ar [np.col (map V xs)]) l o
  = (Ok (np.Ar [np.col (map (fun x =>
                               (V x + sum_over l (fun i => block_term Fv gs as_ i x))%Z)
                          xs)]), o).
Proof.
  induction l as [|i l IH]; intros V Hl.
  - cbn [mb_new_f_loop sum_over fold_right]. unfold sret.
    do 5 f_equal. apply map_ext. intros x. lia.
  - inversion Hl as [|? ? Hi Hl']; subst.
    cbn [mb_new_f_loop]. unfold sbind. rewrite term_of_block by assumption.
    rewrite add_slabs.
    2:{ destruct xs; [congruence | discriminate]. }
    2:{ rewrite !length_map. reflexivity. }
    rewrite zip_with_maps. rewrite IH by assumption.
    do 5 f_equal. apply map_ext. intros x.
    cbn [sum_over fold_right]. fold (sum_over l (fun i => block_term Fv gs as_ i x)). lia.
Qed.

(** [_mb_wrap.new_f] on the wrapped object: every block adds the captured
    value and its linear term, taken at the first block of the argument. *)
Lemma mb_new_f_blocks x0 xs' P :
  xs = x0 :: xs' -> as_ <> [] -> _non_f o = Some P ->
  fst (mb_new_f (PList (map np.col xs)) o)
  = Ok (np.vec [(sum_over (seq 0 (length as_)) (fun i => block_term Fv gs as_ i x0)
                 + P (PList (map np.col xs)))%Z]).
Proof.
  intros Exs Hna HP. unfold mb_new_f.
  unfold sbind at 1. unfold getattr at 1. rewrite Hp.
  unfold sbind at 1. unfold lift at 1. cbn [len]. rewrite length_map.
  assert (Hlen : exists n', length as_ = S n')
    by (destruct as_; [congruence | eexists; reflexivity]).
  destruct Hlen as [n' Hlen].
  rewrite Hlen. unfold range. cbn [seq mb_new_f_loop].
  unfold sbind at 1. unfold sbind at 1.
  rewrite term_of_block by lia.
  rewrite add_scalar_slab by (rewrite Exs; discriminate).
  rewrite map_map. rewrite loop_of_blocks.
  2:{ apply List.Forall_forall. intros i Hi. apply in_seq in Hi. lia. }
  cbn [fst]. unfold sbind at 1. unfold getattr at 1. rewrite HP.
  unfold sbind at 1. unfold lift at 1.
  rewrite add_slab_scalar by (rewrite Exs; discriminate).
  rewrite map_map. unfold lift. cbn [fst]. rewrite Exs. cbn [map].
  rewrite getitem2_slab. cbn [sum_over fold_right].
  fold (sum_over (seq 1 n') (fun i => block_term Fv gs as_ i x0)).
  do 3 f_equal; lia.
Qed.

End value_of_wrapped_multiblock.

(** The value of a wrapped multiblock function.  With n blocks of one
    length in the point, the value at a list of blocks of that length is
    the 1-element array holding n times the value f(a) of the smooth part,
    plus the sum over the blocks i of <g_i, x_0 - a_i>, plus the penalty at
    the argument: the captured value is counted once per block, and every
    linear term is taken at the first block of the argument. *)
Theorem mb_wrap_value (h : list pyobj) r F G P Q (as_ xs : list (list Z))
    x0 xs' m (gs : nat -> list Z) :
  multiblock_function (load h r) F G P Q ->
  0 < m -> as_ <> [] ->
  Forall (fun a => length a = m) as_ ->
  xs = x0 :: xs' ->
  Forall (fun x => length x = m) xs ->
  (forall i, i < length as_ ->
     G (PList (map np.col as_)) (Some i) = np.col (gs i)
     /\ length (gs i) = m) ->
  value (snd (__call__ h r (PList (map np.col as_)))) (length h)
    (PList (map np.col xs))
  = Ok (np.vec
          [(Z.of_nat (length as_) * F (PList (map np.col as_))
            + sum_over (seq 0 (length as_))
                (fun i => dotp (gs i) (diff x0 (nth i as_ [])))
            + P (PList (map np.col xs)))%Z]).
Proof.
  intros Hp Hm Hna Has Exs Hxs HG.
  assert (Hn : len (PList (map np.col as_)) = Ok (length as_))
    by (cbn; rewrite length_map; reflexivity).
  destruct (call_multiblock h r F G P Q _ _ Hp Hn) as [_ E].
  unfold value. rewrite E.
  destruct Hp as (_ & _ & _ & _ & _ & _ & HP & _).
  destruct (load h r) as [c cm mb bt af ad aN gf nf gnf fb gb ap tp tf tg].
  cbn in HP.
  unfold call_f. unfold sbind at 1. unfold gets at 1. cbn [f set_grad set_f].
  assert (Hx0 : xs <> []) by (rewrite Exs; discriminate).
  match goal with
  | |- fst (mb_new_f _ ?O) = _ =>
      assert (Hg' : _taylor_grad_f_at_point O
                    = Some (blocks (map (fun i => Some (np.col (gs i)))
                                      (seq 0 (length as_)))));
      [ cbn; do 2 f_equal; apply map_ext_in; intros i Hi; apply in_seq in Hi;
        f_equal; apply HG; lia
      | rewrite (mb_new_f_blocks (F (PList (map np.col as_))) gs as_ xs m O
                   Hm Has Hxs (fun i Hi => proj2 (HG i Hi)) Hx0 eq_refl Hg'
                   eq_refl x0 xs' P Exs Hna HP) ]
  end.
  do 3 f_equal. unfold block_term.
  rewrite (sum_over_const _ (F (PList (map np.col as_)))).
  rewrite length_seq. reflexivity.
Qed.

End mb_wrap_values.

(* ------------------------------------------------------------------ *)
(** ** FirstOrderTaylorWrapper: multiblock composites *)

Section traversal.

Import FirstOrderTaylorWrapper.
























End traversal.

(* ------------------------------------------------------------------ *)
(** ** The further properties at concrete inputs *)

Section further_examples.

Import FirstOrderTaylorWrapper.

Lemma multiblock_value_selected_blocks_witness :
  let pl := [np.col [1; 2]%Z; np.col [9]%Z; np.col [3; 4]%Z] in
  let s := snd (MultiblockFirstOrderTaylorApproximation.__init__
                  [[PyInt 2; PyInt 0]] (Some pair_sum) (PList pl) 0 []) in
  fst (MultiblockFirstOrderTaylorApproximation.f (fst s)
         (PList [np.col [5; 5]%Z; np.col [2; 2]%Z]) (snd s))
  = Ok (np.Sc 14).
Proof.
  apply (multiblock_value_selected_blocks [[PyInt 2; PyInt 0]] pair_sum
           [np.col [1; 2]%Z; np.col [9]%Z; np.col [3; 4]%Z] 0 [] 2 0
           [3; 4]%Z [1; 2]%Z [1; 1]%Z [1; 1]%Z [5; 5]%Z [2; 2]%Z);
    first [ reflexivity | discriminate | (cbn; lia) ].
Defined.

Lemma multiblock_recenter_then_value_witness :
  let s := snd (MultiblockFirstOrderTaylorApproximation.__init__
                  [[PyInt 0; PyInt 1]] (Some pair_sum)
                  (PList [np.col [0; 0]%Z; np.col [0; 0]%Z]) 0 []) in
  let b := PList [np.col [1; 2]%Z; np.col [3; 4]%Z] in
  let self' :=
    snd (MultiblockFirstOrderTaylorApproximation.at_point b (snd s)) in
  fst (MultiblockFirstOrderTaylorApproximation.at_point b (snd s)) = Ok tt
  /\ MultiblockBaseTaylor.f_at_point self' = None
  /\ MultiblockBaseTaylor.grad_at_point self' = None
  /\ MultiblockBaseTaylor.calls self'
     = MultiblockBaseTaylor.calls (snd s) ++ [MultiblockBaseTaylor.call_reset]
  /\ fst (MultiblockFirstOrderTaylorApproximation.f (fst s)
            (PList [np.col [2; 2]%Z; np.col [5; 5]%Z]) self')
     = Ok (np.Sc 14).
Proof.
  apply (multiblock_recenter_then_value
           (fst (snd (MultiblockFirstOrderTaylorApproximation.__init__
                        [[PyInt 0; PyInt 1]] (Some pair_sum)
                        (PList [np.col [0; 0]%Z; np.col [0; 0]%Z]) 0 [])))
           (snd (snd (MultiblockFirstOrderTaylorApproximation.__init__
                        [[PyInt 0; PyInt 1]] (Some pair_sum)
                        (PList [np.col [0; 0]%Z; np.col [0; 0]%Z]) 0 [])))
           pair_sum [np.col [1; 2]%Z; np.col [3; 4]%Z] 1 0 1
           [1; 2]%Z [3; 4]%Z [1; 1]%Z [1; 1]%Z [2; 2]%Z [5; 5]%Z);
    first [ reflexivity | discriminate | (cbn; lia) ].
Defined.

Lemma multiblock_gradient_by_index_witness :
  let s := snd (MultiblockFirstOrderTaylorApproximation.__init__
                  [[PyInt 0; PyInt 1]] (Some pair_sum)
                  (PList [np.col [1; 2]%Z; np.col [3; 4; 5]%Z]) 0 []) in
  let w := PList [np.col [7; 7]%Z; np.col [8; 8; 8]%Z] in
  fst (MultiblockFirstOrderTaylorApproximation.grad (fst s) w 1 (snd s))
  = Ok (Some (np.col [1; 1; 1]%Z))
  /\ fst (MultiblockFirstOrderTaylorApproximation.grad (fst s) w (-1) (snd s))
     = Ok (Some (np.col [1; 1; 1]%Z))
  /\ fst (MultiblockFirstOrderTaylorApproximation.grad (fst s) w 2 (snd s))
     = Raise IndexError.
Proof.
  pose proof (multiblock_gradient_by_index [[PyInt 0; PyInt 1]] pair_sum
                [np.col [1; 2]%Z; np.col [3; 4; 5]%Z] 0 [] 0 1 []
                (np.col [1; 2]%Z) (np.col [3; 4; 5]%Z)
                (PList [np.col [7; 7]%Z; np.col [8; 8; 8]%Z])
                (Nat.lt_0_succ 0) eq_refl eq_refl eq_refl) as (H1 & H2 & H3).
  cbv zeta. split; [exact (H1 1 (le_n 2))|].
  split; [exact (H2 1 (conj (le_n 1) (le_S 1 1 (le_n 1))))|].
  apply (H3 2%Z). right. cbn. discriminate.
Defined.

Lemma multiblock_short_index_list_witness :
  let s := snd (MultiblockFirstOrderTaylorApproximation.__init__
                  [[PyInt 0]] (Some pair_sum)
                  (PList [np.col [1; 2]%Z; np.col [3; 4]%Z]) 0 []) in
  let w := PList [np.col [7; 7]%Z; np.col [8; 8]%Z] in
  fst (MultiblockFirstOrderTaylorApproximation.__init__
         [[PyInt 0]] (Some pair_sum)
         (PList [np.col [1; 2]%Z; np.col [3; 4]%Z]) 0 []) = Ok tt
  /\ returns (fst (MultiblockFirstOrderTaylorApproximation.f (fst s) w (snd s)))
     = false
  /\ returns (fst (MultiblockFirstOrderTaylorApproximation.grad (fst s) w 0
                     (snd s)))
     = false.
Proof.
  pose proof (multiblock_short_index_list [[PyInt 0]] (Some pair_sum)
                (PList [np.col [1; 2]%Z; np.col [3; 4]%Z]) 0 []
                (PList [np.col [7; 7]%Z; np.col [8; 8]%Z]) 0%Z
                (Nat.lt_0_succ 0) (le_n 2)) as (H1 & H2 & H3 & _).
  exact (conj H1 (conj H2 H3)).
Defined.

Lemma float_index_raises_witness :
  let res := MultiblockFirstOrderTaylorApproximation.__init__
               [[PyFloat (3 # 2); PyInt 1]] (Some pair_sum)
               (PList [np.col [1; 2]%Z; np.col [3; 4]%Z]) 0 [] in
  let w := PList [np.col [7; 7]%Z; np.col [8; 8]%Z] in
  fst res = Ok tt
  /\ deref (fst (snd res)) 0 = [PyInt 1; PyInt 1]
  /\ deref (fst (snd res)) 1 = [PyFloat (3 # 2); PyInt 1]
  /\ fst (MultiblockFirstOrderTaylorApproximation.f (fst (snd res)) w
            (snd (snd res)))
     = Raise TypeError
  /\ fst (MultiblockFirstOrderTaylorApproximation.grad (fst (snd res)) w 0
            (snd (snd res)))
     = Raise TypeError.
Proof.
  exact (float_index_raises [[PyFloat (3 # 2); PyInt 1]] pair_sum
           [np.col [1; 2]%Z; np.col [3; 4]%Z] 0 [] (3 # 2) [PyInt 1]
           (PList [np.col [7; 7]%Z; np.col [8; 8]%Z]) 0%Z
           (Nat.lt_0_succ 0) eq_refl).
Defined.

Lemma wrapping_again_witness :
  let p := PArr (np.col [1; 2]%Z) in
  let p' := PArr (np.col [3; 4]%Z) in
  let h1 := snd (__call__ [sum_object] 0 p) in
  fst (__call__ h1 1 p') = Raise RuntimeError
  /\ fst (__call__ h1 0 p') = Ok 2
  /\ value (snd (__call__ h1 0 p')) 2 (PArr (np.col [3; 4]%Z))
     = Ok (np.Sc 7).
Proof.
  pose proof (wrapping_again [sum_object] 0 (PArr (np.col [1; 2]%Z))
                (PArr (np.col [3; 4]%Z)) (Nat.lt_0_succ 0)) as (H1 & H2 & H3).
  cbv zeta. split; [exact (H1 eq_refl eq_refl)|].
  split; [exact H2|].
  exact (eq_trans
           (f_equal (fun o => fst (call_f (PArr (np.col [3; 4]%Z)) o)) H3)
           eq_refl).
Defined.

Lemma _wrap_composite_gradient_witness :
  fst (call_grad (PArr (np.col [3; -5]%Z)) None
         (snd (_wrap (PArr (np.col [1; 2]%Z)) combined_methods)))
  = Ok (one (np.col [1; 1]%Z)).
Proof.
  apply (_wrap_composite_gradient combined_methods _ _ _
           (fun p _ => zeros_like (stacked p))
           [1; 2]%Z [3; -5]%Z [1; 1]%Z [0; 0]%Z combined_methods_is_composite);
    reflexivity.
Defined.

Lemma wrap_value_1d_raises_witness :
  fst (__call__ [sum_object] 0 (PArr (np.vec [1; 2]%Z))) = Ok 1
  /\ value (snd (__call__ [sum_object] 0 (PArr (np.vec [1; 2]%Z)))) 1
       (PArr (np.vec [5; 7]%Z))
     = Raise IndexError.
Proof.
  apply (wrap_value_1d_raises [sum_object] 0 _ _ [1; 2]%Z [5; 7]%Z [1; 1]%Z
           sum_object_is_plain); reflexivity.
Defined.

Lemma value_1_by_1_witness :
  fst (FirstOrderTaylorApproximation.f (np.col [5]%Z)
         (snd (FirstOrderTaylorApproximation.__init__ (Some sum_function)
                 (np.col [2]%Z) [])))
  = Ok (np.Ar [np.Ar [np.Sc 5]]).
Proof.
  exact (value_1_by_1 sum_function 2%Z 5%Z 1%Z [] eq_refl).
Defined.

Lemma value_length_mismatch_witness :
  fst (FirstOrderTaylorApproximation.f (np.vec [1; 2; 3]%Z)
         (snd (FirstOrderTaylorApproximation.__init__ (Some sum_function)
                 (np.vec [1; 2]%Z) [])))
  = Raise ValueError.
Proof.
  apply (value_length_mismatch sum_function [1; 2]%Z [1; 2; 3]%Z []);
    discriminate.
Defined.

Lemma sum_multiblock_is_multiblock :
  multiblock_function (load [sum_multiblock] 0)
    (fun p => total (stacked p)) (fun p i => ones_like (block_of p i))
    (fun p => squares (stacked p)) (fun p i => twice (block_of p i)).
Proof. repeat split. Defined.

Lemma mb_wrap_gradient_witness :
  gradient
    (snd (__call__ [sum_multiblock] 0
            (PList [np.col [1; 2]%Z; np.col [3; 4]%Z]))) 1
    (PList [np.col [5; 6]%Z; np.col [7; 8]%Z]) (Some 1)
  = Ok (one (np.Ar [np.col [15; 17]%Z; np.col [15; 17]%Z])).
Proof.
  apply (mb_wrap_gradient [sum_multiblock] 0 _ _ _ _
           (PList [np.col [1; 2]%Z; np.col [3; 4]%Z])
           (PList [np.col [5; 6]%Z; np.col [7; 8]%Z]) 2 2 1
           (fun _ => [1; 1]%Z) [14; 16]%Z sum_multiblock_is_multiblock);
    try reflexivity; try lia.
  intros [|[|i]] Hi; [split; reflexivity | split; reflexivity | lia].
Defined.

Lemma mb_wrap_value_witness :
  value
    (snd (__call__ [sum_multiblock] 0
            (PList [np.col [1; 2]%Z; np.col [3; 4]%Z]))) 1
    (PList [np.col [5; 6]%Z; np.col [7; 8]%Z])
  = Ok (np.vec [206]%Z).
Proof.
  apply (mb_wrap_value [sum_multiblock] 0 _ _ _ _
           [[1; 2]; [3; 4]]%Z [[5; 6]; [7; 8]]%Z [5; 6]%Z [[7; 8]]%Z 2
           (fun _ => [1; 1]%Z) sum_multiblock_is_multiblock);
    try reflexivity; try lia; try discriminate.
  - repeat constructor.
  - repeat constructor.
  - intros [|[|i]] Hi; [split; reflexivity | split; reflexivity | simpl in Hi; lia].
Defined.


End further_examples.
